(** * idf_wmonitor: the host-side protocol client (client.go, coredump.go)

    A shallow embedding of the [Client] of idf_wmonitor and of the parts of
    the program it calls into.  The client is sequential Go code over a
    mutable struct, a TCP socket, the clock, the file system and the
    terminal; here it becomes a state-and-panic monad over a [State] made of
    the [Client] struct and a [World].  The world holds the clock, the trace
    of observable effects and the scripts that say what the environment
    answers (what the device sends, which system calls fail).

    Conventions.
    - Go's [int] is 64 bits wide on the supported platforms; every value
      stored in one here is a length of a slice held in memory or a small
      multiple of a 32-bit number, so it is a [Z] without wrap-around.
      Fixed-width wire fields ([uint16], [uint32]) have their truncation
      written out.
    - [time.Time] is a number of nanoseconds on the monotonic clock,
      [time.Duration] a number of nanoseconds.
    - The mutex [c.mu] and the goroutines of main are not modelled: one
      call runs at a time.
    - Writing to [c.stdout] and [c.stderr] and handing the terminal over
      and taking it back ([km.RunPaused]) always succeed; what is printed
      goes to the trace, one event per call and format string. *)

From Stdlib Require Import String Ascii.
From Stdlib Require Import Strings.Byte.
From Stdlib Require Import ZArith List Bool Lia.
Import ListNotations.

Local Open Scope string_scope.
Local Open Scope list_scope.
Local Open Scope Z_scope.

Set Implicit Arguments.

(* ================================================================= *)
(** ** Constants of client.go *)

Definition cmdPrintStdout   : byte := x00.  (* 0 *)
Definition cmdPrintStderr   : byte := x01.  (* 1 *)
Definition cmdPong          : byte := x05.  (* 5 *)
Definition cmdOTAProgress   : byte := x06.  (* 6 *)
Definition cmdOTASuccess    : byte := x07.  (* 7 *)
Definition cmdOTAFailed     : byte := x08.  (* 8 *)
Definition cmdConfig        : byte := x09.  (* 9 *)
Definition cmdPing          : byte := x80.  (* 128 *)
Definition cmdReboot        : byte := x81.  (* 129 *)
Definition cmdOTA           : byte := x82.  (* 130 *)
Definition cmdContinue      : byte := x83.  (* 131 *)
Definition cmdCoredumpRead  : byte := x84.  (* 132 *)
Definition cmdCoredumpErase : byte := x85.  (* 133 *)
Definition cmdGetConfig     : byte := x86.  (* 134 *)
Definition cmdSetConfig     : byte := x87.  (* 135 *)

Definition Millisecond : Z := 1000000.
Definition Second : Z := 1000 * Millisecond.

Definition otaTimeout : Z := Second * 5.

Definition hostConfigVersion     : byte := x01.
Definition hostConfigSSIDLen     : Z := 33.
Definition hostConfigPasswordLen : Z := 64.

Definition WifiModeAuto : byte := x00.
Definition WifiModeSTA  : byte := x01.
Definition WifiModeAP   : byte := x02.

(* ================================================================= *)
(** ** Data *)

(** Go's [error] values as the client tells them apart: [handleError] asks
    whether the error is a [*net.OpError] and whether its [Timeout()] holds;
    everything else ([io.EOF], [io.ErrUnexpectedEOF], [errors.New],
    [fmt.Errorf]) is an error that only has a text. *)
Inductive error : Type :=
| OpError (timeout : bool) (text : string)
| errorString (text : string).

Definition Error (e : error) : string :=
  match e with
  | OpError _ t => t
  | errorString t => t
  end.

(** scanner.go, [type Host struct { Host string; Addr string }]. *)
Record Host : Type := mkHost {
  Host_Host : string;
  Host_Addr : string
}.

Record HostConfig : Type := mkHostConfig {
  Version      : byte;
  WifiSSID     : string;
  WifiPassword : string;
  WifiMode     : byte
}.

(** The zero value [var cfg HostConfig]. *)
Definition HostConfig_zero : HostConfig := mkHostConfig x00 EmptyString EmptyString x00.

(** A [net.Conn] is a handle on a socket of the world. *)
Definition Handle := nat.

(** The callback stored in [onConfig], a function of a pointer to a
    [HostConfig], is known by its identity; calling it is an observable
    event. *)
Definition Callback := nat.

(** The fields of [Client] the modelled functions read or write.  [host]
    is what the pointer [c.Host] points to; [Connect] and [Reboot]
    dereference it, and main sets it before it calls them.  [stdin_km] says
    whether [c.stdin] is the [*keyboardMonitorReader] of interactive mode
    (main passes [os.Stdin] under [-n]).  [c.stdout] and [c.stderr] are
    never nil in main. *)
Record Client : Type := mkClient {
  host           : Host;
  conn           : option Handle;
  stdin_km       : bool;
  timeouts       : Z;
  otaSize        : Z;
  otaLastMessage : Z;
  onConfig       : option Callback
}.

Definition set_conn (v : option Handle) (c : Client) : Client :=
  mkClient (host c) v (stdin_km c) (timeouts c) (otaSize c) (otaLastMessage c) (onConfig c).
Definition set_timeouts (v : Z) (c : Client) : Client :=
  mkClient (host c) (conn c) (stdin_km c) v (otaSize c) (otaLastMessage c) (onConfig c).
Definition set_otaSize (v : Z) (c : Client) : Client :=
  mkClient (host c) (conn c) (stdin_km c) (timeouts c) v (otaLastMessage c) (onConfig c).
Definition set_otaLastMessage (v : Z) (c : Client) : Client :=
  mkClient (host c) (conn c) (stdin_km c) (timeouts c) (otaSize c) v (onConfig c).
Definition set_onConfig (v : option Callback) (c : Client) : Client :=
  mkClient (host c) (conn c) (stdin_km c) (timeouts c) (otaSize c) (otaLastMessage c) v.

(** [NewClient]: every field not passed in has its zero value.  (The host,
    assigned by [handleServer] before [Connect], is passed in here.) *)
Definition NewClient (h : Host) (interactive : bool) : Client :=
  mkClient h None interactive 0 0 0 None.

(* ================================================================= *)
(** ** The world *)

Inductive Stream : Type := Stdout | Stderr.

(** What the client prints, by format string of the source. *)
Inductive Message : Type :=
| MsgText (data : list byte)                    (* fmt.Fprint(w, string(data)) *)
| MsgOTAProgress (offset size percentage : Z)   (* "OTA progress (%v/%v) (%d%%)\r" *)
| MsgOTAFailed                                  (* "OTA failed\n" *)
| MsgOTAFinished                                (* "OTA finished\n" *)
| MsgContinued                                  (* "host was awaiting for us ..." *)
| MsgFoundCoredump (n : Z)                      (* "Found a coredump of %v bytes, ..." *)
| MsgCoredumpError (e : error)                  (* "Error displaying coredump: %v\n" *)
| MsgUnknownCommand (b : byte)                  (* "unknown command %v\n" *)
| MsgRebooting (h : string)                     (* "rebooting %s...\n" *)
| MsgPrompt (p : string).                       (* fmt.Fprintf(c.Stdout(), prompt) *)

Inductive Event : Type :=
| EvDial (addr : string)                        (* net.Dial("tcp", addr) *)
| EvStoreConn (v : option Handle)               (* an assignment to c.conn *)
| EvSockClose (h : Handle)                      (* conn.Close() *)
| EvWrite (h : Handle) (chunk : list byte)      (* conn.Write(chunk) *)
| EvSleep (d : Z)                               (* time.Sleep(d) *)
| EvPrint (w : Stream) (m : Message)
| EvOnConfig (f : Callback) (cfg : HostConfig)  (* onConfig(&cfg) *)
| EvTempFile (name : string)                    (* ioutil.TempFile succeeded *)
| EvFileWrite (name : string) (data : list byte)
| EvFileClose (name : string)
| EvRemove (name : string)                      (* os.Remove *)
| EvEspCoredump (op : string) (core : string).  (* cmd.Run() of espcoredump.py *)

(** What arrives on the socket: a byte, an error that the read which meets
    it returns, or time passing while a read blocks. *)
Inductive RxItem : Type :=
| RxByte (b : byte)
| RxErr (e : error)
| RxWait (d : N).

Record World : Type := mkWorld {
  now       : Z;                          (* the clock, in ns *)
  trace     : list Event;                 (* oldest first *)
  rx        : list RxItem;                (* what the device delivers *)
  writes    : list (option error);        (* results of conn.Write, in order *)
  closes    : list (option error);        (* results of conn.Close *)
  dials     : list (Handle + error);      (* results of net.Dial *)
  readfile  : string -> list byte + error;(* ioutil.ReadFile *)
  tempfiles : list (string + error);      (* results of ioutil.TempFile *)
  fwrites   : list (option error);        (* results of tmpFile.Write *)
  fcloses   : list (option error);        (* results of tmpFile.Close *)
  stdin     : list string;                (* the lines ReadString('\n') yields *)
  tools     : list (option error)         (* results of cmd.Run() *)
}.

Definition set_now (v : Z) (w : World) : World :=
  mkWorld v (trace w) (rx w) (writes w) (closes w) (dials w) (readfile w)
          (tempfiles w) (fwrites w) (fcloses w) (stdin w) (tools w).
Definition set_trace (v : list Event) (w : World) : World :=
  mkWorld (now w) v (rx w) (writes w) (closes w) (dials w) (readfile w)
          (tempfiles w) (fwrites w) (fcloses w) (stdin w) (tools w).
Definition set_rx (v : list RxItem) (w : World) : World :=
  mkWorld (now w) (trace w) v (writes w) (closes w) (dials w) (readfile w)
          (tempfiles w) (fwrites w) (fcloses w) (stdin w) (tools w).
Definition set_writes (v : list (option error)) (w : World) : World :=
  mkWorld (now w) (trace w) (rx w) v (closes w) (dials w) (readfile w)
          (tempfiles w) (fwrites w) (fcloses w) (stdin w) (tools w).
Definition set_closes (v : list (option error)) (w : World) : World :=
  mkWorld (now w) (trace w) (rx w) (writes w) v (dials w) (readfile w)
          (tempfiles w) (fwrites w) (fcloses w) (stdin w) (tools w).
Definition set_dials (v : list (Handle + error)) (w : World) : World :=
  mkWorld (now w) (trace w) (rx w) (writes w) (closes w) v (readfile w)
          (tempfiles w) (fwrites w) (fcloses w) (stdin w) (tools w).
Definition set_tempfiles (v : list (string + error)) (w : World) : World :=
  mkWorld (now w) (trace w) (rx w) (writes w) (closes w) (dials w) (readfile w)
          v (fwrites w) (fcloses w) (stdin w) (tools w).
Definition set_fwrites (v : list (option error)) (w : World) : World :=
  mkWorld (now w) (trace w) (rx w) (writes w) (closes w) (dials w) (readfile w)
          (tempfiles w) v (fcloses w) (stdin w) (tools w).
Definition set_fcloses (v : list (option error)) (w : World) : World :=
  mkWorld (now w) (trace w) (rx w) (writes w) (closes w) (dials w) (readfile w)
          (tempfiles w) (fwrites w) v (stdin w) (tools w).
Definition set_stdin (v : list string) (w : World) : World :=
  mkWorld (now w) (trace w) (rx w) (writes w) (closes w) (dials w) (readfile w)
          (tempfiles w) (fwrites w) (fcloses w) v (tools w).
Definition set_tools (v : list (option error)) (w : World) : World :=
  mkWorld (now w) (trace w) (rx w) (writes w) (closes w) (dials w) (readfile w)
          (tempfiles w) (fwrites w) (fcloses w) (stdin w) v.

Record State : Type := mkState {
  cl : Client;
  wd : World
}.

(* ================================================================= *)
(** ** The monad: state, Go panics, and loops that may not end *)

Inductive panic : Type :=
| SliceBounds (low high : Z)   (* slice bounds out of range [low:high] *)
| DivideByZero                 (* integer divide by zero *)
| TypeAssertion.               (* interface conversion *)

Inductive Result (A : Type) : Type :=
| Val (a : A)
| Panic (p : panic)
| OutOfFuel.

Arguments Val {A} a.
Arguments Panic {A} p.
Arguments OutOfFuel {A}.

Definition M (A : Type) : Type := State -> Result A * State.

Definition ret {A} (a : A) : M A := fun s => (Val a, s).

Definition bind {A B} (m : M A) (k : A -> M B) : M B :=
  fun s =>
    match m s with
    | (Val a, s') => k a s'
    | (Panic p, s') => (Panic p, s')
    | (OutOfFuel, s') => (OutOfFuel, s')
    end.

Declare Scope monad_scope.
Delimit Scope monad_scope with monad.
Notation "x <- m ;; k" := (bind m (fun x => k))
  (at level 100, m at next level, right associativity) : monad_scope.
Notation "' pat <- m ;; k" := (bind m (fun x => match x with pat => k end))
  (at level 100, pat pattern, m at next level, right associativity) : monad_scope.
Notation "m ;;; k" := (bind m (fun _ => k))
  (at level 100, right associativity) : monad_scope.
Local Open Scope monad_scope.

Definition raise {A} (p : panic) : M A := fun s => (Panic p, s).
Definition diverge {A} : M A := fun s => (OutOfFuel, s).

(** [defer f] of Go: [f] runs when the function returns and also when it
    panics. *)
Definition defer {A} (cleanup : M unit) (body : M A) : M A :=
  fun s =>
    match body s with
    | (r, s') =>
        match cleanup s' with
        | (Val _, s'') => (r, s'')
        | (Panic p, s'') => (Panic p, s'')
        | (OutOfFuel, s'') => (OutOfFuel, s'')
        end
    end.

Definition get_cl : M Client := fun s => (Val (cl s), s).
Definition modify_cl (f : Client -> Client) : M unit :=
  fun s => (Val tt, mkState (f (cl s)) (wd s)).
Definition get_wd : M World := fun s => (Val (wd s), s).
Definition modify_wd (f : World -> World) : M unit :=
  fun s => (Val tt, mkState (cl s) (f (wd s))).

Definition emit (e : Event) : M unit :=
  modify_wd (fun w => set_trace (trace w ++ [e]) w).

(** The next answer of a script; [d] when the script has run out. *)
Definition next {A} (d : A) (l : list A) : A * list A :=
  match l with
  | [] => (d, [])
  | a :: l' => (a, l')
  end.

(* ----------------------------------------------------------------- *)
(** *** The system calls *)

Definition Now : M Z := fun s => (Val (now (wd s)), s).

Definition Sleep (d : Z) : M unit :=
  emit (EvSleep d) ;;;
  modify_wd (fun w => set_now (now w + d) w).

(** [time.Since(t)]. *)
Definition Since (t : Z) : M Z :=
  n <- Now ;; ret (n - t).

(** [conn.Write(chunk)]: the attempt is traced, the script gives the
    result; a script that has run out means success. *)
Definition conn_Write (h : Handle) (chunk : list byte) : M (option error) :=
  emit (EvWrite h chunk) ;;;
  w <- get_wd ;;
  let (r, rest) := next None (writes w) in
  modify_wd (set_writes rest) ;;;
  ret r.

Definition conn_Close (h : Handle) : M (option error) :=
  emit (EvSockClose h) ;;;
  w <- get_wd ;;
  let (r, rest) := next None (closes w) in
  modify_wd (set_closes rest) ;;;
  ret r.

Definition Dial (addr : string) : M (Handle + error) :=
  emit (EvDial addr) ;;;
  w <- get_wd ;;
  let (r, rest) := next (inr (OpError false "dial tcp: connection refused")) (dials w) in
  modify_wd (set_dials rest) ;;;
  ret r.

(** [fmt.Fprintf] and [fmt.Fprint] on [c.stdout] or [c.stderr]. *)
Definition Fprint (w : Stream) (m : Message) : M unit := emit (EvPrint w m).

(* ================================================================= *)
(** ** Slices *)

Definition len {A} (l : list A) : Z := Z.of_nat (List.length l).

(** [data[low:high]] for [0 <= low <= high <= len(data)]. *)
Definition slice {A} (data : list A) (low high : Z) : list A :=
  firstn (Z.to_nat (high - low)) (skipn (Z.to_nat low) data).

(** [data[low:]], which panics unless [low <= len(data)]. *)
Definition slice_from {A} (data : list A) (low : Z) : M (list A) :=
  if low <=? len data then ret (skipn (Z.to_nat low) data)
  else raise (SliceBounds low (len data)).

(* ================================================================= *)
(** ** client.go: isFlashingOTA, write, writeByte *)

Definition isFlashingOTA : M bool :=
  c <- get_cl ;;
  if otaSize c >? 0 then
    d <- Since (otaLastMessage c) ;;
    ret (d <? otaTimeout)
  else ret false.

Definition blocksize : Z := 100 * 1024.
Definition interval : Z := 1000 * Millisecond.

(** The [for pos := 0; pos < len(data); pos += blocksize] loop of [write].
    [fuel] bounds the number of iterations; [write] gives it more than the
    loop can use. *)
Fixpoint write_loop (fuel : nat) (h : Handle) (data : list byte) (pos : Z)
  : M (option error) :=
  match fuel with
  | O => diverge
  | S fuel' =>
      if pos <? len data then
        let end_ := pos + blocksize in
        let end_ := if end_ >? len data then len data else end_ in
        err <- conn_Write h (slice data pos end_) ;;
        match err with
        | Some e => ret (Some e)
        | None =>
            (if pos <? len data then Sleep interval else ret tt) ;;;
            write_loop fuel' h data (pos + blocksize)
        end
      else ret None
  end.

Definition write (data : list byte) : M (option error) :=
  c <- get_cl ;;
  match conn c with
  | Some h => write_loop (S (List.length data)) h data 0
  | None => ret (Some (errorString "not connected"))
  end.

Definition writeByte (b : byte) : M (option error) := write [b].

(* ================================================================= *)
(** ** Reading from the socket *)

(** The error of a read when the device sends nothing more: the deadline
    set with [SetReadDeadline] passes. *)
Definition rx_silent : error := OpError true "i/o timeout".

(** [n] bytes taken from what the device delivers: the bytes read, the
    error that ended the read (if any), what is left to deliver, and the
    time spent blocked. *)
Fixpoint take_rx (items : list RxItem) (n : nat) {struct items}
  : list byte * option error * list RxItem * Z :=
  match n with
  | O => ([], None, items, 0)
  | S n' =>
      match items with
      | [] => ([], Some rx_silent, [], 0)
      | RxByte b :: r =>
          let '(bs, e, rest, t) := take_rx r n' in (b :: bs, e, rest, t)
      | RxErr e :: r => ([], Some e, r, 0)
      | RxWait d :: r =>
          let '(bs, e, rest, t) := take_rx r n in (bs, e, rest, Z.of_N d + t)
      end
  end.

(** [io.ReadFull(conn, buf)] with [len(buf) = n]: the bytes that were read
    into the front of [buf] and the error.  With [n = 0] nothing is read.
    [conn.SetReadDeadline] decides only when the environment reports a
    timeout, which here the script does. *)
Definition ReadFull (h : Handle) (n : Z) : M (list byte * option error) :=
  w <- get_wd ;;
  let '(bs, e, rest, t) := take_rx (rx w) (Z.to_nat n) in
  modify_wd (fun w => set_now (now w + t) (set_rx rest w)) ;;;
  ret (bs, e).

(** [conn.Read(cmd)] with the one-byte buffer of [Run]. *)
Definition conn_Read1 (h : Handle) : M (list byte * option error) := ReadFull h 1.

Definition byte_to_Z (b : byte) : Z := Z.of_N (Byte.to_N b).

Definition byte_of_Z (v : Z) : byte :=
  match Byte.of_N (Z.to_N (v mod 256)) with
  | Some b => b
  | None => x00
  end.

(** [binary.BigEndian.Uint16], [Uint32], and a single byte. *)
Definition be_uint (bs : list byte) : Z :=
  fold_left (fun acc b => acc * 256 + byte_to_Z b) bs 0.

(** [binary.BigEndian.PutUint16] and [PutUint32] of [binary.Write]. *)
Definition put_uint16 (v : Z) : list byte :=
  [byte_of_Z (Z.shiftr v 8); byte_of_Z v].
Definition put_uint32 (v : Z) : list byte :=
  [byte_of_Z (Z.shiftr v 24); byte_of_Z (Z.shiftr v 16);
   byte_of_Z (Z.shiftr v 8); byte_of_Z v].

(** [binary.Read(conn, binary.BigEndian, &x)] for an unsigned integer of
    [width] bytes: [x] keeps its value [old] when the read fails. *)
Definition binary_Read (h : Handle) (width : Z) (old : Z) : M (Z * option error) :=
  '(bs, err) <- ReadFull h width ;;
  match err with
  | Some e => ret (old, Some e)
  | None => ret (be_uint bs, None)
  end.

(* ================================================================= *)
(** ** client.go: handleError, readBlob, print *)

Definition handleError (err : option error) : M bool :=
  match err with
  | Some (OpError tmo _) =>
      c <- get_cl ;;
      if tmo && (timeouts c =? 0) then
        flashing <- isFlashingOTA ;;
        if flashing then ret true
        else
          modify_cl (fun c => set_timeouts (timeouts c + 1) c) ;;;
          _ <- writeByte cmdPing ;;
          ret true
      else ret false
  | Some (errorString _) => ret false
  | None => ret true
  end.

(** [readBlob] with a size field of [width] bytes ([*uint16] or
    [*uint32]; the callers pass nothing else).  The result is Go's pair;
    a nil slice is the empty list. *)
Definition readBlob (h : Handle) (width : Z) : M (list byte * option error) :=
  '(size, err) <- binary_Read h width 0 ;;
  ok <- handleError err ;;
  if negb ok then ret ([], err)
  else
    let blobSize := size in
    '(bs, err) <- ReadFull h blobSize ;;
    let data := bs ++ repeat x00 (Z.to_nat (blobSize - len bs)) in
    ok <- handleError err ;;
    if negb ok then ret ([], err)
    else ret (data, None).

Definition readBlob32 (h : Handle) := readBlob h 4.
Definition readBlob16 (h : Handle) := readBlob h 2.

Definition print (h : Handle) (w : Stream) : M (option error) :=
  '(s, err) <- binary_Read h 4 0 ;;
  match err with
  | Some e => ret (Some e)
  | None =>
      '(data, err) <- ReadFull h s ;;
      match err with
      | Some e => ret (Some e)
      | None =>
          flashing <- isFlashingOTA ;;
          (if negb flashing then Fprint w (MsgText data) else ret tt) ;;;
          ret None
      end
  end.

(* ================================================================= *)
(** ** client.go: Connect, Close, GetConfig, SetConfig, Reboot, Flash *)

Definition store_conn (v : option Handle) : M unit :=
  modify_cl (set_conn v) ;;;
  emit (EvStoreConn v).

(** [fmt.Errorf("error connecting to %s: %v", host, err)]. *)
Definition connect_error (target : string) (cause : error) : error :=
  errorString ("error connecting to " ++ target ++ ": " ++ Error cause)%string.

Definition Connect : M (option error) :=
  c <- get_cl ;;
  r <- Dial (Host_Addr (host c)) ;;
  match r with
  | inr err => ret (Some (connect_error (Host_Host (host c)) err))
  | inl h =>
      store_conn (Some h) ;;;
      modify_cl (set_timeouts 0) ;;;
      modify_cl (set_otaSize 0) ;;;
      _ <- writeByte cmdCoredumpRead ;;
      ret None
  end.

Definition Close : M (option error) :=
  c <- get_cl ;;
  match conn c with
  | Some h =>
      store_conn None ;;;
      err <- conn_Close h ;;
      match err with
      | Some e =>
          store_conn (Some h) ;;;
          ret (Some e)
      | None => ret None
      end
  | None => ret None
  end.

Definition GetConfig (f : Callback) : M (option error) :=
  modify_cl (set_onConfig (Some f)) ;;;
  writeByte cmdGetConfig.

(** [for len(b) < n { b = append(b, 0) }]; the loop runs at most [n]
    times. *)
Fixpoint pad_loop (fuel : nat) (n : Z) (b : list byte) : list byte :=
  match fuel with
  | O => b
  | S fuel' => if len b <? n then pad_loop fuel' n (b ++ [x00]) else b
  end.

Definition pad (n : Z) (b : list byte) : list byte := pad_loop (Z.to_nat n) n b.

(** What [SetConfig] collects in [buf]. *)
Definition SetConfig_bytes (cfg : HostConfig) : list byte :=
  let size := (hostConfigSSIDLen + hostConfigPasswordLen + 2) mod 2 ^ 16 in
  [cmdSetConfig]
    ++ put_uint16 size
    ++ [hostConfigVersion]
    ++ pad hostConfigSSIDLen (list_byte_of_string (WifiSSID cfg))
    ++ pad hostConfigPasswordLen (list_byte_of_string (WifiPassword cfg))
    ++ [WifiMode cfg].

Definition SetConfig (cfg : HostConfig) : M (option error) :=
  write (SetConfig_bytes cfg).

Definition Reboot : M (option error) :=
  c <- get_cl ;;
  Fprint Stdout (MsgRebooting (Host_Host (host c))) ;;;
  writeByte cmdReboot.

Definition Flash_bytes (data : list byte) : list byte :=
  [cmdOTA] ++ put_uint32 (len data mod 2 ^ 32) ++ data.

Definition Flash (bin : string) : M (option error) :=
  w <- get_wd ;;
  match readfile w bin with
  | inr err => ret (Some err)
  | inl data =>
      modify_cl (set_otaSize (len data)) ;;;
      t <- Now ;;
      modify_cl (set_otaLastMessage t) ;;;
      write (Flash_bytes data)
  end.

(* ================================================================= *)
(** ** The terminal and the file system *)

(** [unicode.IsSpace] on ASCII: tab, line feed, vertical tab, form feed,
    carriage return, space.  (Go also trims the Unicode spaces outside
    ASCII; the answers that matter here are ASCII.) *)
Definition isSpace (a : ascii) : bool :=
  let n := N_of_ascii a in
  ((9 <=? n) && (n <=? 13) || (n =? 32))%N.

Fixpoint TrimLeftSpace (s : string) : string :=
  match s with
  | EmptyString => EmptyString
  | String a s' => if isSpace a then TrimLeftSpace s' else s
  end.

Fixpoint TrimRightSpace (s : string) : string :=
  match s with
  | EmptyString => EmptyString
  | String a s' =>
      match TrimRightSpace s' with
      | EmptyString => if isSpace a then EmptyString else String a EmptyString
      | t => String a t
      end
  end.

(** [strings.TrimSpace]. *)
Definition TrimSpace (s : string) : string := TrimRightSpace (TrimLeftSpace s).

(** [r.ReadString('\n')] on [c.Stdin()], its error dropped as in the
    source: the next line, or the empty string at the end of the input. *)
Definition ReadString : M string :=
  w <- get_wd ;;
  let (line, rest) := next EmptyString (stdin w) in
  modify_wd (set_stdin rest) ;;;
  ret line.

(** part_001, [PromptUser]: ask until [isValid] accepts the answer.  The
    closure [isValid] of the source assigns to variables of its caller;
    here it threads them as [l].  [fuel] bounds the number of questions. *)
Fixpoint PromptUser {L : Type} (fuel : nat) (prompt : string)
    (isValid : string -> L -> M (bool * L)) (l : L) : M (string * L) :=
  match fuel with
  | O => diverge
  | S fuel' =>
      Fprint Stdout (MsgPrompt prompt) ;;;
      st <- ReadString ;;
      let st := TrimSpace st in
      '(ok, l') <- isValid st l ;;
      if ok then ret (st, l')
      else PromptUser fuel' prompt isValid l'
  end.

(** [ioutil.TempFile("", "core.*")]. *)
Definition TempFile : M (string + error) :=
  w <- get_wd ;;
  let (r, rest) := next (inl "core.0") (tempfiles w) in
  modify_wd (set_tempfiles rest) ;;;
  match r with
  | inl name => emit (EvTempFile name) ;;; ret (inl name)
  | inr e => ret (inr e)
  end.

Definition File_Write (name : string) (data : list byte) : M (option error) :=
  emit (EvFileWrite name data) ;;;
  w <- get_wd ;;
  let (r, rest) := next None (fwrites w) in
  modify_wd (set_fwrites rest) ;;;
  ret r.

Definition File_Close (name : string) : M (option error) :=
  emit (EvFileClose name) ;;;
  w <- get_wd ;;
  let (r, rest) := next None (fcloses w) in
  modify_wd (set_fcloses rest) ;;;
  ret r.

Definition os_Remove (name : string) : M unit := emit (EvRemove name).

(* ================================================================= *)
(** ** coredump.go *)

(** [runEspCoredump]: the type assertion on [c.Stdin()] comes before the
    command is run.  [km.RunPaused] gives the terminal to the command and
    takes it back; its own failures (which panic) are not modelled. *)
Definition runEspCoredump (filename op : string) : M (option error) :=
  c <- get_cl ;;
  if stdin_km c then
    emit (EvEspCoredump op filename) ;;;
    w <- get_wd ;;
    let (r, rest) := next None (tools w) in
    modify_wd (set_tools rest) ;;;
    ret r
  else raise TypeAssertion.

Definition member (s : string) (l : list string) : bool :=
  existsb (String.eqb s) l.

Definition coredump_prompt : string :=
  "Select what do to with this coredump [(V)iew/(g)db/(d)elete/(i)ignore]: ".

(** The closure passed to [PromptUser] by [DisplayCoreDump]; [del] and
    [ret] are the variables it assigns. *)
Definition coredump_choice (fileName : string) (s : string)
    (vars : bool * option error) : M (bool * (bool * option error)) :=
  let '(del, ret_) := vars in
  if member s ["v"; "V"; EmptyString] then
    err <- runEspCoredump fileName "info_corefile" ;;
    match err with
    | Some e => ret (true, (false, Some e))
    | None => ret (true, (del, ret_))
    end
  else if member s ["g"; "G"] then
    err <- runEspCoredump fileName "dbg_corefile" ;;
    match err with
    | Some e => ret (true, (false, Some e))
    | None => ret (true, (del, ret_))
    end
  else if member s ["d"; "D"] then ret (true, (true, ret_))
  else if member s ["i"; "I"] then ret (true, (false, ret_))
  else ret (false, (del, ret_)).

Definition DisplayCoreDump (data : list byte) : M (bool * option error) :=
  t <- TempFile ;;
  match t with
  | inr err => ret (false, Some err)
  | inl fileName =>
      defer (os_Remove fileName)
        (payload <- slice_from data 4 ;;
         werr <- File_Write fileName payload ;;
         match werr with
         | Some e =>
             _ <- File_Close fileName ;;
             ret (false, Some e)
         | None =>
             cerr <- File_Close fileName ;;
             match cerr with
             | Some e => ret (false, Some e)
             | None =>
                 w <- get_wd ;;
                 '(_, vars) <- PromptUser (S (List.length (stdin w))) coredump_prompt
                                 (coredump_choice fileName) (false, None) ;;
                 ret vars
             end
         end)
  end.

(* ================================================================= *)
(** ** client.go: bytes.Trim and Run *)

Fixpoint trimLeftByte (s : list byte) (c : byte) : list byte :=
  match s with
  | [] => []
  | b :: s' => if Byte.eqb b c then trimLeftByte s' c else s
  end.

Definition trimRightByte (s : list byte) (c : byte) : list byte :=
  rev (trimLeftByte (rev s) c).

(** [bytes.Trim(s, cutset)] for a cutset of one ASCII byte. *)
Definition bytes_Trim (s : list byte) (c : byte) : list byte :=
  trimLeftByte (trimRightByte s c) c.

(** Integer division of Go: truncated, and a panic when the divisor is 0. *)
Definition int_div (a b : Z) : M Z :=
  if b =? 0 then raise DivideByZero else ret (Z.quot a b).

(** How one turn of the [for] loop of [Run] ends: with the next turn, or
    with [Run] returning. *)
Inductive Ctl : Type :=
| Continue
| Return (err : option error).

(** [io.ReadFull] into a fresh buffer of [n] bytes: the buffer afterwards. *)
Definition ReadFull_buf (h : Handle) (n : Z) : M (list byte * option error) :=
  '(bs, err) <- ReadFull h n ;;
  ret (bs ++ repeat x00 (Z.to_nat (n - len bs)), err).

Definition case_OTAProgress (h : Handle) : M Ctl :=
  flashing <- isFlashingOTA ;;
  if negb flashing then ret Continue
  else
    '(offset, err) <- binary_Read h 4 0 ;;
    ok <- handleError err ;;
    if negb ok then ret (Return err)
    else
      c <- get_cl ;;
      percentage <- int_div (offset * 100) (otaSize c) ;;
      Fprint Stdout (MsgOTAProgress offset (otaSize c) percentage) ;;;
      t <- Now ;;
      modify_cl (set_otaLastMessage t) ;;;
      ret Continue.

Definition case_OTAEnd (m : Message) : M Ctl :=
  flashing <- isFlashingOTA ;;
  if negb flashing then ret Continue
  else
    Fprint Stdout m ;;;
    modify_cl (set_otaSize 0) ;;;
    ret Continue.

Definition case_CoredumpRead (h : Handle) : M Ctl :=
  '(data, err) <- readBlob32 h ;;
  match err with
  | Some e => ret (Return (Some e))
  | None =>
      if len data =? 0 then
        _ <- writeByte cmdContinue ;;
        ret Continue
      else
        Fprint Stdout (MsgFoundCoredump (len data)) ;;;
        '(del, err) <- DisplayCoreDump data ;;
        (match err with
         | Some e => Fprint Stderr (MsgCoredumpError e)
         | None => ret tt
         end) ;;;
        _ <- (if del : bool then writeByte cmdCoredumpErase else writeByte cmdContinue) ;;
        ret Continue
  end.

(** The body of [if size > 0] in the [cmdConfig] case: [inl] is the
    configuration read, [inr] the error [Run] returns. *)
Definition read_config (h : Handle) (cfg : HostConfig) : M (HostConfig + option error) :=
  '(v, err) <- binary_Read h 1 (byte_to_Z (Version cfg)) ;;
  let cfg := mkHostConfig (byte_of_Z v) (WifiSSID cfg) (WifiPassword cfg) (WifiMode cfg) in
  ok <- handleError err ;;
  if negb ok then ret (inr err)
  else
    '(ssidData, err) <- ReadFull_buf h hostConfigSSIDLen ;;
    ok <- handleError err ;;
    if negb ok then ret (inr err)
    else
      let cfg := mkHostConfig (Version cfg) (string_of_list_byte (bytes_Trim ssidData x00))
                              (WifiPassword cfg) (WifiMode cfg) in
      '(passwordData, err) <- ReadFull_buf h hostConfigPasswordLen ;;
      ok <- handleError err ;;
      if negb ok then ret (inr err)
      else
        let cfg := mkHostConfig (Version cfg) (WifiSSID cfg)
                                (string_of_list_byte (bytes_Trim passwordData x00))
                                (WifiMode cfg) in
        '(m, err) <- binary_Read h 1 (byte_to_Z (WifiMode cfg)) ;;
        let cfg := mkHostConfig (Version cfg) (WifiSSID cfg) (WifiPassword cfg) (byte_of_Z m) in
        ok <- handleError err ;;
        if negb ok then ret (inr err)
        else ret (inl cfg).

Definition case_Config (h : Handle) : M Ctl :=
  '(size, err) <- binary_Read h 2 0 ;;
  ok <- handleError err ;;
  if negb ok then ret (Return err)
  else
    r <- (if size >? 0 then read_config h HostConfig_zero
          else ret (inl HostConfig_zero)) ;;
    match r with
    | inr err => ret (Return err)
    | inl cfg =>
        c <- get_cl ;;
        _ <- match onConfig c with
             | Some f => emit (EvOnConfig f cfg) ;;; ret None
             | None => Reboot
             end ;;
        modify_cl (set_onConfig None) ;;;
        ret Continue
    end.

(** The [switch cmd[0]] of [Run]. *)
Definition dispatch (h : Handle) (cmd : byte) : M Ctl :=
  if Byte.eqb cmd cmdPrintStdout then
    err <- print h Stdout ;;
    ok <- handleError err ;;
    if negb ok then ret (Return err) else ret Continue
  else if Byte.eqb cmd cmdPrintStderr then
    err <- print h Stderr ;;
    ok <- handleError err ;;
    if negb ok then ret (Return err) else ret Continue
  else if Byte.eqb cmd cmdPong then ret Continue
  else if Byte.eqb cmd cmdOTAProgress then case_OTAProgress h
  else if Byte.eqb cmd cmdOTAFailed then case_OTAEnd MsgOTAFailed
  else if Byte.eqb cmd cmdOTASuccess then case_OTAEnd MsgOTAFinished
  else if Byte.eqb cmd cmdContinue then
    Fprint Stdout MsgContinued ;;; ret Continue
  else if Byte.eqb cmd cmdCoredumpRead then case_CoredumpRead h
  else if Byte.eqb cmd cmdCoredumpErase then
    _ <- writeByte cmdContinue ;; ret Continue
  else if Byte.eqb cmd cmdConfig then case_Config h
  else
    Fprint Stderr (MsgUnknownCommand cmd) ;;; ret Continue.

(** One turn of the [for] loop of [Run]. *)
Definition Run_iter : M Ctl :=
  c <- get_cl ;;
  match conn c with
  | None => ret (Return None)
  | Some h =>
      '(cmd, err) <- conn_Read1 h ;;
      match err with
      | Some e =>
          c <- get_cl ;;
          match conn c with
          | None => ret (Return None)
          | Some _ =>
              ok <- handleError (Some e) ;;
              if ok then ret Continue else ret (Return (Some e))
          end
      | None =>
          modify_cl (set_timeouts 0) ;;;
          dispatch h (nth 0 cmd x00)
      end
  end.

Fixpoint Run (fuel : nat) : M (option error) :=
  match fuel with
  | O => diverge
  | S fuel' =>
      ctl <- Run_iter ;;
      match ctl with
      | Continue => Run fuel'
      | Return err => ret err
      end
  end.

(* ================================================================= *)
(** * Definitions used to state the properties *)

(** ** Observations on the trace *)

(** The messages sent on the socket, in order. *)
Definition sent (tr : list Event) : list (Handle * list byte) :=
  flat_map (fun e => match e with EvWrite h ch => [(h, ch)] | _ => [] end) tr.

(** The writes and sleeps of a trace: the length of each chunk written
    ([inl]) and the length of each sleep ([inr]), in order. *)
Definition pacing (tr : list Event) : list (Z + Z) :=
  flat_map (fun e => match e with
                     | EvWrite _ ch => [inl (len ch)]
                     | EvSleep d => [inr d]
                     | _ => []
                     end) tr.

(** What a run of [write] on [h] leaves in the trace when it sends the
    chunks [chunks] and sleeps after each of them. *)
Definition paced (h : Handle) (chunks : list (list byte)) : list Event :=
  flat_map (fun ch => [EvWrite h ch; EvSleep interval]) chunks.

(** Every scripted result of [conn.Write] is a success. *)
Definition writes_succeed (w : World) : Prop :=
  Forall (fun r => r = None) (writes w).

(** ** States reached *)

(** The world once the device has delivered all but [rest]. *)
Definition delivered (rest : list RxItem) (w : World) : World := set_rx rest w.

(** The world after [writeByte b] on the held connection [h], and its
    result. *)
Definition writeByte_world (h : Handle) (b : byte) (w : World) : World :=
  let (r, rest) := next None (writes w) in
  let w1 := set_writes rest (set_trace (trace w ++ [EvWrite h [b]]) w) in
  match r with
  | None => set_now (now w1 + interval) (set_trace (trace w1 ++ [EvSleep interval]) w1)
  | Some _ => w1
  end.

Definition writeByte_result (w : World) : option error := fst (next None (writes w)).

(** The world after a [Connect] whose dial gave the socket [h]. *)
Definition dialled_world (addr : string) (h : Handle) (rest : list (Handle + error))
    (w : World) : World :=
  writeByte_world h cmdCoredumpRead
    (set_trace (trace w ++ [EvDial addr; EvStoreConn (Some h)]) (set_dials rest w)).

(** The world after [Close] has closed the socket [h]: the field was
    set to nil, the socket closed, and the result [r] of closing taken from
    the script, which leaves [rest]; on an error the field was set back. *)
Definition closed_world (h : Handle) (r : option error) (rest : list (option error))
    (w : World) : World :=
  let tr := trace w ++ [EvStoreConn None; EvSockClose h] in
  set_closes rest
    (set_trace (match r with
                | None => tr
                | Some _ => tr ++ [EvStoreConn (Some h)]
                end) w).

(** ** The watchdog and the timeouts *)

(** [isFlashingOTA] as a function of the client and of the clock. *)
Definition flashing_at (c : Client) (t : Z) : bool :=
  (otaSize c >? 0) && (t - otaLastMessage c <? otaTimeout).

Definition flashing (s : State) : bool := flashing_at (cl s) (now (wd s)).

(** A timeout as [handleError] sees it: a [*net.OpError] whose [Timeout()]
    holds. *)
Definition is_timeout (e : error) : bool :=
  match e with
  | OpError tmo _ => tmo
  | errorString _ => false
  end.

Definition io_timeout : error := OpError true "i/o timeout".

(** A timeout is handled, a flash is started, the next read times out
    too: the three results of [handleError], [isFlashingOTA] and
    [handleError]. *)
Definition timeout_flash_timeout : M (bool * bool * bool) :=
  ok1 <- handleError (Some io_timeout) ;;
  _ <- Flash "app.bin" ;;
  active <- isFlashingOTA ;;
  ok2 <- handleError (Some io_timeout) ;;
  ret (ok1, active, ok2).

(** ** The configuration record on the wire *)

(** The [HostConfig] that the [cmdConfig] case builds from a payload of 99
    bytes that arrives whole: version byte, 33 bytes of SSID, 64 bytes of
    password, mode byte. *)
Definition config_of_payload (payload : list byte) : HostConfig :=
  mkHostConfig
    (nth 0 payload x00)
    (string_of_list_byte (bytes_Trim (slice payload 1 34) x00))
    (string_of_list_byte (bytes_Trim (slice payload 34 98) x00))
    (nth 98 payload x00).

(** What follows the opcode and the 16-bit length in the frame of
    [SetConfig]. *)
Definition SetConfig_payload (cfg : HostConfig) : list byte :=
  skipn 3 (SetConfig_bytes cfg).

(** A string converted to bytes, trimmed of NUL bytes with [bytes.Trim],
    and converted back. *)
Definition trim_nul (s : string) : string :=
  string_of_list_byte (bytes_Trim (list_byte_of_string s) x00).

(** ** The answers of the user *)

(** The answers [DisplayCoreDump] accepts, and those among them that run
    espcoredump.py. *)
Definition runs_tool (st : string) : bool :=
  member st ["v"; "V"; EmptyString] || member st ["g"; "G"].

Definition valid_choice (st : string) : bool :=
  runs_tool st || member st ["d"; "D"] || member st ["i"; "I"].

(** The answer that ends [PromptUser] in [DisplayCoreDump]: the first line
    of the input that is valid once trimmed, or the empty answer read at the
    end of the input. *)
Fixpoint accepted_choice (lines : list string) : string :=
  match lines with
  | [] => EmptyString
  | l :: ls => if valid_choice (TrimSpace l) then TrimSpace l else accepted_choice ls
  end.

(** Whether [DisplayCoreDump] gets as far as asking the user: the
    temporary file is created, written and closed without error. *)
Definition user_asked (w : World) : bool :=
  match fst (next (inl "core.0") (tempfiles w)) with
  | inl _ =>
      match fst (next None (fwrites w)), fst (next None (fcloses w)) with
      | None, None => true
      | _, _ => false
      end
  | inr _ => false
  end.

(** The user chose delete: asked, the answer was [d] or [D]. *)
Definition user_chose_delete (w : World) : bool :=
  user_asked w && member (accepted_choice (stdin w)) ["d"; "D"].

(** ** Concrete states used by the examples *)

(** Nothing arrives, every system call succeeds, no file can be read. *)
Definition quiet_world : World :=
  mkWorld 0 [] [] [] [] [] (fun _ => inr (errorString "no such file")) [] [] [] [] [].

(** A quiet world in which every file read yields [image]. *)
Definition world_with_image (image : list byte) : World :=
  mkWorld 0 [] [] [] [] [] (fun _ => inl image) [] [] [] [] [].

(** A quiet world in which the device has sent [bs]. *)
Definition world_receiving (bs : list byte) : World :=
  set_rx (map RxByte bs) quiet_world.

(** A quiet world in which the next dial fails with [e]. *)
Definition world_refusing (e : error) : World := set_dials [inr e] quiet_world.

Definition refused : error :=
  OpError false "dial tcp 192.168.4.1:8080: connect: connection refused".

Definition esp_host : Host := mkHost "esp32.local." "192.168.4.1:8080".

(** The client of interactive mode, holding the socket [h]. *)
Definition connected (h : Handle) : Client := set_conn (Some h) (NewClient esp_host true).

(** A configuration whose SSID is 34 bytes long. *)
Definition long_ssid_config : HostConfig :=
  mkHostConfig x01 "AAAAAAAAAAAAAAAAAAAAAAAAAAAAAAAAAA" "secret" WifiModeSTA.

(* ================================================================= *)
(** * Further definitions: what the rest of the code is stated with *)

(** The callbacks called, in order, with the configuration each was given. *)
Definition invoked (tr : list Event) : list (Callback * HostConfig) :=
  flat_map (fun e => match e with EvOnConfig f cfg => [(f, cfg)] | _ => [] end) tr.

(** What is printed, in order. *)
Definition printed (tr : list Event) : list (Stream * Message) :=
  flat_map (fun e => match e with EvPrint w m => [(w, m)] | _ => [] end) tr.

(** The opcodes that have a case of their own in the [switch] of [Run]. *)
Definition handled_opcodes : list byte :=
  [cmdPrintStdout; cmdPrintStderr; cmdPong; cmdOTAProgress; cmdOTAFailed;
   cmdOTASuccess; cmdContinue; cmdCoredumpRead; cmdCoredumpErase; cmdConfig].

(** What arrives when [n] times in a row a read times out with [e] and the
    device then answers the ping with a pong. *)
Definition timeout_then_pong (e : error) (n : nat) : list RxItem :=
  concat (repeat [RxErr e; RxByte cmdPong] n).

(** A validator of [PromptUser] that only looks at the answer. *)
Definition answer_check (valid : string -> bool) (st : string) (l : unit) : M (bool * unit) :=
  ret (valid st, tt).

(** While the core file [name] exists and is closed: the user is asked, or
    the external tool is run on that file. *)
Definition asks_or_runs (name : string) (e : Event) : bool :=
  match e with
  | EvPrint Stdout (MsgPrompt _) => true
  | EvEspCoredump _ core => String.eqb core name
  | _ => false
  end.

(* ================================================================= *)
(** * Facts *)

Unset Implicit Arguments.

(** ** The monad *)

Lemma bind_Val {A B} (m : M A) (k : A -> M B) s a s' :
  m s = (Val a, s') -> bind m k s = k a s'.
Proof. intros E. unfold bind. now rewrite E. Qed.

Lemma bind_Panic {A B} (m : M A) (k : A -> M B) s p s' :
  m s = (Panic p, s') -> bind m k s = (Panic p, s').
Proof. intros E. unfold bind. now rewrite E. Qed.

Lemma bind_ret {A B} (a : A) (k : A -> M B) s : bind (ret a) k s = k a s.
Proof. reflexivity. Qed.

Lemma bind_get_cl {B} (k : Client -> M B) s : bind get_cl k s = k (cl s) s.
Proof. reflexivity. Qed.

Lemma bind_get_wd {B} (k : World -> M B) s : bind get_wd k s = k (wd s) s.
Proof. reflexivity. Qed.

Lemma bind_modify_cl {B} f (k : unit -> M B) s :
  bind (modify_cl f) k s = k tt (mkState (f (cl s)) (wd s)).
Proof. reflexivity. Qed.

Lemma bind_modify_wd {B} f (k : unit -> M B) s :
  bind (modify_wd f) k s = k tt (mkState (cl s) (f (wd s))).
Proof. reflexivity. Qed.

Lemma bind_emit {B} e (k : unit -> M B) s :
  bind (emit e) k s = k tt (mkState (cl s) (set_trace (trace (wd s) ++ [e]) (wd s))).
Proof. reflexivity. Qed.

Lemma bind_Now {B} (k : Z -> M B) s : bind Now k s = k (now (wd s)) s.
Proof. reflexivity. Qed.

Lemma bind_assoc {A B C} (m : M A) (k : A -> M B) (k' : B -> M C) s :
  bind (bind m k) k' s = bind m (fun a => bind (k a) k') s.
Proof. unfold bind. destruct (m s) as [[a|p|] s']; reflexivity. Qed.

(** Projections of updated records. *)
Ltac fields :=
  cbn [cl wd
       now trace rx writes closes dials readfile tempfiles fwrites fcloses stdin tools
       set_now set_trace set_rx set_writes set_closes set_dials set_tempfiles
       set_fwrites set_fcloses set_stdin set_tools
       host conn stdin_km timeouts otaSize otaLastMessage onConfig
       set_conn set_timeouts set_otaSize set_otaLastMessage set_onConfig] in *.

Lemma state_eta s : mkState (cl s) (wd s) = s.
Proof. now destruct s. Qed.

(** ** Slices and lengths *)

Lemma len_nonneg {A} (l : list A) : 0 <= len l.
Proof. unfold len. lia. Qed.

Lemma len_app {A} (l l' : list A) : len (l ++ l') = len l + len l'.
Proof. unfold len. rewrite length_app. lia. Qed.

Lemma len_cons {A} (a : A) (l : list A) : len (a :: l) = 1 + len l.
Proof. unfold len. cbn [List.length]. lia. Qed.

Lemma blocksize_pos : 0 < blocksize.
Proof. reflexivity. Qed.

(** A slice that starts inside [data] and the rest after it make up what
    follows its start. *)
Lemma slice_skipn {A} (data : list A) (pos end_ : Z) :
  0 <= pos <= end_ ->
  slice data pos end_ ++ skipn (Z.to_nat end_) data = skipn (Z.to_nat pos) data.
Proof.
  intros H. unfold slice.
  replace (Z.to_nat end_) with (Z.to_nat (end_ - pos) + Z.to_nat pos)%nat by lia.
  rewrite <- skipn_skipn. apply firstn_skipn.
Qed.

Lemma len_slice {A} (data : list A) (pos end_ : Z) :
  0 <= pos <= end_ -> end_ <= len data -> len (slice data pos end_) = end_ - pos.
Proof.
  intros H H'. unfold slice, len in *.
  rewrite length_firstn, length_skipn. lia.
Qed.

(** ** The throttled writer *)

Lemma conn_Write_ok h chunk s :
  writes_succeed (wd s) ->
  exists s',
    conn_Write h chunk s = (Val None, s') /\
    cl s' = cl s /\
    trace (wd s') = trace (wd s) ++ [EvWrite h chunk] /\
    now (wd s') = now (wd s) /\
    writes_succeed (wd s').
Proof.
  destruct s as [c w]. destruct w as [n t r ws cs ds rf tf fw fc si tl].
  unfold writes_succeed. cbn. intros H.
  destruct ws as [|r0 ws'].
  - eexists. cbn. repeat split. constructor.
  - inversion H; subst. eexists. cbn. repeat split. assumption.
Qed.

Lemma Sleep_eq d s :
  exists s',
    Sleep d s = (Val tt, s') /\
    cl s' = cl s /\
    trace (wd s') = trace (wd s) ++ [EvSleep d] /\
    now (wd s') = now (wd s) + d /\
    writes (wd s') = writes (wd s).
Proof.
  destruct s as [c w]. destruct w. eexists. cbn. repeat split.
Qed.

Lemma write_loop_ok fuel : forall h data pos s,
  0 <= pos ->
  Z.max 0 (len data - pos) < Z.of_nat fuel ->
  writes_succeed (wd s) ->
  exists chunks s',
    write_loop fuel h data pos s = (Val None, s') /\
    cl s' = cl s /\
    trace (wd s') = trace (wd s) ++ paced h chunks /\
    now (wd s') = now (wd s) + len chunks * interval /\
    concat chunks = skipn (Z.to_nat pos) data /\
    Forall (fun ch => 0 < len ch <= blocksize) chunks /\
    len chunks = (if pos <? len data then (len data - pos - 1) / blocksize + 1 else 0).
Proof.
  induction fuel as [|fuel IH]; intros h data pos s Hpos Hfuel Hw.
  - lia.
  - cbn [write_loop].
    destruct (pos <? len data) eqn:Hlt.
    + apply Z.ltb_lt in Hlt.
      set (end_ := if pos + blocksize >? len data then len data else pos + blocksize).
      assert (Hend : pos < end_ <= len data /\ end_ <= pos + blocksize).
      { subst end_. pose proof blocksize_pos.
        destruct (pos + blocksize >? len data) eqn:E;
          [apply Z.gtb_lt in E; lia | rewrite Z.gtb_ltb in E; apply Z.ltb_ge in E; lia]. }
      destruct (conn_Write_ok h (slice data pos end_) s Hw) as (s1 & E1 & Hc1 & Ht1 & Hn1 & Hw1).
      rewrite (bind_Val _ _ _ _ _ E1). cbv beta iota.
      destruct (Sleep_eq interval s1) as (s2 & E2 & Hc2 & Ht2 & Hn2 & Hw2).
      rewrite (bind_Val _ _ _ _ _ E2).
      destruct (IH h data (pos + blocksize) s2) as (chunks & s' & E & Hc & Ht & Hn & Hcat & Hall & Hcnt).
      { pose proof blocksize_pos. lia. }
      { pose proof blocksize_pos. lia. }
      { unfold writes_succeed. now rewrite Hw2. }
      exists (slice data pos end_ :: chunks), s'. split; [exact E|].
      split; [congruence|].
      split. { rewrite Ht, Ht2, Ht1. cbn. rewrite <- !app_assoc. reflexivity. }
      split. { rewrite Hn, Hn2, Hn1, len_cons. lia. }
      split.
      { cbn [concat]. rewrite Hcat.
        destruct (Z.eq_dec end_ (pos + blocksize)) as [->|Hne].
        - apply slice_skipn. pose proof blocksize_pos. lia.
        - assert (end_ = len data) by (subst end_; destruct (pos + blocksize >? len data); congruence).
          rewrite <- (slice_skipn data pos end_) by lia.
          f_equal. rewrite !skipn_all2; [reflexivity|unfold len in *; lia..]. }
      split.
      { constructor; [|exact Hall]. rewrite len_slice by lia. lia. }
      rewrite len_cons, Hcnt.
      pose proof blocksize_pos.
      destruct (pos + blocksize <? len data) eqn:E'.
      * apply Z.ltb_lt in E'.
        replace (len data - pos - 1) with ((len data - (pos + blocksize) - 1) + 1 * blocksize) by lia.
        rewrite Z.div_add by lia. lia.
      * apply Z.ltb_ge in E'. rewrite Z.div_small by lia. lia.
    + exists [], s. cbn. repeat split; try lia.
      * now rewrite app_nil_r.
      * apply Z.ltb_ge in Hlt. rewrite skipn_all2; [reflexivity|unfold len in *; lia].
      * constructor.
Qed.

(** [write] on a held connection whose writes succeed: the payload goes
    out in [ceil(L / blocksize)] chunks of at most [blocksize] bytes, in
    order, and a sleep follows every chunk. *)
Lemma write_chunking data s h :
  conn (cl s) = Some h ->
  writes_succeed (wd s) ->
  exists chunks s',
    write data s = (Val None, s') /\
    cl s' = cl s /\
    trace (wd s') = trace (wd s) ++ paced h chunks /\
    now (wd s') = now (wd s) + len chunks * interval /\
    concat chunks = data /\
    Forall (fun ch => 0 < len ch <= blocksize) chunks /\
    len chunks = (len data + blocksize - 1) / blocksize.
Proof.
  intros Hc Hw. unfold write.
  rewrite bind_get_cl, Hc.
  destruct (write_loop_ok (S (length data)) h data 0 s) as
    (chunks & s' & E & Hcl & Ht & Hn & Hcat & Hall & Hcnt);
    [lia | unfold len; lia | exact Hw |].
  exists chunks, s'.
  split; [exact E|]. split; [exact Hcl|]. split; [exact Ht|]. split; [exact Hn|].
  split; [exact Hcat|]. split; [exact Hall|].
  rewrite Hcnt. pose proof blocksize_pos. pose proof (len_nonneg data).
  destruct (0 <? len data) eqn:E0.
  - apply Z.ltb_lt in E0.
    replace (len data + blocksize - 1) with (len data - 0 - 1 + 1 * blocksize) by lia.
    rewrite Z.div_add by lia. reflexivity.
  - apply Z.ltb_ge in E0. rewrite Z.div_small by lia. reflexivity.
Qed.

(** The last thing a successful [write] of a non-empty payload does is
    sleep. *)
Lemma write_ends_asleep data s h :
  conn (cl s) = Some h ->
  writes_succeed (wd s) ->
  data <> [] ->
  exists evs s',
    write data s = (Val None, s') /\
    trace (wd s') = trace (wd s) ++ evs ++ [EvSleep interval].
Proof.
  intros Hc Hw Hne.
  destruct (write_chunking data s h Hc Hw) as
    (chunks & s' & E & _ & Ht & _ & Hcat & _ & _).
  destruct (exists_last (l:=chunks)) as (front & lst & ->).
  { intros ->. cbn in Hcat. congruence. }
  exists (paced h front ++ [EvWrite h lst]), s'. split; [exact E|].
  rewrite Ht. unfold paced. rewrite flat_map_app. cbn.
  rewrite <- !app_assoc. reflexivity.
Qed.

Lemma write_not_connected data s :
  conn (cl s) = None ->
  write data s = (Val (Some (errorString "not connected")), s).
Proof. intros Hc. unfold write. rewrite bind_get_cl, Hc. reflexivity. Qed.

(** *** Single-byte writes *)

Lemma writeByte_not_connected b s :
  conn (cl s) = None ->
  writeByte b s = (Val (Some (errorString "not connected")), s).
Proof. apply write_not_connected. Qed.

Lemma writeByte_held b s h :
  conn (cl s) = Some h ->
  writeByte b s = (Val (writeByte_result (wd s)), mkState (cl s) (writeByte_world h b (wd s))).
Proof.
  intros Hc. unfold writeByte, write.
  rewrite bind_get_cl, Hc.
  destruct s as [c w]. destruct w as [n t r ws cs ds rf tf fw fc si tl].
  unfold writeByte_result, writeByte_world.
  destruct ws as [|[e|] ws]; reflexivity.
Qed.

Lemma sent_app tr tr' : sent (tr ++ tr') = sent tr ++ sent tr'.
Proof. apply flat_map_app. Qed.

Lemma writeByte_world_trace h b w :
  exists evs,
    trace (writeByte_world h b w) = trace w ++ EvWrite h [b] :: evs /\
    sent evs = [] /\
    (evs = [] \/ evs = [EvSleep interval]).
Proof.
  destruct w as [n t r ws cs ds rf tf fw fc si tl]. unfold writeByte_world.
  destruct ws as [|[e|] ws]; cbn.
  - exists [EvSleep interval]. rewrite <- app_assoc. auto.
  - exists []. auto.
  - exists [EvSleep interval]. rewrite <- app_assoc. auto.
Qed.

Lemma writeByte_world_sent h b w :
  sent (trace (writeByte_world h b w)) = sent (trace w) ++ [(h, [b])].
Proof.
  destruct (writeByte_world_trace h b w) as (evs & -> & Hs & _).
  rewrite sent_app.
  change (sent (EvWrite h [b] :: evs)) with ((h, [b]) :: sent evs).
  now rewrite Hs.
Qed.

Lemma writeByte_world_rx h b w : rx (writeByte_world h b w) = rx w.
Proof.
  destruct w as [n t r ws cs ds rf tf fw fc si tl]. unfold writeByte_world.
  destruct ws as [|[e|] ws]; reflexivity.
Qed.

Lemma writeByte_world_now h b w : now w <= now (writeByte_world h b w).
Proof.
  destruct w as [n t r ws cs ds rf tf fw fc si tl]. unfold writeByte_world.
  destruct ws as [|[e|] ws]; cbn; lia.
Qed.

(** ** C1: the sleep after the final chunk *)

(** C1 (defect in the code).  The claim says that the pacing delay comes
    between consecutive chunks and not after the final one.  [write] tests
    [pos < len(data)] after the chunk is written, with [pos] still the start
    of that chunk, so the test always holds and the sleep follows every
    chunk, the final one too.  A payload of one byte is written as one
    chunk followed by a sleep of one second; a payload of [blocksize + 1]
    bytes as two chunks, each followed by a sleep; and whatever the payload,
    if it is not empty and the writes succeed, the last thing [write] does
    is sleep. *)
Theorem write_sleeps_after_final_chunk :
  let s := mkState (connected 1%nat) quiet_world in
  let full := repeat x2a (Z.to_nat blocksize) in
  write [x2a] s =
    (Val None,
     mkState (connected 1%nat)
       (set_now interval
          (set_trace [EvWrite 1%nat [x2a]; EvSleep interval] quiet_world)))
  /\ pacing (trace (wd (snd (write (full ++ [x2a]) s)))) =
       [inl blocksize; inr interval; inl 1; inr interval]
  /\ (forall data s0 h,
        conn (cl s0) = Some h -> writes_succeed (wd s0) -> data <> [] ->
        exists evs s',
          write data s0 = (Val None, s') /\
          trace (wd s') = trace (wd s0) ++ evs ++ [EvSleep interval]).
Proof.
  split; [reflexivity|]. split.
  - vm_compute. reflexivity.
  - intros data s0 h. apply write_ends_asleep.
Qed.

(** ** isFlashingOTA and handleError *)

Lemma isFlashingOTA_eq s : isFlashingOTA s = (Val (flashing s), s).
Proof.
  unfold isFlashingOTA, flashing, flashing_at. rewrite bind_get_cl.
  destruct (otaSize (cl s) >? 0); reflexivity.
Qed.

Lemma handleError_nil s : handleError None s = (Val true, s).
Proof. reflexivity. Qed.

Lemma handleError_surfaces e s :
  is_timeout e && (timeouts (cl s) =? 0) = false ->
  handleError (Some e) s = (Val false, s).
Proof.
  intros H. destruct e as [tmo txt|txt]; [|reflexivity].
  cbn [handleError is_timeout] in *. rewrite bind_get_cl, H. reflexivity.
Qed.

Lemma handleError_grace e s :
  is_timeout e = true -> timeouts (cl s) = 0 -> flashing s = true ->
  handleError (Some e) s = (Val true, s).
Proof.
  intros He Ht Hf. destruct e as [tmo txt|txt]; [|discriminate].
  cbn [handleError is_timeout] in *. rewrite bind_get_cl, He, Ht. cbn [andb Z.eqb].
  rewrite (bind_Val _ _ _ _ _ (isFlashingOTA_eq s)), Hf. reflexivity.
Qed.

Lemma handleError_keepalive e s h :
  is_timeout e = true -> timeouts (cl s) = 0 -> flashing s = false ->
  conn (cl s) = Some h ->
  handleError (Some e) s =
    (Val true, mkState (set_timeouts 1 (cl s)) (writeByte_world h cmdPing (wd s))).
Proof.
  intros He Ht Hf Hc. destruct e as [tmo txt|txt]; [|discriminate].
  cbn [handleError is_timeout] in *. rewrite bind_get_cl, He, Ht. cbn [andb Z.eqb].
  rewrite (bind_Val _ _ _ _ _ (isFlashingOTA_eq s)), Hf.
  rewrite bind_modify_cl.
  erewrite bind_Val by (apply (writeByte_held cmdPing _ h); exact Hc).
  cbn. rewrite Ht. reflexivity.
Qed.

Lemma handleError_keepalive_unconnected e s :
  is_timeout e = true -> timeouts (cl s) = 0 -> flashing s = false ->
  conn (cl s) = None ->
  handleError (Some e) s = (Val true, mkState (set_timeouts 1 (cl s)) (wd s)).
Proof.
  intros He Ht Hf Hc. destruct e as [tmo txt|txt]; [|discriminate].
  cbn [handleError is_timeout] in *. rewrite bind_get_cl, He, Ht. cbn [andb Z.eqb].
  rewrite (bind_Val _ _ _ _ _ (isFlashingOTA_eq s)), Hf.
  rewrite bind_modify_cl.
  erewrite bind_Val by (apply writeByte_not_connected; exact Hc).
  cbn. rewrite Ht. reflexivity.
Qed.

(** C2 (as amended).  With a connection held, [handleError] suppresses an
    error exactly when it is a timeout that arrives with the timeout counter
    at zero.  If then no OTA transfer is active the counter becomes one and
    exactly one keepalive ping is sent; if a transfer is active nothing is
    sent and the state is left as it was, so that the next timeout is
    treated the same way for as long as the transfer stays active.  Every
    other error (a timeout with a non-zero counter, a non-timeout error) is
    surfaced and leaves the state as it was, whether or not a transfer is
    active. *)
Theorem handleError_policy (s : State) (e : error) (h : Handle) :
  conn (cl s) = Some h ->
  exists ok s',
    handleError (Some e) s = (Val ok, s') /\
    ok = is_timeout e && (timeouts (cl s) =? 0) /\
    (ok && negb (flashing s) = true ->
       timeouts (cl s') = 1 /\
       sent (trace (wd s')) = sent (trace (wd s)) ++ [(h, [cmdPing])]) /\
    (ok && negb (flashing s) = false -> s' = s).
Proof.
  intros Hc.
  destruct (is_timeout e && (timeouts (cl s) =? 0)) eqn:Hok.
  - apply andb_true_iff in Hok. destruct Hok as [He Ht]. apply Z.eqb_eq in Ht.
    destruct (flashing s) eqn:Hf.
    + exists true, s. rewrite (handleError_grace e s He Ht Hf).
      repeat split; try discriminate.
    + eexists true, _. rewrite (handleError_keepalive e s h He Ht Hf Hc).
      split; [reflexivity|]. split; [reflexivity|]. split; [|discriminate].
      intros _. split; [reflexivity|]. cbn [wd]. apply writeByte_world_sent.
  - exists false, s. rewrite (handleError_surfaces e s Hok).
    repeat split; try discriminate.
Qed.

(** The policy on an idle, connected client at its first timeout. *)
Lemma handleError_policy_witness :
  let s := mkState (connected 1%nat) quiet_world in
  conn (cl s) = Some 1%nat /\
  exists ok s',
    handleError (Some io_timeout) s = (Val ok, s') /\
    ok = is_timeout io_timeout && (timeouts (cl s) =? 0) /\
    (ok && negb (flashing s) = true ->
       timeouts (cl s') = 1 /\
       sent (trace (wd s')) = sent (trace (wd s)) ++ [(1%nat, [cmdPing])]) /\
    (ok && negb (flashing s) = false -> s' = s).
Proof.
  split; [reflexivity|].
  apply (handleError_policy (mkState (connected 1%nat) quiet_world) io_timeout 1%nat).
  reflexivity.
Defined.

(** C2 (the claim as stated fails).  The claim has every timeout suppressed
    while an OTA transfer is active.  The test for an active transfer sits
    inside the test for a zero counter: a timeout that arrives with the
    counter at one is surfaced although a transfer is active.  Here a first
    timeout is handled on an idle connection (suppressed, counter one), a
    flash starts, and the next timeout is surfaced while [isFlashingOTA]
    holds. *)
Lemma handleError_surfaces_timeout_during_transfer :
  let s := mkState (connected 1%nat) (world_with_image [x01; x02; x03; x04]) in
  fst (timeout_flash_timeout s) = Val (true, true, false).
Proof. vm_compute. reflexivity. Qed.

(** ** Flash and the watchdog *)

Lemma conn_Write_returns h chunk s :
  exists r s',
    conn_Write h chunk s = (Val r, s') /\ cl s' = cl s /\ now (wd s') = now (wd s).
Proof.
  destruct s as [c w]. destruct w as [n t r ws cs ds rf tf fw fc si tl].
  destruct ws as [|r0 ws']; eexists _, _; cbn; repeat split.
Qed.

(** [write] always returns: the fuel it gives its loop is enough, whatever
    the writes answer; and it leaves the client as it was. *)
Lemma write_loop_returns fuel : forall h data pos s,
  0 <= pos ->
  Z.max 0 (len data - pos) < Z.of_nat fuel ->
  exists r s',
    write_loop fuel h data pos s = (Val r, s') /\
    cl s' = cl s /\ now (wd s) <= now (wd s').
Proof.
  induction fuel as [|fuel IH]; intros h data pos s Hpos Hfuel; [lia|].
  cbn [write_loop].
  destruct (pos <? len data) eqn:Hlt.
  - apply Z.ltb_lt in Hlt.
    match goal with |- context [conn_Write h ?ch] =>
      destruct (conn_Write_returns h ch s) as (r1 & s1 & E1 & Hc1 & Hn1) end.
    rewrite (bind_Val _ _ _ _ _ E1).
    destruct r1 as [e|].
    + exists (Some e), s1. repeat split; [assumption | lia].
    + destruct (Sleep_eq interval s1) as (s2 & E2 & Hc2 & _ & Hn2 & _).
      rewrite (bind_Val _ _ _ _ _ E2).
      pose proof blocksize_pos.
      destruct (IH h data (pos + blocksize) s2) as (r & s' & E & Hc & Hn); [lia..|].
      exists r, s'. split; [exact E|]. split; [congruence|].
      unfold interval, Millisecond in *. lia.
  - exists None, s. repeat split. lia.
Qed.

Lemma write_returns data s :
  exists r s', write data s = (Val r, s') /\ cl s' = cl s /\ now (wd s) <= now (wd s').
Proof.
  unfold write. rewrite bind_get_cl.
  destruct (conn (cl s)) as [h|].
  - apply write_loop_returns; [lia | unfold len; lia].
  - eexists _, s. repeat split. lia.
Qed.

Lemma Flash_records bin data s :
  readfile (wd s) bin = inl data ->
  exists r s',
    Flash bin s = (Val r, s') /\
    cl s' = set_otaLastMessage (now (wd s)) (set_otaSize (len data) (cl s)) /\
    now (wd s) <= now (wd s').
Proof.
  intros Hf. unfold Flash. rewrite bind_get_wd, Hf.
  rewrite bind_modify_cl, bind_Now, bind_modify_cl.
  match goal with |- context [write ?d ?st] =>
    destruct (write_returns d st) as (r & s' & E & Hc & Hn) end.
  exists r, s'. split; [|split; [exact Hc | exact Hn]].
  exact E.
Qed.

Lemma flashing_at_iff c t :
  flashing_at c t = true <-> 0 < otaSize c /\ t - otaLastMessage c < otaTimeout.
Proof.
  unfold flashing_at. rewrite andb_true_iff, Z.gtb_lt, Z.ltb_lt. reflexivity.
Qed.

(** C3 (as amended).  [isFlashingOTA] changes nothing and returns true
    exactly when [otaSize > 0] and less than five seconds have passed since
    [otaLastMessage].  [Flash] of a non-empty image returns, having recorded
    the length of the image and the time; from that time and until five
    seconds after it the transfer counts as active, and from five seconds
    after it on it does not, the client being left as [Flash] left it
    ([otaSize] still the length of the image). *)
Theorem Flash_starts_watchdog (bin : string) (data : list byte) (s : State) :
  readfile (wd s) bin = inl data ->
  data <> [] ->
  (forall s0, isFlashingOTA s0 = (Val (flashing s0), s0) /\
              (flashing s0 = true <->
               0 < otaSize (cl s0) /\ now (wd s0) - otaLastMessage (cl s0) < otaTimeout)) /\
  exists r s',
    Flash bin s = (Val r, s') /\
    otaSize (cl s') = len data /\
    otaLastMessage (cl s') = now (wd s) /\
    (forall t, now (wd s) <= t < now (wd s) + otaTimeout -> flashing_at (cl s') t = true) /\
    (forall t, now (wd s) + otaTimeout <= t ->
               flashing_at (cl s') t = false /\ otaSize (cl s') = len data).
Proof.
  intros Hf Hne. split.
  - intros s0. split; [apply isFlashingOTA_eq | apply flashing_at_iff].
  - destruct (Flash_records bin data s Hf) as (r & s' & E & Hc & _).
    exists r, s'. split; [exact E|]. rewrite Hc. cbn.
    split; [reflexivity|]. split; [reflexivity|].
    assert (0 < len data) by (destruct data; [congruence | rewrite len_cons; pose proof (len_nonneg data); lia]).
    split.
    + intros t Ht. apply flashing_at_iff. cbn. lia.
    + intros t Ht. split; [|reflexivity].
      unfold flashing_at. cbn. apply andb_false_iff. right. apply Z.ltb_ge. lia.
Qed.

(** The watchdog after the flash of an image of four bytes. *)
Lemma Flash_starts_watchdog_witness :
  let s := mkState (connected 1%nat) (world_with_image [x01; x02; x03; x04]) in
  let data := [x01; x02; x03; x04] in
  readfile (wd s) "app.bin" = inl data /\
  data <> [] /\
  exists r s',
    Flash "app.bin" s = (Val r, s') /\
    otaSize (cl s') = len data /\
    otaLastMessage (cl s') = now (wd s) /\
    (forall t, now (wd s) <= t < now (wd s) + otaTimeout -> flashing_at (cl s') t = true) /\
    (forall t, now (wd s) + otaTimeout <= t ->
               flashing_at (cl s') t = false /\ otaSize (cl s') = len data).
Proof.
  split; [reflexivity|]. split; [discriminate|].
  apply (Flash_starts_watchdog "app.bin" [x01; x02; x03; x04]
           (mkState (connected 1%nat) (world_with_image [x01; x02; x03; x04]))).
  - reflexivity.
  - discriminate.
Defined.

(** C3 (the claim as stated fails).  The claim has [isFlashingOTA] true
    immediately after [Flash] has recorded the length of the image and the
    time.  For an empty image the recorded length is zero, and [otaSize > 0]
    fails: the transfer does not count as active, neither at the recorded
    time nor when [Flash] has returned. *)
Lemma Flash_of_empty_image_not_active :
  let s := mkState (connected 1%nat) (world_with_image []) in
  readfile (wd s) "app.bin" = inl [] /\
  flashing_at (cl (snd (Flash "app.bin" s))) (now (wd s)) = false /\
  fst ((_ <- Flash "app.bin" ;; isFlashingOTA) s) = Val false.
Proof. vm_compute. repeat split. Qed.

(** ** Reading what the device has sent *)

Lemma take_rx_bytes bs : forall rest,
  take_rx (map RxByte bs ++ rest) (length bs) = (bs, None, rest, 0).
Proof.
  induction bs as [|b bs IH]; intros rest; cbn [length map app take_rx].
  - destruct rest; reflexivity.
  - rewrite IH. reflexivity.
Qed.

Lemma world_now_0 w rest : set_now (now w + 0) (set_rx rest w) = delivered rest w.
Proof. destruct w. unfold delivered, set_now, set_rx. cbn. now rewrite Z.add_0_r. Qed.

Lemma ReadFull_bytes h n bs rest s :
  rx (wd s) = map RxByte bs ++ rest ->
  n = len bs ->
  ReadFull h n s = (Val (bs, None), mkState (cl s) (delivered rest (wd s))).
Proof.
  intros Hrx ->. unfold ReadFull. rewrite bind_get_wd, Hrx.
  unfold len. rewrite Nat2Z.id, take_rx_bytes.
  rewrite bind_modify_wd. cbn [wd cl]. rewrite world_now_0. reflexivity.
Qed.

Lemma binary_Read_bytes h n old bs rest s :
  rx (wd s) = map RxByte bs ++ rest ->
  n = len bs ->
  binary_Read h n old s = (Val (be_uint bs, None), mkState (cl s) (delivered rest (wd s))).
Proof.
  intros Hrx Hn. unfold binary_Read.
  rewrite (bind_Val _ _ _ _ _ (ReadFull_bytes h n bs rest s Hrx Hn)). reflexivity.
Qed.

Lemma ReadFull_buf_bytes h n bs rest s :
  rx (wd s) = map RxByte bs ++ rest ->
  n = len bs ->
  ReadFull_buf h n s = (Val (bs, None), mkState (cl s) (delivered rest (wd s))).
Proof.
  intros Hrx Hn. unfold ReadFull_buf.
  rewrite (bind_Val _ _ _ _ _ (ReadFull_bytes h n bs rest s Hrx Hn)).
  subst n. rewrite Z.sub_diag. cbn [Z.to_nat repeat]. rewrite app_nil_r. reflexivity.
Qed.

Lemma delivered_rx rest w : rx (delivered rest w) = rest.
Proof. now destruct w. Qed.

Lemma delivered_trace rest w : trace (delivered rest w) = trace w.
Proof. now destruct w. Qed.

Lemma delivered_now rest w : now (delivered rest w) = now w.
Proof. now destruct w. Qed.

Lemma delivered_delivered r r' w : delivered r (delivered r' w) = delivered r w.
Proof. now destruct w. Qed.

Lemma byte_of_to_Z b : byte_of_Z (byte_to_Z b) = b.
Proof.
  unfold byte_of_Z, byte_to_Z.
  pose proof (Byte.to_N_bounded b) as Hb.
  rewrite Z.mod_small by lia.
  rewrite N2Z.id, Byte.of_to_N. reflexivity.
Qed.

Lemma be_uint_1 b : be_uint [b] = byte_to_Z b.
Proof. reflexivity. Qed.

(** ** The cmdConfig case on a frame that arrives whole *)

Lemma map_RxByte_app a b rest :
  map RxByte (a ++ b) ++ rest = map RxByte a ++ (map RxByte b ++ rest).
Proof. now rewrite map_app, <- app_assoc. Qed.

Lemma read_config_parts h cfg0 v ssid pw m rest s :
  rx (wd s) = map RxByte ([v] ++ ssid ++ pw ++ [m]) ++ rest ->
  len ssid = hostConfigSSIDLen ->
  len pw = hostConfigPasswordLen ->
  read_config h cfg0 s =
    (Val (inl (mkHostConfig v (string_of_list_byte (bytes_Trim ssid x00))
                              (string_of_list_byte (bytes_Trim pw x00)) m)),
     mkState (cl s) (delivered rest (wd s))).
Proof.
  intros Hrx Hs Hp. rewrite !map_RxByte_app in Hrx.
  unfold read_config.
  erewrite bind_Val by (apply (binary_Read_bytes h 1 _ [v]); [exact Hrx | reflexivity]).
  cbv beta iota. rewrite (bind_Val _ _ _ _ _ (handleError_nil _)). cbv beta iota. cbn [negb].
  erewrite bind_Val by
    (apply (ReadFull_buf_bytes h _ ssid); [cbn [wd]; apply delivered_rx | now symmetry]).
  cbv beta iota. rewrite (bind_Val _ _ _ _ _ (handleError_nil _)). cbv beta iota. cbn [negb].
  erewrite bind_Val by
    (apply (ReadFull_buf_bytes h _ pw); [cbn [wd]; apply delivered_rx | now symmetry]).
  cbv beta iota. rewrite (bind_Val _ _ _ _ _ (handleError_nil _)). cbv beta iota. cbn [negb].
  erewrite bind_Val by
    (apply (binary_Read_bytes h 1 _ [m]); [cbn [wd]; apply delivered_rx | reflexivity]).
  cbv beta iota. rewrite (bind_Val _ _ _ _ _ (handleError_nil _)). cbv beta iota. cbn [negb].
  cbn [cl wd Version WifiSSID WifiPassword WifiMode].
  rewrite !be_uint_1, !byte_of_to_Z, !delivered_delivered. reflexivity.
Qed.

(** ** Padding and trimming *)

Lemma pad_loop_spec fuel : forall n b,
  n - len b <= Z.of_nat fuel ->
  pad_loop fuel n b = b ++ repeat x00 (Z.to_nat (n - len b)).
Proof.
  induction fuel as [|fuel IH]; intros n b H; cbn [pad_loop].
  - replace (Z.to_nat (n - len b)) with 0%nat by lia. now rewrite app_nil_r.
  - destruct (len b <? n) eqn:E.
    + apply Z.ltb_lt in E. rewrite IH by (rewrite len_app; cbn; lia).
      rewrite len_app, <- app_assoc. cbn [app]. f_equal.
      change (len [x00]) with 1.
      replace (Z.to_nat (n - len b)) with (S (Z.to_nat (n - (len b + 1)))) by lia.
      reflexivity.
    + apply Z.ltb_ge in E.
      replace (Z.to_nat (n - len b)) with 0%nat by lia. now rewrite app_nil_r.
Qed.

Lemma pad_spec n b : pad n b = b ++ repeat x00 (Z.to_nat (n - len b)).
Proof. apply pad_loop_spec. pose proof (len_nonneg b). lia. Qed.

Lemma len_repeat {A} (a : A) k : len (repeat a k) = Z.of_nat k.
Proof. unfold len. now rewrite repeat_length. Qed.

Lemma len_pad n b : len (pad n b) = Z.max n (len b).
Proof. rewrite pad_spec, len_app, len_repeat. lia. Qed.

Lemma trimLeftByte_repeat c k l : trimLeftByte (repeat c k ++ l) c = trimLeftByte l c.
Proof.
  induction k as [|k IH]; [reflexivity|].
  cbn [repeat app trimLeftByte]. now rewrite (Byte.byte_dec_lb (eq_refl c)).
Qed.

Lemma trimRightByte_repeat c k l : trimRightByte (l ++ repeat c k) c = trimRightByte l c.
Proof.
  unfold trimRightByte. now rewrite rev_app_distr, rev_repeat, trimLeftByte_repeat.
Qed.

Lemma bytes_Trim_pad n b : bytes_Trim (pad n b) x00 = bytes_Trim b x00.
Proof. unfold bytes_Trim. now rewrite pad_spec, trimRightByte_repeat. Qed.

(** ** SetConfig *)

Lemma SetConfig_bytes_eq cfg :
  SetConfig_bytes cfg =
    [cmdSetConfig; x00; x63] ++
    ([hostConfigVersion]
       ++ pad hostConfigSSIDLen (list_byte_of_string (WifiSSID cfg))
       ++ pad hostConfigPasswordLen (list_byte_of_string (WifiPassword cfg))
       ++ [WifiMode cfg]).
Proof. reflexivity. Qed.

(** The length of what [SetConfig] puts after the opcode and the length
    field. *)
Lemma len_SetConfig_payload cfg :
  len (SetConfig_payload cfg) =
    1 + Z.max hostConfigSSIDLen (len (list_byte_of_string (WifiSSID cfg)))
      + Z.max hostConfigPasswordLen (len (list_byte_of_string (WifiPassword cfg)))
      + 1.
Proof.
  unfold SetConfig_payload. rewrite SetConfig_bytes_eq.
  cbn [skipn app]. rewrite len_cons, !len_app, !len_pad.
  change (len [WifiMode cfg]) with 1. lia.
Qed.

Lemma payload_parts p :
  len p = 99 ->
  p = [nth 0 p x00] ++ slice p 1 34 ++ slice p 34 98 ++ [nth 98 p x00]
  /\ len (slice p 1 34) = hostConfigSSIDLen
  /\ len (slice p 34 98) = hostConfigPasswordLen.
Proof.
  intros H. split; [|split; rewrite len_slice; unfold hostConfigSSIDLen, hostConfigPasswordLen; lia].
  assert (Hl : length p = 99%nat) by (unfold len in H; lia). clear H.
  do 99 (destruct p as [|? p]; [discriminate Hl|]).
  destruct p; [reflexivity | discriminate Hl].
Qed.

Lemma read_config_whole h cfg0 payload rest s :
  rx (wd s) = map RxByte payload ++ rest ->
  len payload = 99 ->
  read_config h cfg0 s =
    (Val (inl (config_of_payload payload)), mkState (cl s) (delivered rest (wd s))).
Proof.
  intros Hrx Hlen. destruct (payload_parts payload Hlen) as (Hp & Hs & Hw).
  rewrite Hp in Hrx. apply (read_config_parts h cfg0 _ _ _ _ rest s Hrx Hs Hw).
Qed.

Lemma Reboot_held s h :
  conn (cl s) = Some h ->
  exists r,
    Reboot s =
      (Val r,
       mkState (cl s)
         (writeByte_world h cmdReboot
            (set_trace (trace (wd s) ++ [EvPrint Stdout (MsgRebooting (Host_Host (host (cl s))))])
                       (wd s)))).
Proof.
  intros Hc. unfold Reboot. rewrite bind_get_cl. unfold Fprint. rewrite bind_emit.
  erewrite writeByte_held by exact Hc. eexists. reflexivity.
Qed.

(** The [cmdConfig] case on a frame that arrives whole: a length of zero
    and nothing more, or a non-zero length and 99 bytes. *)
Lemma case_Config_whole h s hi lo payload rest :
  rx (wd s) = map RxByte ([hi; lo] ++ payload) ++ rest ->
  (if be_uint [hi; lo] >? 0 then len payload = 99 else payload = []) ->
  let cfg := if be_uint [hi; lo] >? 0 then config_of_payload payload else HostConfig_zero in
  let s1 := mkState (cl s) (delivered rest (wd s)) in
  case_Config h s =
    match onConfig (cl s) with
    | Some f =>
        (Val Continue,
         mkState (set_onConfig None (cl s))
                 (set_trace (trace (wd s) ++ [EvOnConfig f cfg]) (delivered rest (wd s))))
    | None => bind Reboot (fun _ => bind (modify_cl (set_onConfig None)) (fun _ => ret Continue)) s1
    end.
Proof.
  intros Hrx Hlen. rewrite map_RxByte_app in Hrx.
  unfold case_Config.
  erewrite bind_Val by (apply (binary_Read_bytes h 2 _ [hi; lo]); [exact Hrx | reflexivity]).
  cbv beta iota. rewrite (bind_Val _ _ _ _ _ (handleError_nil _)). cbv beta iota. cbn [negb].
  destruct (be_uint [hi; lo] >? 0) eqn:Hsz.
  - erewrite bind_Val by
      (apply (read_config_whole h _ payload rest); [cbn [wd]; apply delivered_rx | exact Hlen]).
    cbv beta iota. rewrite bind_get_cl. cbn [cl wd]. rewrite delivered_delivered.
    destruct (onConfig (cl s)) as [f|]; [|reflexivity].
    rewrite bind_assoc, bind_emit, bind_ret, bind_modify_cl. cbn [cl wd].
    rewrite delivered_trace. reflexivity.
  - subst payload. cbn [map app] in *.
    rewrite bind_ret, bind_get_cl. cbn [cl wd].
    destruct (onConfig (cl s)) as [f|]; [|reflexivity].
    rewrite bind_assoc, bind_emit, bind_ret, bind_modify_cl. cbn [cl wd].
    rewrite delivered_trace. reflexivity.
Qed.

Lemma firstn_length_app {A} (l l' : list A) n :
  n = length l -> firstn n (l ++ l') = l.
Proof.
  intros ->. induction l as [|a l IH]; cbn; [now destruct l' | now rewrite IH].
Qed.

Lemma skipn_length_app {A} (l l' : list A) n :
  n = length l -> skipn n (l ++ l') = l'.
Proof. intros ->. induction l as [|a l IH]; cbn; [reflexivity | exact IH]. Qed.

Lemma config_of_payload_parts v ssid pw m :
  len ssid = hostConfigSSIDLen ->
  len pw = hostConfigPasswordLen ->
  config_of_payload (v :: ssid ++ pw ++ [m]) =
    mkHostConfig v (string_of_list_byte (bytes_Trim ssid x00))
                   (string_of_list_byte (bytes_Trim pw x00)) m.
Proof.
  unfold hostConfigSSIDLen, hostConfigPasswordLen, len. intros Hs Hp.
  change (v :: ssid ++ pw ++ [m]) with ([v] ++ ssid ++ pw ++ [m]).
  unfold config_of_payload, slice. f_equal.
  - change (Z.to_nat 1) with 1%nat. cbn [app skipn].
    now rewrite firstn_length_app by lia.
  - replace (Z.to_nat 34) with (length ([v] ++ ssid)) by (rewrite length_app; cbn [length]; lia).
    rewrite app_assoc, skipn_length_app by reflexivity.
    now rewrite firstn_length_app by lia.
  - replace 98%nat with (length ([v] ++ ssid ++ pw)) by (rewrite !length_app; cbn; lia).
    rewrite !app_assoc. rewrite <- (app_assoc [v]).
    apply nth_middle.
Qed.

(** The true part of the round trip: for an SSID of at most 33 bytes and a
    password of at most 64 bytes, what [SetConfig] sends after its opcode
    and length is 99 bytes long, and the [cmdConfig] case reads it back as
    the version of the layout, the SSID and the password with their NUL
    bytes trimmed, and the mode. *)
Lemma SetConfig_round_trip cfg h f s rest :
  len (list_byte_of_string (WifiSSID cfg)) <= hostConfigSSIDLen ->
  len (list_byte_of_string (WifiPassword cfg)) <= hostConfigPasswordLen ->
  onConfig (cl s) = Some f ->
  rx (wd s) = map RxByte (skipn 1 (SetConfig_bytes cfg)) ++ rest ->
  len (SetConfig_payload cfg) = 99 /\
  case_Config h s =
    (Val Continue,
     mkState (set_onConfig None (cl s))
       (set_trace
          (trace (wd s) ++
           [EvOnConfig f (mkHostConfig hostConfigVersion (trim_nul (WifiSSID cfg))
                                       (trim_nul (WifiPassword cfg)) (WifiMode cfg))])
          (delivered rest (wd s)))).
Proof.
  intros Hs Hp Hf Hrx. split.
  - rewrite len_SetConfig_payload.
    unfold hostConfigSSIDLen, hostConfigPasswordLen in *. lia.
  - rewrite SetConfig_bytes_eq in Hrx. cbn [skipn app] in Hrx.
    pose proof (case_Config_whole h s x00 x63 _ rest Hrx) as H.
    cbn [be_uint fold_left] in H. cbv beta iota zeta in H.
    change (0 * 256 + byte_to_Z x00) with 0 in H.
    change (0 * 256 + byte_to_Z x63 >? 0) with true in H. cbv iota in H.
    rewrite H, Hf.
    + rewrite (config_of_payload_parts hostConfigVersion); [| rewrite len_pad; lia ..].
      rewrite !bytes_Trim_pad. reflexivity.
    + rewrite len_cons, !len_app, !len_pad. change (len [WifiMode cfg]) with 1.
      unfold hostConfigSSIDLen, hostConfigPasswordLen in *. lia.
Qed.

(** C4 (defect in the code).  The claim has the payload of [SetConfig]
    exactly 99 bytes long whatever the lengths of SSID and password, and
    the layout read back as the same SSID, password and mode.  [SetConfig]
    pads a field that is too short and leaves one that is too long as it
    is, while the length field it writes is always 99: the payload is
    longer than 99 bytes as soon as the SSID is longer than 33 bytes or the
    password longer than 64.  With an SSID of 34 bytes the payload is 100
    bytes long; read back by the [cmdConfig] case, the SSID has lost its
    last byte, which now starts the password, the mode is the last padding
    byte of the password, and the byte of the mode is left on the socket
    where the next opcode is expected. *)
Theorem SetConfig_long_ssid_breaks_layout :
  let cfg := long_ssid_config in
  let s := mkState (set_onConfig (Some 7%nat) (connected 1%nat))
                   (world_receiving (skipn 1 (SetConfig_bytes cfg))) in
  len (list_byte_of_string (WifiSSID cfg)) = 34 /\
  firstn 3 (SetConfig_bytes cfg) = [cmdSetConfig; x00; x63] /\
  len (SetConfig_payload cfg) = 100 /\
  trace (wd (snd (case_Config 1%nat s))) =
    [EvOnConfig 7%nat
       (mkHostConfig x01 "AAAAAAAAAAAAAAAAAAAAAAAAAAAAAAAAA" "Asecret" WifiModeAuto)] /\
  rx (wd (snd (case_Config 1%nat s))) = [RxByte WifiModeSTA] /\
  (forall c : HostConfig,
     len (SetConfig_payload c) =
       1 + Z.max 33 (len (list_byte_of_string (WifiSSID c)))
         + Z.max 64 (len (list_byte_of_string (WifiPassword c))) + 1).
Proof.
  repeat (split; [vm_compute; reflexivity|]).
  intros c. apply len_SetConfig_payload.
Qed.

(** ** Run: from the opcode to the case *)

Lemma Run_iter_dispatch s h cmd rest :
  conn (cl s) = Some h ->
  rx (wd s) = RxByte cmd :: rest ->
  Run_iter s = dispatch h cmd (mkState (set_timeouts 0 (cl s)) (delivered rest (wd s))).
Proof.
  intros Hc Hrx. unfold Run_iter. rewrite bind_get_cl, Hc. unfold conn_Read1.
  erewrite bind_Val by (apply (ReadFull_bytes h 1 [cmd] rest); [exact Hrx | reflexivity]).
  cbv beta iota. rewrite bind_modify_cl. reflexivity.
Qed.

Lemma Run_iter_closed s : conn (cl s) = None -> Run_iter s = (Val (Return None), s).
Proof. intros Hc. unfold Run_iter. rewrite bind_get_cl, Hc. reflexivity. Qed.

(** C6.  [Run] receives a config response that arrives whole: the opcode,
    a 16-bit length, and the 99 bytes of the record unless the length is
    zero.  If a callback is pending, the one thing the turn of the loop
    does is call it, once, with the configuration read (the zero value for
    a length of zero); if none is pending, the client prints that it
    reboots the host and sends the reboot opcode, and no callback is
    called.  Either way the turn ends with no callback pending and [Run]
    goes on. *)
Theorem config_response_callback_or_reboot
    (s : State) (h : Handle) (hi lo : byte) (payload : list byte) (rest : list RxItem) :
  conn (cl s) = Some h ->
  rx (wd s) = map RxByte (cmdConfig :: hi :: lo :: payload) ++ rest ->
  (if be_uint [hi; lo] >? 0 then len payload = 99 else payload = []) ->
  exists s',
    Run_iter s = (Val Continue, s') /\
    onConfig (cl s') = None /\
    rx (wd s') = rest /\
    match onConfig (cl s) with
    | Some f =>
        trace (wd s') =
          trace (wd s) ++
          [EvOnConfig f (if be_uint [hi; lo] >? 0 then config_of_payload payload
                         else HostConfig_zero)]
    | None =>
        exists evs,
          trace (wd s') =
            trace (wd s) ++
            EvPrint Stdout (MsgRebooting (Host_Host (host (cl s))))
              :: EvWrite h [cmdReboot] :: evs /\
          (evs = [] \/ evs = [EvSleep interval])
    end.
Proof.
  intros Hc Hrx Hlen. cbn [map app] in Hrx.
  rewrite (Run_iter_dispatch s h cmdConfig _ Hc Hrx).
  change (dispatch h cmdConfig) with (case_Config h).
  rewrite (case_Config_whole h _ hi lo payload rest); cycle 1.
  { cbn [wd]. rewrite delivered_rx. now rewrite map_RxByte_app. }
  { exact Hlen. }
  cbn [cl wd onConfig set_timeouts]. rewrite delivered_delivered.
  destruct (onConfig (cl s)) as [f|].
  - eexists. split; [reflexivity|].
    destruct s as [c w]. destruct w. cbn. repeat split.
  - match goal with |- context [bind Reboot _ ?st] =>
      destruct (Reboot_held st h Hc) as (r & E) end.
    rewrite (bind_Val _ _ _ _ _ E), bind_modify_cl. cbn [cl wd].
    eexists. split; [reflexivity|]. split; [reflexivity|].
    cbn [cl wd]. rewrite writeByte_world_rx.
    split; [destruct s as [c w]; destruct w; reflexivity|].
    match goal with |- context [writeByte_world h cmdReboot ?w] =>
      destruct (writeByte_world_trace h cmdReboot w) as (evs & Ht & _ & Hevs) end.
    exists evs. split; [|exact Hevs].
    rewrite Ht. destruct s as [c w]. destruct w. cbn. rewrite <- app_assoc. reflexivity.
Qed.

(** A config response of length zero with no callback pending: the client
    reboots the host. *)
Lemma config_response_callback_or_reboot_witness :
  let s := mkState (connected 1%nat) (world_receiving [cmdConfig; x00; x00]) in
  conn (cl s) = Some 1%nat /\
  rx (wd s) = map RxByte (cmdConfig :: x00 :: x00 :: []) ++ [] /\
  (if be_uint [x00; x00] >? 0 then len (@nil byte) = 99 else @nil byte = []) /\
  exists s',
    Run_iter s = (Val Continue, s') /\
    onConfig (cl s') = None /\
    rx (wd s') = [] /\
    exists evs,
      trace (wd s') =
        trace (wd s) ++
        EvPrint Stdout (MsgRebooting (Host_Host (host (cl s))))
          :: EvWrite 1%nat [cmdReboot] :: evs /\
      (evs = [] \/ evs = [EvSleep interval]).
Proof.
  split; [reflexivity|]. split; [reflexivity|]. split; [reflexivity|].
  apply (config_response_callback_or_reboot
           (mkState (connected 1%nat) (world_receiving [cmdConfig; x00; x00]))
           1%nat x00 x00 [] []); reflexivity.
Defined.

(** ** Connect and Close *)

Lemma Connect_dialled s h rest :
  dials (wd s) = inl h :: rest ->
  Connect s =
    (Val None,
     mkState (set_otaSize 0 (set_timeouts 0 (set_conn (Some h) (cl s))))
             (dialled_world (Host_Addr (host (cl s))) h rest (wd s))).
Proof.
  intros Hd. unfold Connect, Dial, store_conn.
  rewrite bind_get_cl, bind_assoc, bind_emit, bind_assoc, bind_get_wd.
  cbn [wd cl]. replace (dials (set_trace _ (wd s))) with (dials (wd s)) by now destruct (wd s).
  rewrite Hd. cbn [next]. rewrite bind_assoc, bind_modify_wd, bind_ret.
  rewrite bind_assoc, bind_modify_cl, bind_emit, !bind_modify_cl.
  erewrite bind_Val by (apply (writeByte_held _ _ h); reflexivity).
  unfold dialled_world. destruct s as [c w]. destruct w. cbn.
  rewrite <- app_assoc. reflexivity.
Qed.

Lemma Connect_failed s err rest :
  dials (wd s) = inr err :: rest ->
  Connect s =
    (Val (Some (connect_error (Host_Host (host (cl s))) err)),
     mkState (cl s)
             (set_dials rest
                (set_trace (trace (wd s) ++ [EvDial (Host_Addr (host (cl s)))]) (wd s)))).
Proof.
  intros Hd. unfold Connect, Dial.
  rewrite bind_get_cl, bind_assoc, bind_emit, bind_assoc, bind_get_wd.
  cbn [wd cl]. replace (dials (set_trace _ (wd s))) with (dials (wd s)) by now destruct (wd s).
  rewrite Hd. cbn [next]. rewrite bind_assoc, bind_modify_wd, bind_ret.
  reflexivity.
Qed.

(** C7 (as amended).  [Connect] dials the address of the host.  When the
    dial succeeds, the client holds the new socket with the timeout counter
    and the OTA size at zero, and the first and only thing sent on the
    socket is the single byte of the core-dump-read probe.  When the dial
    fails, the client is left as it was, nothing is sent, and the error
    returned is the connection error that names the host (the field [Host]
    of the host, not the address [Addr] that was dialled) and carries the
    text of the dial error. *)
Theorem Connect_probes_or_fails (s : State) (r : Handle + error) (rest : list (Handle + error)) :
  dials (wd s) = r :: rest ->
  exists res s',
    Connect s = (Val res, s') /\
    match r with
    | inl h =>
        res = None /\
        conn (cl s') = Some h /\ timeouts (cl s') = 0 /\ otaSize (cl s') = 0 /\
        sent (trace (wd s')) = sent (trace (wd s)) ++ [(h, [cmdCoredumpRead])] /\
        exists evs,
          trace (wd s') =
            trace (wd s) ++
            EvDial (Host_Addr (host (cl s))) :: EvStoreConn (Some h)
              :: EvWrite h [cmdCoredumpRead] :: evs /\
          (evs = [] \/ evs = [EvSleep interval])
    | inr err =>
        res = Some (connect_error (Host_Host (host (cl s))) err) /\
        cl s' = cl s /\
        trace (wd s') = trace (wd s) ++ [EvDial (Host_Addr (host (cl s)))]
    end.
Proof.
  intros Hd. destruct r as [h|err].
  - rewrite (Connect_dialled s h rest Hd). eexists _, _. split; [reflexivity|].
    split; [reflexivity|]. cbn [cl wd]. repeat (split; [reflexivity|]).
    unfold dialled_world.
    match goal with |- context [writeByte_world h cmdCoredumpRead ?w] =>
      destruct (writeByte_world_trace h cmdCoredumpRead w) as (evs & Ht & Hs & Hevs) end.
    rewrite Ht. split.
    + destruct s as [c w]. destruct w. cbn [trace set_trace wd set_dials].
      rewrite !sent_app.
      change (sent (EvWrite h [cmdCoredumpRead] :: evs)) with ((h, [cmdCoredumpRead]) :: sent evs).
      rewrite Hs. cbn. now rewrite app_nil_r.
    + exists evs. split; [|exact Hevs].
      destruct s as [c w]. destruct w. cbn. rewrite <- app_assoc. reflexivity.
  - rewrite (Connect_failed s err rest Hd). eexists _, _. split; [reflexivity|].
    split; [reflexivity|]. split; [reflexivity|].
    destruct s as [c w]. destruct w. reflexivity.
Qed.

(** A dial that succeeds on a fresh client. *)
Lemma Connect_probes_or_fails_witness :
  let s := mkState (NewClient esp_host true) (set_dials [inl 1%nat] quiet_world) in
  dials (wd s) = inl 1%nat :: [] /\
  exists res s',
    Connect s = (Val res, s') /\
    res = None /\
    conn (cl s') = Some 1%nat /\ timeouts (cl s') = 0 /\ otaSize (cl s') = 0 /\
    sent (trace (wd s')) = sent (trace (wd s)) ++ [(1%nat, [cmdCoredumpRead])] /\
    exists evs,
      trace (wd s') =
        trace (wd s) ++
        EvDial (Host_Addr (host (cl s))) :: EvStoreConn (Some 1%nat)
          :: EvWrite 1%nat [cmdCoredumpRead] :: evs /\
      (evs = [] \/ evs = [EvSleep interval]).
Proof.
  split; [reflexivity|].
  apply (Connect_probes_or_fails
           (mkState (NewClient esp_host true) (set_dials [inl 1%nat] quiet_world))
           (inl 1%nat) []).
  reflexivity.
Defined.

(** C7 (the claim as stated fails).  The claim has the error of a failed
    dial wrap the address.  The address is what [Connect] dials; the error
    it returns is built from the name of the host.  For the host
    [esp32.local.] at [192.168.4.1:8080] the error names [esp32.local.];
    it is not the connection error for the address, whatever the cause. *)
Lemma Connect_error_names_host_not_address :
  let s := mkState (NewClient esp_host true) (world_refusing refused) in
  fst (Connect s) = Val (Some (connect_error "esp32.local." refused)) /\
  forall cause, fst (Connect s) <> Val (Some (connect_error (Host_Addr esp_host) cause)).
Proof.
  split; [reflexivity|].
  intros cause H. vm_compute in H. discriminate H.
Qed.

Lemma Close_held s h :
  conn (cl s) = Some h ->
  let (r, rest) := next None (closes (wd s)) in
  Close s =
    (Val r,
     mkState (match r with None => set_conn None (cl s) | Some _ => cl s end)
             (closed_world h r rest (wd s))).
Proof.
  intros Hc. unfold Close. rewrite bind_get_cl, Hc.
  destruct s as [c w]. destruct w as [n t rx0 ws cs ds rf tf fw fc si tl].
  cbn [cl] in Hc. destruct c as [ho co km ti os ol oc]. cbn [conn] in Hc. subst co.
  destruct cs as [|[e|] cs]; cbn; unfold closed_world; cbn;
    rewrite <- ?app_assoc; reflexivity.
Qed.

(** C8.  [Close] with no handle held returns nil and changes nothing.
    With a handle held it sets the connection field to nil and then closes
    the socket.  If closing succeeds it returns nil, the field stays nil,
    and a second [Close] returns nil and changes nothing; if closing fails
    it sets the field back to the handle and returns the error, the client
    being as it was before the call. *)
Theorem Close_nulls_then_closes (s : State) :
  match conn (cl s) with
  | None => Close s = (Val None, s)
  | Some h =>
      exists r s',
        Close s = (Val r, s') /\
        r = fst (next None (closes (wd s))) /\
        match r with
        | None =>
            cl s' = set_conn None (cl s) /\
            trace (wd s') = trace (wd s) ++ [EvStoreConn None; EvSockClose h] /\
            Close s' = (Val None, s')
        | Some _ =>
            cl s' = cl s /\
            trace (wd s') =
              trace (wd s) ++ [EvStoreConn None; EvSockClose h; EvStoreConn (Some h)]
        end
  end.
Proof.
  destruct (conn (cl s)) as [h|] eqn:Hc.
  - pose proof (Close_held s h Hc) as H.
    destruct (next None (closes (wd s))) as [r rest] eqn:Hn.
    eexists r, _. split; [exact H|]. split; [reflexivity|].
    destruct r as [e|]; cbn [cl wd].
    + split; [reflexivity|]. destruct (wd s). unfold closed_world. cbn.
      rewrite <- app_assoc. reflexivity.
    + split; [reflexivity|]. split.
      * destruct (wd s). reflexivity.
      * unfold Close. rewrite bind_get_cl. reflexivity.
  - unfold Close. rewrite bind_get_cl, Hc. reflexivity.
Qed.

(** ** Reads and handleError always return *)

Lemma ReadFull_returns h n s :
  exists bs e s', ReadFull h n s = (Val (bs, e), s') /\ cl s' = cl s.
Proof.
  unfold ReadFull. rewrite bind_get_wd.
  destruct (take_rx (rx (wd s)) (Z.to_nat n)) as [[[bs e] rest] t].
  rewrite bind_modify_wd. eexists _, _, _. split; reflexivity.
Qed.

Lemma binary_Read_returns h n old s :
  exists v e s', binary_Read h n old s = (Val (v, e), s') /\ cl s' = cl s.
Proof.
  unfold binary_Read.
  destruct (ReadFull_returns h n s) as (bs & e & s' & E & Hc).
  rewrite (bind_Val _ _ _ _ _ E). cbv beta iota.
  destruct e; eexists _, _, _; split; try reflexivity; exact Hc.
Qed.

Lemma handleError_returns err s :
  exists ok s',
    handleError err s = (Val ok, s') /\
    (cl s' = cl s \/ cl s' = set_timeouts (timeouts (cl s) + 1) (cl s)).
Proof.
  destruct err as [[tmo txt|txt]|]; cbn [handleError];
    [|eexists _, _; split; [reflexivity | now left] ..].
  rewrite bind_get_cl.
  destruct (tmo && (timeouts (cl s) =? 0)); [|eexists _, _; split; [reflexivity | now left]].
  rewrite (bind_Val _ _ _ _ _ (isFlashingOTA_eq s)).
  destruct (flashing s); [eexists _, _; split; [reflexivity | now left]|].
  rewrite bind_modify_cl.
  match goal with |- context [writeByte ?b] =>
    match goal with |- context [bind (writeByte b) _ ?st] =>
      destruct (write_returns [b] st) as (r & s' & E & Hc & _) end end.
  unfold writeByte. rewrite (bind_Val _ _ _ _ _ E).
  eexists _, _. split; [reflexivity|]. right. exact Hc.
Qed.

Lemma handleError_otaSize err s ok s' :
  handleError err s = (Val ok, s') -> otaSize (cl s') = otaSize (cl s).
Proof.
  intros E. destruct (handleError_returns err s) as (ok' & s'' & E' & [H|H]);
    rewrite E in E'; injection E' as <- <-; rewrite H; reflexivity.
Qed.

(** C9.  The OTA-progress case never panics, whatever the state of the
    client, the clock and what the device sends or fails to send: it
    returns, and the division [offset*100/otaSize] is reached only with
    [otaSize > 0].  When no transfer is active the case does nothing at
    all; when one is active, [otaSize > 0] holds at the test and still
    holds, unchanged, when the case is over. *)
Theorem OTAProgress_never_divides_by_zero (s : State) (h : Handle) :
  exists ctl s',
    dispatch h cmdOTAProgress s = (Val ctl, s') /\
    otaSize (cl s') = otaSize (cl s) /\
    (if flashing s then 0 < otaSize (cl s) else ctl = Continue /\ s' = s).
Proof.
  change (dispatch h cmdOTAProgress) with (case_OTAProgress h).
  unfold case_OTAProgress. rewrite (bind_Val _ _ _ _ _ (isFlashingOTA_eq s)).
  destruct (flashing s) eqn:Hf; cbn [negb].
  - assert (Hpos : 0 < otaSize (cl s)) by (apply flashing_at_iff in Hf; tauto).
    destruct (binary_Read_returns h 4 0 s) as (offset & err & s1 & E1 & Hc1).
    rewrite (bind_Val _ _ _ _ _ E1). cbv beta iota.
    destruct (handleError_returns err s1) as (ok & s2 & E2 & _).
    pose proof (handleError_otaSize _ _ _ _ E2) as Hsz.
    rewrite (bind_Val _ _ _ _ _ E2). rewrite Hc1 in Hsz.
    destruct ok; cbn [negb].
    + rewrite bind_get_cl. unfold int_div. rewrite Hsz.
      destruct (otaSize (cl s) =? 0) eqn:E0; [apply Z.eqb_eq in E0; lia|].
      rewrite bind_ret. unfold Fprint. rewrite bind_emit, bind_Now, bind_modify_cl.
      eexists _, _. split; [reflexivity|]. cbn [cl set_otaLastMessage otaSize].
      split; [exact Hsz | exact Hpos].
    + eexists _, _. split; [reflexivity|]. split; [exact Hsz | exact Hpos].
  - eexists _, _. split; [reflexivity|]. repeat split.
Qed.

(** ** The core dump *)

Lemma int_div_by_zero a s : int_div a 0 s = (Panic DivideByZero, s).
Proof. reflexivity. Qed.

(** A blob of one, two or three bytes makes [DisplayCoreDump] panic as
    soon as its temporary file exists. *)
Lemma DisplayCoreDump_short_blob data c w :
  0 < len data < 4 ->
  tempfiles w = [] ->
  DisplayCoreDump data (mkState c w) =
    (Panic (SliceBounds 4 (len data)),
     mkState c
       (set_trace (trace w ++ [EvTempFile "core.0"; EvRemove "core.0"])
                  (set_tempfiles [] w))).
Proof.
  intros Hlen Htf. unfold DisplayCoreDump, TempFile.
  rewrite bind_assoc, bind_get_wd. cbn [wd]. rewrite Htf. cbn [next].
  rewrite bind_assoc, bind_modify_wd, bind_assoc, bind_emit, bind_ret.
  unfold defer, slice_from.
  destruct (4 <=? len data) eqn:E; [apply Z.leb_le in E; lia|].
  destruct w. cbn. rewrite <- app_assoc. reflexivity.
Qed.

Lemma DisplayCoreDump_short_blob_panics data c w :
  0 < len data < 4 ->
  tempfiles w = [] ->
  fst (DisplayCoreDump data (mkState c w)) = Panic (SliceBounds 4 (len data)).
Proof. intros Hlen Htf. now rewrite DisplayCoreDump_short_blob. Qed.

(** C10 (defect in the code).  The claim has every non-empty blob that the
    dispatcher hands to [DisplayCoreDump] at least four bytes long, so that
    [data[4:]] is in bounds.  The dispatcher tests [len(data) == 0] and
    nothing else.  A core-dump-read response that carries a blob of one
    byte reaches [DisplayCoreDump], which creates its temporary file and
    then panics on [data[4:]]; the deferred removal of the file runs and
    [Run] is over.  So it is for every blob of one, two or three bytes,
    whatever the client, once the temporary file exists. *)
Theorem DisplayCoreDump_short_blob_out_of_bounds :
  let s := mkState (connected 1%nat)
                   (world_receiving [cmdCoredumpRead; x00; x00; x00; x01; xaa]) in
  Run_iter s =
    (Panic (SliceBounds 4 1),
     mkState (connected 1%nat)
       (set_trace [EvPrint Stdout (MsgFoundCoredump 1);
                   EvTempFile "core.0"; EvRemove "core.0"] quiet_world))
  /\ (forall data c w,
        0 < len data < 4 -> tempfiles w = [] ->
        fst (DisplayCoreDump data (mkState c w)) = Panic (SliceBounds 4 (len data))).
Proof.
  split; [reflexivity|].
  intros data c w. apply DisplayCoreDump_short_blob_panics.
Qed.

(** ** The workflow on a blob of at least four bytes *)

Lemma runs_tool_not_delete st : runs_tool st = true -> member st ["d"; "D"] = false.
Proof.
  unfold runs_tool, member. cbn [existsb].
  repeat match goal with
         | |- context [String.eqb st ?x] => destruct (String.eqb_spec st x); [subst st|]
         end; try reflexivity; try discriminate.
Qed.

Lemma ignore_not_delete st :
  member st ["i"; "I"] = true -> member st ["d"; "D"] = false.
Proof.
  unfold member. cbn [existsb].
  repeat match goal with
         | |- context [String.eqb st ?x] => destruct (String.eqb_spec st x); [subst st|]
         end; try reflexivity; try discriminate.
Qed.

Lemma runEspCoredump_interactive name op s :
  stdin_km (cl s) = true ->
  exists r s',
    runEspCoredump name op s = (Val r, s') /\
    cl s' = cl s /\
    sent (trace (wd s')) = sent (trace (wd s)) /\
    rx (wd s') = rx (wd s) /\ writes (wd s') = writes (wd s).
Proof.
  intros Hkm. unfold runEspCoredump. rewrite bind_get_cl, Hkm.
  destruct s as [c w]. destruct w as [n t r ws cs ds rf tf fw fc si tl].
  destruct tl as [|r0 tl']; eexists _, _; (split; [reflexivity|]);
    cbn -[sent]; rewrite sent_app; cbn; rewrite app_nil_r; repeat split.
Qed.

Lemma coredump_choice_rejects name st vars s :
  valid_choice st = false ->
  coredump_choice name st vars s = (Val (false, vars), s).
Proof.
  unfold valid_choice, runs_tool. intros H.
  apply orb_false_iff in H. destruct H as [H Hi].
  apply orb_false_iff in H. destruct H as [H Hd].
  apply orb_false_iff in H. destruct H as [Hv Hg].
  unfold coredump_choice. destruct vars as [del r].
  rewrite Hv, Hg, Hd, Hi. reflexivity.
Qed.

Lemma coredump_choice_accepts name st s :
  valid_choice st = true ->
  (runs_tool st = true -> stdin_km (cl s) = true) ->
  exists err s',
    coredump_choice name st (false, None) s = (Val (true, (member st ["d"; "D"], err)), s') /\
    cl s' = cl s /\
    sent (trace (wd s')) = sent (trace (wd s)) /\
    rx (wd s') = rx (wd s) /\ writes (wd s') = writes (wd s).
Proof.
  intros Hv Hkm. unfold coredump_choice.
  destruct (member st ["v"; "V"; EmptyString]) eqn:E1.
  { assert (Hr : runs_tool st = true) by (unfold runs_tool; now rewrite E1).
    rewrite (runs_tool_not_delete st Hr).
    destruct (runEspCoredump_interactive name "info_corefile" s (Hkm Hr))
      as (r & s' & E & Hc & Hs & Hrx & Hw).
    rewrite (bind_Val _ _ _ _ _ E).
    destruct r; eexists _, s'; (split; [reflexivity | auto]). }
  destruct (member st ["g"; "G"]) eqn:E2.
  { assert (Hr : runs_tool st = true) by (unfold runs_tool; now rewrite E1, E2).
    rewrite (runs_tool_not_delete st Hr).
    destruct (runEspCoredump_interactive name "dbg_corefile" s (Hkm Hr))
      as (r & s' & E & Hc & Hs & Hrx & Hw).
    rewrite (bind_Val _ _ _ _ _ E).
    destruct r; eexists _, s'; (split; [reflexivity | auto]). }
  destruct (member st ["d"; "D"]) eqn:E3.
  { eexists _, s. split; [reflexivity | auto]. }
  destruct (member st ["i"; "I"]) eqn:E4.
  { eexists _, s. split; [reflexivity | auto]. }
  unfold valid_choice, runs_tool in Hv. rewrite E1, E2, E3, E4 in Hv. discriminate.
Qed.

Lemma PromptUser_step {L} fuel p (v : string -> L -> M (bool * L)) l s :
  PromptUser (S fuel) p v l s =
    let st := TrimSpace (fst (next EmptyString (stdin (wd s)))) in
    bind (v st l)
         (fun r => if fst r then ret (st, snd r) else PromptUser fuel p v (snd r))
         (mkState (cl s)
            (set_stdin (snd (next EmptyString (stdin (wd s))))
               (set_trace (trace (wd s) ++ [EvPrint Stdout (MsgPrompt p)]) (wd s)))).
Proof.
  cbn [PromptUser]. unfold Fprint, ReadString.
  rewrite bind_emit, bind_assoc, bind_get_wd. cbn [wd].
  destruct s as [c w]. destruct w as [n t r ws cs ds rf tf fw fc si tl].
  cbn [stdin set_trace wd cl trace].
  destruct (next EmptyString si) as [line rest] eqn:E. cbn [fst snd].
  rewrite bind_assoc, bind_modify_wd, bind_ret.
  unfold bind. cbn [cl wd set_stdin set_trace now trace rx writes closes dials readfile
                    tempfiles fwrites fcloses stdin tools].
  match goal with |- context [v ?a ?b ?c] => destruct (v a b c) as [[[ok l']| |] s'] end;
    reflexivity.
Qed.

(** [PromptUser] with the closure of [DisplayCoreDump] returns whatever
    the user types: at the latest the empty answer at the end of the input
    is accepted.  Its result is the accepted answer, and [del] holds
    exactly when that answer is [d] or [D]. *)
Lemma PromptUser_coredump name : forall lines fuel s,
  stdin (wd s) = lines ->
  (length lines < fuel)%nat ->
  (runs_tool (accepted_choice lines) = true -> stdin_km (cl s) = true) ->
  exists err s',
    PromptUser fuel coredump_prompt (coredump_choice name) (false, None) s =
      (Val (accepted_choice lines, (member (accepted_choice lines) ["d"; "D"], err)), s') /\
    cl s' = cl s /\
    sent (trace (wd s')) = sent (trace (wd s)) /\
    rx (wd s') = rx (wd s) /\ writes (wd s') = writes (wd s).
Proof.
  induction lines as [|l ls IH]; intros fuel s Hin Hfuel Hkm;
    (destruct fuel as [|fuel]; [inversion Hfuel|]);
    rewrite PromptUser_step, Hin; cbn [next fst snd]; cbv zeta.
  - match goal with |- context [bind _ _ ?st] => set (s1 := st) end.
    destruct (coredump_choice_accepts name (TrimSpace EmptyString) s1 eq_refl Hkm)
      as (err & s' & E & Hc & Hs & Hrx & Hw).
    rewrite (bind_Val _ _ _ _ _ E). cbn [fst snd].
    exists err, s'. split; [reflexivity|].
    subst s1. destruct s as [c w]. destruct w. cbn -[sent] in *.
    rewrite sent_app in Hs. cbn in Hs. rewrite app_nil_r in Hs. auto.
  - match goal with |- context [bind _ _ ?st] => set (s1 := st) end.
    cbn [accepted_choice] in *.
    destruct (valid_choice (TrimSpace l)) eqn:Hv.
    + destruct (coredump_choice_accepts name (TrimSpace l) s1 Hv Hkm)
        as (err & s' & E & Hc & Hs & Hrx & Hw).
      rewrite (bind_Val _ _ _ _ _ E). cbn [fst snd].
      exists err, s'. split; [reflexivity|].
      subst s1. destruct s as [c w]. destruct w. cbn -[sent] in *.
      rewrite sent_app in Hs. cbn in Hs. rewrite app_nil_r in Hs. auto.
    + rewrite (bind_Val _ _ _ _ _ (coredump_choice_rejects name _ _ s1 Hv)). cbn [fst snd].
      destruct (IH fuel s1) as (err & s' & E & Hc & Hs & Hrx & Hw).
      * subst s1. destruct s as [c w]. destruct w. reflexivity.
      * cbn [length] in Hfuel. lia.
      * exact Hkm.
      * exists err, s'. split; [exact E|].
        subst s1. destruct s as [c w]. destruct w. cbn -[sent] in *.
        rewrite sent_app in Hs. cbn in Hs. rewrite app_nil_r in Hs. auto.
Qed.

Lemma defer_Remove {A} name (body : M A) s r s' :
  body s = (r, s') ->
  defer (os_Remove name) body s =
    (r, mkState (cl s') (set_trace (trace (wd s') ++ [EvRemove name]) (wd s'))).
Proof. intros E. unfold defer. rewrite E. reflexivity. Qed.

Lemma TempFile_eq s :
  TempFile s =
    (Val (fst (next (inl "core.0") (tempfiles (wd s)))),
     mkState (cl s)
       (match fst (next (inl "core.0") (tempfiles (wd s))) with
        | inl name =>
            set_trace (trace (wd s) ++ [EvTempFile name])
              (set_tempfiles (snd (next (inl "core.0") (tempfiles (wd s)))) (wd s))
        | inr _ => set_tempfiles (snd (next (inl "core.0") (tempfiles (wd s)))) (wd s)
        end)).
Proof.
  unfold TempFile. rewrite bind_get_wd.
  destruct (next (inl "core.0") (tempfiles (wd s))) as [[name|e] rest]; reflexivity.
Qed.

Lemma File_Write_eq name data s :
  File_Write name data s =
    (Val (fst (next None (fwrites (wd s)))),
     mkState (cl s)
       (set_fwrites (snd (next None (fwrites (wd s))))
          (set_trace (trace (wd s) ++ [EvFileWrite name data]) (wd s)))).
Proof.
  unfold File_Write. rewrite bind_emit, bind_get_wd. cbn [wd].
  destruct s as [c w]. destruct w as [n t r ws cs ds rf tf fw fc si tl].
  destruct fw as [|r0 fw']; reflexivity.
Qed.

Lemma File_Close_eq name s :
  File_Close name s =
    (Val (fst (next None (fcloses (wd s)))),
     mkState (cl s)
       (set_fcloses (snd (next None (fcloses (wd s))))
          (set_trace (trace (wd s) ++ [EvFileClose name]) (wd s)))).
Proof.
  unfold File_Close. rewrite bind_emit, bind_get_wd. cbn [wd].
  destruct s as [c w]. destruct w as [n t r ws cs ds rf tf fw fc si tl].
  destruct fc as [|r0 fc']; reflexivity.
Qed.

Lemma slice_from_in_bounds {A} (data : list A) low s :
  low <= len data -> slice_from data low s = (Val (skipn (Z.to_nat low) data), s).
Proof.
  intros H. unfold slice_from. apply Z.leb_le in H. now rewrite H.
Qed.

(** [DisplayCoreDump] on a blob of at least four bytes returns, unless the
    user asks for the external tool and [c.stdin] is not the keyboard
    monitor's reader; [del] holds exactly when the user chose delete.
    Nothing is sent on the socket meanwhile. *)
Lemma DisplayCoreDump_returns data s :
  4 <= len data ->
  (user_asked (wd s) = true ->
   runs_tool (accepted_choice (stdin (wd s))) = true -> stdin_km (cl s) = true) ->
  exists err s',
    DisplayCoreDump data s = (Val (user_chose_delete (wd s), err), s') /\
    cl s' = cl s /\
    sent (trace (wd s')) = sent (trace (wd s)) /\
    rx (wd s') = rx (wd s) /\ writes (wd s') = writes (wd s).
Proof.
  intros Hlen Hkm. unfold DisplayCoreDump, user_chose_delete, user_asked in *.
  rewrite (bind_Val _ _ _ _ _ (TempFile_eq s)).
  destruct s as [c w]. destruct w as [n t r ws cs ds rf tf fw fc si tl].
  cbn [wd cl tempfiles fwrites fcloses stdin] in *.
  destruct (next (inl "core.0") tf) as [[name|e] rest] eqn:Etf; cbn [fst snd] in *.
  2:{ eexists _, _. split; [reflexivity|]. cbn. auto. }
  match goal with |- context [defer _ ?b ?st] => set (body := b); set (s1 := st) end.
  assert (Hbody : exists err s',
             body s1 = (Val (match fst (next None fw), fst (next None fc) with
                             | None, None => true
                             | _, _ => false
                             end && member (accepted_choice si) ["d"; "D"], err), s') /\
             cl s' = c /\ sent (trace (wd s')) = sent t /\ rx (wd s') = r /\ writes (wd s') = ws).
  { subst body s1.
    rewrite (bind_Val _ _ _ _ _ (slice_from_in_bounds data 4 _ Hlen)).
    rewrite (bind_Val _ _ _ _ _ (File_Write_eq name _ _)). fields.
    destruct (fst (next None fw)) as [e|] eqn:Efw; cbv beta iota.
    { rewrite (bind_Val _ _ _ _ _ (File_Close_eq name _)).
      eexists _, _. split; [reflexivity|]. fields.
      rewrite !sent_app. cbn. rewrite !app_nil_r. auto. }
    rewrite (bind_Val _ _ _ _ _ (File_Close_eq name _)). fields.
    destruct (fst (next None fc)) as [e|] eqn:Efc; cbv beta iota.
    { eexists _, _. split; [reflexivity|]. fields.
      rewrite !sent_app. cbn. rewrite !app_nil_r. auto. }
    rewrite bind_get_wd. fields.
    match goal with |- context [bind (PromptUser _ _ _ _) _ ?st] => set (s2 := st) end.
    destruct (PromptUser_coredump name si (S (length si)) s2) as (err & s' & E & Hc & Hs & Hrx & Hw);
      [reflexivity | lia | intros Hr; apply Hkm; [reflexivity | exact Hr] |].
    rewrite (bind_Val _ _ _ _ _ E). cbv beta iota.
    exists err, s'. split; [reflexivity|].
    subst s2. cbn -[sent] in Hc, Hs, Hrx, Hw.
    rewrite !sent_app in Hs. cbn in Hs. rewrite !app_nil_r in Hs. auto. }
  destruct Hbody as (err & s' & E & Hc & Hs & Hrx & Hw).
  rewrite (defer_Remove name body s1 _ s' E).
  exists err. eexists. split; [reflexivity|]. cbn -[sent].
  destruct s' as [c' w']. destruct w'. cbn -[sent] in *.
  rewrite sent_app. cbn. rewrite app_nil_r. auto.
Qed.

(** ** The core-dump-read case on a response that arrives whole *)

Lemma readBlob_whole h width size data rest s :
  rx (wd s) = map RxByte (size ++ data) ++ rest ->
  len size = width ->
  be_uint size = len data ->
  readBlob h width s = (Val (data, None), mkState (cl s) (delivered rest (wd s))).
Proof.
  intros Hrx Hw Hsz. rewrite map_RxByte_app in Hrx. unfold readBlob.
  erewrite bind_Val by (apply (binary_Read_bytes h width _ size); [exact Hrx | now symmetry]).
  cbv beta iota. rewrite (bind_Val _ _ _ _ _ (handleError_nil _)). cbn [negb].
  erewrite bind_Val by
    (apply (ReadFull_bytes h _ data rest); [cbn [wd]; apply delivered_rx | exact Hsz]).
  cbv beta iota. rewrite (bind_Val _ _ _ _ _ (handleError_nil _)). cbn [negb].
  rewrite Hsz, Z.sub_diag. cbn [Z.to_nat repeat]. rewrite app_nil_r.
  cbn [cl wd]. rewrite delivered_delivered. reflexivity.
Qed.

(** The true part of C5.  [Run] receives a core-dump-read response that
    arrives whole, with an empty blob or one of at least four bytes.  For
    the empty blob the one thing it does is send continue: the workflow is
    not run, no file is made, nobody is asked.  For the other the workflow
    runs and returns (the user not asking for the external tool where
    [c.stdin] cannot run it), and the one message sent is core-dump-erase if
    the user chose delete and continue if not. *)
Lemma coredump_read_response s h size data rest :
  conn (cl s) = Some h ->
  rx (wd s) = map RxByte (cmdCoredumpRead :: size ++ data) ++ rest ->
  len size = 4 ->
  be_uint size = len data ->
  data = [] \/ 4 <= len data ->
  (user_asked (wd s) = true ->
   runs_tool (accepted_choice (stdin (wd s))) = true -> stdin_km (cl s) = true) ->
  exists s',
    Run_iter s = (Val Continue, s') /\
    sent (trace (wd s')) =
      sent (trace (wd s)) ++
      [(h, [if (0 <? len data) && user_chose_delete (wd s)
            then cmdCoredumpErase else cmdContinue])] /\
    (data = [] ->
     exists evs,
       trace (wd s') = trace (wd s) ++ EvWrite h [cmdContinue] :: evs /\
       (evs = [] \/ evs = [EvSleep interval])).
Proof.
  intros Hc Hrx Hw Hsz Hdata Hkm. cbn [map app] in Hrx.
  rewrite (Run_iter_dispatch s h cmdCoredumpRead _ Hc Hrx).
  change (dispatch h cmdCoredumpRead) with (case_CoredumpRead h).
  unfold case_CoredumpRead, readBlob32.
  erewrite bind_Val by
    (apply (readBlob_whole h 4 size data rest); [cbn [wd]; apply delivered_rx | exact Hw | exact Hsz]).
  cbv beta iota. fields. rewrite delivered_delivered.
  destruct Hdata as [-> | Hlen].
  - change (len (@nil byte) =? 0) with true. cbv iota.
    erewrite bind_Val by (apply (writeByte_held _ _ h); exact Hc).
    eexists. split; [reflexivity|]. fields. rewrite writeByte_world_sent, delivered_trace.
    split; [reflexivity|]. intros _.
    destruct (writeByte_world_trace h cmdContinue (delivered rest (wd s))) as (evs & Ht & _ & Hevs).
    exists evs. rewrite Ht, delivered_trace. auto.
  - destruct (len data =? 0) eqn:E0; [apply Z.eqb_eq in E0; lia|].
    assert (E1 : (0 <? len data) = true) by (apply Z.ltb_lt; lia). rewrite E1. cbn [andb].
    unfold Fprint. rewrite bind_emit. fields.
    match goal with |- context [bind (DisplayCoreDump data) _ ?st] => set (s1 := st) end.
    assert (Hu : user_chose_delete (wd s1) = user_chose_delete (wd s)).
    { subst s1. destruct s as [c w]. destruct w. reflexivity. }
    destruct (DisplayCoreDump_returns data s1 Hlen) as (err & s2 & E & Hc2 & Hs2 & _).
    { subst s1. destruct s as [c w]. destruct w. exact Hkm. }
    rewrite (bind_Val _ _ _ _ _ E). cbv beta iota. rewrite Hu.
    assert (Hconn : forall ev, conn (cl (mkState (cl s2) (set_trace (trace (wd s2) ++ ev) (wd s2)))) = Some h).
    { intros ev. cbn [cl]. rewrite Hc2. subst s1. exact Hc. }
    assert (Hsent : sent (trace (wd s2)) = sent (trace (wd s))).
    { rewrite Hs2. subst s1. fields. rewrite sent_app, delivered_trace. cbn. now rewrite app_nil_r. }
    destruct err as [e|]; [unfold Fprint; rewrite bind_emit | rewrite bind_ret];
      destruct (user_chose_delete (wd s));
      (erewrite bind_Val by
         (apply (writeByte_held _ _ h); first [apply (Hconn [_]) | rewrite Hc2; subst s1; exact Hc]));
      (eexists; split; [reflexivity|]); fields; rewrite writeByte_world_sent; fields;
      rewrite ?sent_app, Hsent; cbn; rewrite ?app_nil_r;
      (split; [reflexivity | intros ->; cbn in Hlen; lia]).
Qed.

(** A core-dump-read response with a blob of one, two or three bytes ends
    [Run] in a panic, and nothing is sent. *)
Lemma coredump_short_blob_in_Run s h size data rest :
  conn (cl s) = Some h ->
  rx (wd s) = map RxByte (cmdCoredumpRead :: size ++ data) ++ rest ->
  len size = 4 ->
  be_uint size = len data ->
  0 < len data < 4 ->
  tempfiles (wd s) = [] ->
  fst (Run_iter s) = Panic (SliceBounds 4 (len data)) /\
  sent (trace (wd (snd (Run_iter s)))) = sent (trace (wd s)).
Proof.
  intros Hc Hrx Hw Hsz Hlen Htf. cbn [map app] in Hrx.
  rewrite (Run_iter_dispatch s h cmdCoredumpRead _ Hc Hrx).
  change (dispatch h cmdCoredumpRead) with (case_CoredumpRead h).
  unfold case_CoredumpRead, readBlob32.
  erewrite bind_Val by
    (apply (readBlob_whole h 4 size data rest); [cbn [wd]; apply delivered_rx | exact Hw | exact Hsz]).
  cbv beta iota. fields. rewrite delivered_delivered.
  destruct (len data =? 0) eqn:E0; [apply Z.eqb_eq in E0; lia|].
  unfold Fprint. rewrite bind_emit. fields.
  erewrite bind_Panic by
    (apply DisplayCoreDump_short_blob; [exact Hlen | destruct s as [c w]; destruct w; exact Htf]).
  cbn [fst snd wd]. split; [reflexivity|].
  destruct s as [c w]. destruct w. cbn -[sent]. rewrite !sent_app. cbn.
  now rewrite !app_nil_r.
Qed.

(** C5 (defect in the code, the one of C10).  The claim has the client
    answer every non-empty core dump with core-dump-erase or continue once
    the workflow has run.  For a blob of three bytes the workflow panics on
    [data[4:]] before the user is asked: [Run] ends in the panic and
    nothing is sent to the device, neither continue nor core-dump-erase.
    So it is for every response with a blob of one, two or three bytes. *)
Theorem coredump_short_blob_gets_no_reply :
  let s := mkState (connected 1%nat)
                   (world_receiving [cmdCoredumpRead; x00; x00; x00; x03; xaa; xbb; xcc]) in
  fst (Run_iter s) = Panic (SliceBounds 4 3) /\
  sent (trace (wd (snd (Run_iter s)))) = [] /\
  rx (wd (snd (Run_iter s))) = [] /\
  (forall s0 h size data rest,
     conn (cl s0) = Some h ->
     rx (wd s0) = map RxByte (cmdCoredumpRead :: size ++ data) ++ rest ->
     len size = 4 ->
     be_uint size = len data ->
     0 < len data < 4 ->
     tempfiles (wd s0) = [] ->
     fst (Run_iter s0) = Panic (SliceBounds 4 (len data)) /\
     sent (trace (wd (snd (Run_iter s0)))) = sent (trace (wd s0))).
Proof.
  repeat (split; [reflexivity|]).
  intros s0 h size data rest. apply coredump_short_blob_in_Run.
Qed.

(** ** The model runs: scenarios of the specification *)

(** With [otaSize = 100] and a transfer active, an OTA-progress frame with
    offset 50 prints 50 percent and refreshes the time of the last
    message. *)
Example OTA_progress_half :
  let c := set_otaSize 100 (connected 1%nat) in
  let s := mkState c (world_receiving [cmdOTAProgress; x00; x00; x00; x32]) in
  fst (Run_iter s) = Val Continue /\
  trace (wd (snd (Run_iter s))) = [EvPrint Stdout (MsgOTAProgress 50 100 50)].
Proof. repeat split. Qed.

(** A core dump of a magic number and three bytes: the three bytes are
    what is written to the temporary file; the user answers [d] and the
    client sends core-dump-erase. *)
Example coredump_deleted :
  let w := set_stdin ["d"] (world_receiving
             [cmdCoredumpRead; x00; x00; x00; x07; xde; xad; xbe; xef; x01; x02; x03]) in
  let s := mkState (connected 1%nat) w in
  fst (Run_iter s) = Val Continue /\
  trace (wd (snd (Run_iter s))) =
    [EvPrint Stdout (MsgFoundCoredump 7);
     EvTempFile "core.0";
     EvFileWrite "core.0" [x01; x02; x03];
     EvFileClose "core.0";
     EvPrint Stdout (MsgPrompt coredump_prompt);
     EvRemove "core.0";
     EvWrite 1%nat [cmdCoredumpErase];
     EvSleep interval].
Proof. repeat split. Qed.

(** Under [-n] the reader of [c.stdin] is not the keyboard monitor's: an
    answer that asks for the external tool ends in the failed type
    assertion of [runEspCoredump]. *)
Example coredump_view_without_keyboard_monitor :
  let w := set_stdin ["v"] (world_receiving
             [cmdCoredumpRead; x00; x00; x00; x05; xde; xad; xbe; xef; x01]) in
  let s := mkState (set_conn (Some 1%nat) (NewClient esp_host false)) w in
  fst (Run_iter s) = Panic TypeAssertion.
Proof. reflexivity. Qed.

(** [Run] on a client that holds no connection returns nil at once; on a
    silent device it suppresses the first timeout, sends a ping, and
    returns the second timeout. *)
Example Run_closed_or_silent :
  fst (Run 1 (mkState (NewClient esp_host true) quiet_world)) = Val None /\
  fst (Run 2 (mkState (connected 1%nat) quiet_world)) = Val (Some rx_silent) /\
  sent (trace (wd (snd (Run 2 (mkState (connected 1%nat) quiet_world))))) =
    [(1%nat, [cmdPing])].
Proof. repeat split. Qed.

(* ================================================================= *)
(** * More of client.go *)

(** ** write: what goes out, and when it stops *)

Lemma sent_paced h chunks : sent (paced h chunks) = map (pair h) chunks.
Proof.
  induction chunks as [|ch chunks IH]; [reflexivity|].
  change (paced h (ch :: chunks)) with ([EvWrite h ch; EvSleep interval] ++ paced h chunks).
  rewrite sent_app, IH. reflexivity.
Qed.

(** X1: [write] on a held connection whose writes succeed sends the payload
    whole and in order, cut into [ceil(L / blocksize)] non-empty pieces of
    at most [blocksize] bytes, and spends one [interval] asleep for each
    piece; the client is left as it was. *)
Theorem write_delivers_payload (data : list byte) (s : State) (h : Handle) :
  conn (cl s) = Some h ->
  writes_succeed (wd s) ->
  exists chunks s',
    write data s = (Val None, s') /\
    cl s' = cl s /\
    sent (trace (wd s')) = sent (trace (wd s)) ++ map (pair h) chunks /\
    concat chunks = data /\
    Forall (fun ch => 0 < len ch <= blocksize) chunks /\
    len chunks = (len data + blocksize - 1) / blocksize /\
    now (wd s') = now (wd s) + len chunks * interval.
Proof.
  intros Hc Hw.
  destruct (write_chunking data s h Hc Hw) as
    (chunks & s' & E & Hcl & Ht & Hn & Hcat & Hall & Hcnt).
  exists chunks, s'. split; [exact E|]. split; [exact Hcl|]. split.
  { rewrite Ht, sent_app, sent_paced. reflexivity. }
  auto.
Qed.

(** A payload of three bytes on a fresh connection. *)
Lemma write_delivers_payload_witness :
  let s := mkState (connected 1%nat) quiet_world in
  let data := [x01; x02; x03] in
  conn (cl s) = Some 1%nat /\
  writes_succeed (wd s) /\
  exists chunks s',
    write data s = (Val None, s') /\
    cl s' = cl s /\
    sent (trace (wd s')) = sent (trace (wd s)) ++ map (pair 1%nat) chunks /\
    concat chunks = data /\
    Forall (fun ch => 0 < len ch <= blocksize) chunks /\
    len chunks = (len data + blocksize - 1) / blocksize /\
    now (wd s') = now (wd s) + len chunks * interval.
Proof.
  split; [reflexivity|]. split; [constructor|].
  apply (write_delivers_payload [x01; x02; x03] (mkState (connected 1%nat) quiet_world) 1%nat).
  - reflexivity.
  - constructor.
Defined.

Lemma conn_Write_eq h chunk s :
  conn_Write h chunk s =
    (Val (fst (next None (writes (wd s)))),
     mkState (cl s)
       (set_writes (snd (next None (writes (wd s))))
          (set_trace (trace (wd s) ++ [EvWrite h chunk]) (wd s)))).
Proof.
  unfold conn_Write. rewrite bind_emit, bind_get_wd. cbn [wd].
  destruct s as [c w]. destruct w as [n t r ws cs ds rf tf fw fc si tl].
  destruct ws as [|r0 ws']; reflexivity.
Qed.

Lemma firstn_plus {A} (n m : nat) : forall l : list A,
  firstn (n + m) l = firstn n l ++ firstn m (skipn n l).
Proof.
  induction n as [|n IH]; intros l; [reflexivity|].
  destruct l as [|a l]; cbn; [now rewrite firstn_nil | now rewrite IH].
Qed.

Lemma slice_slice_app {A} (data : list A) (a b c : Z) :
  0 <= a <= b -> b <= c ->
  slice data a b ++ slice data b c = slice data a c.
Proof.
  intros Hab Hbc. unfold slice.
  replace (Z.to_nat (c - a)) with (Z.to_nat (b - a) + Z.to_nat (c - b))%nat by lia.
  rewrite firstn_plus. f_equal. rewrite skipn_skipn. f_equal. f_equal. lia.
Qed.

(** The loop of [write] when the first [k] writes succeed and the next one
    fails with [e]. *)
Lemma write_loop_fails k : forall fuel h data pos s e rest,
  0 <= pos ->
  Z.max 0 (len data - pos) < Z.of_nat fuel ->
  writes (wd s) = repeat None k ++ Some e :: rest ->
  pos + Z.of_nat k * blocksize < len data ->
  exists front lst s',
    write_loop fuel h data pos s = (Val (Some e), s') /\
    cl s' = cl s /\
    trace (wd s') = trace (wd s) ++ paced h front ++ [EvWrite h lst] /\
    length front = k /\
    concat (front ++ [lst]) =
      slice data pos (Z.min (pos + (Z.of_nat k + 1) * blocksize) (len data)) /\
    writes (wd s') = rest /\
    now (wd s') = now (wd s) + Z.of_nat k * interval.
Proof.
  pose proof blocksize_pos as HB.
  induction k as [|k IH]; intros fuel h data pos s e rest Hpos Hfuel Hws Hk;
    (destruct fuel as [|fuel]; [lia|]); cbn [write_loop].
  - assert (Hlt : (pos <? len data) = true) by (apply Z.ltb_lt; lia). rewrite Hlt.
    rewrite (bind_Val _ _ _ _ _ (conn_Write_eq h _ s)), Hws. cbn [repeat app next fst snd].
    eexists [], _, _. split; [reflexivity|]. fields.
    split; [reflexivity|]. split; [reflexivity|]. split; [reflexivity|].
    split; [|split; [reflexivity | lia]].
    cbn [app concat]. rewrite app_nil_r. f_equal.
    destruct (pos + blocksize >? len data) eqn:E;
      [apply Z.gtb_lt in E | rewrite Z.gtb_ltb in E; apply Z.ltb_ge in E]; lia.
  - assert (Hlt : (pos <? len data) = true) by (apply Z.ltb_lt; nia). rewrite Hlt.
    rewrite (bind_Val _ _ _ _ _ (conn_Write_eq h _ s)), Hws. cbn [repeat app next fst snd].
    assert (Hend : (pos + blocksize >? len data) = false).
    { rewrite Z.gtb_ltb. apply Z.ltb_ge. nia. }
    rewrite Hend.
    destruct (Sleep_eq interval
                (mkState (cl s)
                   (set_writes (repeat None k ++ Some e :: rest)
                      (set_trace (trace (wd s) ++ [EvWrite h (slice data pos (pos + blocksize))])
                         (wd s))))) as (s2 & E2 & Hc2 & Ht2 & Hn2 & Hw2).
    rewrite (bind_Val _ _ _ _ _ E2).
    destruct (IH fuel h data (pos + blocksize) s2 e rest) as
      (front & lst & s' & E & Hc & Ht & Hlen & Hcat & Hw & Hn);
      [lia | lia | rewrite Hw2; destruct s as [c w]; destruct w; reflexivity | nia |].
    exists (slice data pos (pos + blocksize) :: front), lst, s'.
    split; [exact E|]. split; [rewrite Hc, Hc2; reflexivity|].
    split.
    { rewrite Ht, Ht2. fields. destruct s as [c w]; destruct w. cbn.
      rewrite <- !app_assoc. reflexivity. }
    split; [cbn [length]; now rewrite Hlen|].
    split.
    { cbn [app concat]. rewrite Hcat.
      replace (pos + blocksize + (Z.of_nat k + 1) * blocksize)
        with (pos + (Z.of_nat (S k) + 1) * blocksize) by lia.
      apply slice_slice_app; lia. }
    split; [exact Hw|].
    rewrite Hn, Hn2. destruct s as [c w]; destruct w. cbn. lia.
Qed.

(** X2: [write] stops at the first write that fails: when the first [k] writes
    succeed and the next fails, and the payload has more than [k] pieces,
    [write] returns the error of the failing write; [k] pieces were sent,
    each followed by a sleep, then the failing piece was attempted, and
    nothing after it: no sleep, no further write. *)
Theorem write_stops_at_first_error
    (data : list byte) (s : State) (h : Handle) (k : nat) (e : error)
    (rest : list (option error)) :
  conn (cl s) = Some h ->
  writes (wd s) = repeat None k ++ Some e :: rest ->
  Z.of_nat k * blocksize < len data ->
  exists front lst s',
    write data s = (Val (Some e), s') /\
    cl s' = cl s /\
    trace (wd s') = trace (wd s) ++ paced h front ++ [EvWrite h lst] /\
    length front = k /\
    concat (front ++ [lst]) =
      firstn (Z.to_nat (Z.min ((Z.of_nat k + 1) * blocksize) (len data))) data /\
    writes (wd s') = rest /\
    now (wd s') = now (wd s) + Z.of_nat k * interval.
Proof.
  intros Hc Hws Hk. unfold write. rewrite bind_get_cl, Hc.
  destruct (write_loop_fails k (S (length data)) h data 0 s e rest) as
    (front & lst & s' & E & Hcl & Ht & Hlen & Hcat & Hw & Hn);
    [lia | unfold len; lia | exact Hws | lia |].
  exists front, lst, s'. repeat (split; [assumption|]).
  split; [|split; assumption].
  rewrite Hcat. unfold slice. cbn [Z.to_nat skipn]. f_equal. f_equal. lia.
Qed.

(** The second write of a payload of [blocksize + 1] bytes fails. *)
Lemma write_stops_at_first_error_witness :
  let e := OpError false "broken pipe" in
  let s := mkState (connected 1%nat) (set_writes [None; Some e] quiet_world) in
  let data := repeat x2a (Z.to_nat blocksize) ++ [x2a] in
  conn (cl s) = Some 1%nat /\
  writes (wd s) = repeat None 1 ++ Some e :: [] /\
  Z.of_nat 1 * blocksize < len data /\
  exists front lst s',
    write data s = (Val (Some e), s') /\
    cl s' = cl s /\
    trace (wd s') = trace (wd s) ++ paced 1%nat front ++ [EvWrite 1%nat lst] /\
    length front = 1%nat /\
    concat (front ++ [lst]) =
      firstn (Z.to_nat (Z.min ((Z.of_nat 1 + 1) * blocksize) (len data))) data /\
    writes (wd s') = [] /\
    now (wd s') = now (wd s) + Z.of_nat 1 * interval.
Proof.
  split; [reflexivity|]. split; [reflexivity|].
  assert (H : Z.of_nat 1 * blocksize < len (repeat x2a (Z.to_nat blocksize) ++ [x2a])).
  { rewrite len_app, len_repeat. cbn. lia. }
  split; [exact H|].
  apply (write_stops_at_first_error _
           (mkState (connected 1%nat)
              (set_writes [None; Some (OpError false "broken pipe")] quiet_world))
           1%nat 1%nat (OpError false "broken pipe") []);
    [reflexivity | reflexivity | exact H].
Defined.

(** ** Run: the frames that carry no request *)

Lemma flashing_delivered c c' rest w :
  otaSize c' = otaSize c -> otaLastMessage c' = otaLastMessage c ->
  flashing (mkState c' (delivered rest w)) = flashing (mkState c w).
Proof.
  intros H1 H2. unfold flashing, flashing_at. cbn [cl wd].
  now rewrite H1, H2, delivered_now.
Qed.

Lemma print_whole h w size data rest s :
  rx (wd s) = map RxByte (size ++ data) ++ rest ->
  len size = 4 ->
  be_uint size = len data ->
  print h w s =
    (Val None,
     mkState (cl s)
       (if flashing s then delivered rest (wd s)
        else set_trace (trace (wd s) ++ [EvPrint w (MsgText data)]) (delivered rest (wd s)))).
Proof.
  intros Hrx Hw Hsz. rewrite map_RxByte_app in Hrx. unfold print.
  erewrite bind_Val by (apply (binary_Read_bytes h 4 _ size); [exact Hrx | now symmetry]).
  cbv beta iota.
  erewrite bind_Val by
    (apply (ReadFull_bytes h _ data rest); [cbn [wd]; apply delivered_rx | exact Hsz]).
  cbv beta iota. fields. rewrite delivered_delivered.
  rewrite (bind_Val _ _ _ _ _ (isFlashingOTA_eq _)).
  rewrite (flashing_delivered (cl s) (cl s) rest (wd s) eq_refl eq_refl), state_eta.
  destruct (flashing s); cbn [negb].
  - reflexivity.
  - unfold Fprint. rewrite bind_emit. cbn [cl wd]. rewrite delivered_trace. reflexivity.
Qed.

(** X3: text frames.  A print-stdout or print-stderr frame that arrives
    whole is drained in full; its text is forwarded to the stream of its
    opcode, as it is, unless an OTA transfer is active, in which case
    nothing is printed.  Either way nothing is sent, the timeout counter is
    back to zero, and [Run] goes on. *)
Theorem text_frame_forwarded_unless_flashing
    (s : State) (h : Handle) (op : byte) (size data : list byte) (rest : list RxItem) :
  conn (cl s) = Some h ->
  op = cmdPrintStdout \/ op = cmdPrintStderr ->
  rx (wd s) = map RxByte (op :: size ++ data) ++ rest ->
  len size = 4 ->
  be_uint size = len data ->
  exists s',
    Run_iter s = (Val Continue, s') /\
    cl s' = set_timeouts 0 (cl s) /\
    rx (wd s') = rest /\
    trace (wd s') =
      trace (wd s) ++
      (if flashing s then []
       else [EvPrint (if Byte.eqb op cmdPrintStdout then Stdout else Stderr) (MsgText data)]).
Proof.
  intros Hc Hop Hrx Hw Hsz. cbn [map app] in Hrx.
  rewrite (Run_iter_dispatch s h op _ Hc Hrx).
  set (s0 := mkState (set_timeouts 0 (cl s)) (delivered (map RxByte (size ++ data) ++ rest) (wd s))).
  assert (Hf : flashing s0 = flashing s).
  { subst s0. rewrite (flashing_delivered (cl s)) by reflexivity. now rewrite state_eta. }
  assert (Hp : forall w, print h w s0 =
            (Val None,
             mkState (cl s0)
               (if flashing s then delivered rest (wd s0)
                else set_trace (trace (wd s0) ++ [EvPrint w (MsgText data)])
                               (delivered rest (wd s0))))).
  { intros w. rewrite <- Hf. apply (print_whole h w size data rest s0); auto. }
  destruct Hop as [-> | ->].
  - change (dispatch h cmdPrintStdout s0)
      with (bind (print h Stdout)
              (fun err => bind (handleError err)
                 (fun ok => if negb ok then ret (Return err) else ret Continue)) s0).
    rewrite (bind_Val _ _ _ _ _ (Hp Stdout)), (bind_Val _ _ _ _ _ (handleError_nil _)).
    cbn [negb]. eexists. split; [reflexivity|]. subst s0. fields.
    split; [reflexivity|].
    destruct (flashing s); fields; rewrite ?delivered_delivered, ?delivered_rx, ?delivered_trace;
      rewrite ?app_nil_r; split; reflexivity.
  - change (dispatch h cmdPrintStderr s0)
      with (bind (print h Stderr)
              (fun err => bind (handleError err)
                 (fun ok => if negb ok then ret (Return err) else ret Continue)) s0).
    rewrite (bind_Val _ _ _ _ _ (Hp Stderr)), (bind_Val _ _ _ _ _ (handleError_nil _)).
    cbn [negb]. eexists. split; [reflexivity|]. subst s0. fields.
    split; [reflexivity|].
    destruct (flashing s); fields; rewrite ?delivered_delivered, ?delivered_rx, ?delivered_trace;
      rewrite ?app_nil_r; split; reflexivity.
Qed.

(** The text [hi] for the standard output. *)
Lemma text_frame_forwarded_unless_flashing_witness :
  let s := mkState (connected 1%nat)
             (world_receiving [cmdPrintStdout; x00; x00; x00; x02; x68; x69]) in
  conn (cl s) = Some 1%nat /\
  (cmdPrintStdout = cmdPrintStdout \/ cmdPrintStdout = cmdPrintStderr) /\
  rx (wd s) = map RxByte (cmdPrintStdout :: [x00; x00; x00; x02] ++ [x68; x69]) ++ [] /\
  len [x00; x00; x00; x02] = 4 /\
  be_uint [x00; x00; x00; x02] = len [x68; x69] /\
  exists s',
    Run_iter s = (Val Continue, s') /\
    cl s' = set_timeouts 0 (cl s) /\
    rx (wd s') = [] /\
    trace (wd s') = trace (wd s) ++ [EvPrint Stdout (MsgText [x68; x69])].
Proof.
  repeat (split; [first [reflexivity | now left]|]).
  apply (text_frame_forwarded_unless_flashing
           (mkState (connected 1%nat)
              (world_receiving [cmdPrintStdout; x00; x00; x00; x02; x68; x69]))
           1%nat cmdPrintStdout [x00; x00; x00; x02] [x68; x69] []);
    first [reflexivity | now left].
Defined.

(** X4: the end of a transfer.  An OTA-success or OTA-failed frame while a
    transfer is active prints its message and sets [otaSize] to zero, after
    which the transfer is inactive at every time; while no transfer is
    active the frame is ignored.  Nothing is sent either way. *)
Theorem OTA_end_frame_ends_transfer (s : State) (h : Handle) (op : byte) (rest : list RxItem) :
  conn (cl s) = Some h ->
  op = cmdOTASuccess \/ op = cmdOTAFailed ->
  rx (wd s) = RxByte op :: rest ->
  exists s',
    Run_iter s = (Val Continue, s') /\
    rx (wd s') = rest /\
    if flashing s then
      cl s' = set_otaSize 0 (set_timeouts 0 (cl s)) /\
      trace (wd s') =
        trace (wd s) ++
        [EvPrint Stdout (if Byte.eqb op cmdOTASuccess then MsgOTAFinished else MsgOTAFailed)] /\
      forall t, flashing_at (cl s') t = false
    else
      cl s' = set_timeouts 0 (cl s) /\ trace (wd s') = trace (wd s).
Proof.
  intros Hc Hop Hrx.
  rewrite (Run_iter_dispatch s h op _ Hc Hrx).
  set (s0 := mkState (set_timeouts 0 (cl s)) (delivered rest (wd s))).
  assert (Hf : flashing s0 = flashing s).
  { subst s0. rewrite (flashing_delivered (cl s)) by reflexivity. now rewrite state_eta. }
  assert (E : dispatch h op s0 =
              case_OTAEnd (if Byte.eqb op cmdOTASuccess then MsgOTAFinished else MsgOTAFailed) s0)
    by (destruct Hop as [-> | ->]; reflexivity).
  rewrite E. unfold case_OTAEnd.
  rewrite (bind_Val _ _ _ _ _ (isFlashingOTA_eq s0)), Hf.
  destruct (flashing s); cbn [negb].
  - unfold Fprint. rewrite bind_emit, bind_modify_cl.
    eexists. split; [reflexivity|]. subst s0. fields.
    rewrite delivered_rx, delivered_trace. repeat split.
  - eexists. split; [reflexivity|]. subst s0. fields.
    rewrite delivered_rx, delivered_trace. repeat split.
Qed.

(** The device reports success while a transfer of 100 bytes is active. *)
Lemma OTA_end_frame_ends_transfer_witness :
  let s := mkState (set_otaSize 100 (connected 1%nat)) (world_receiving [cmdOTASuccess]) in
  conn (cl s) = Some 1%nat /\
  (cmdOTASuccess = cmdOTASuccess \/ cmdOTASuccess = cmdOTAFailed) /\
  rx (wd s) = RxByte cmdOTASuccess :: [] /\
  exists s',
    Run_iter s = (Val Continue, s') /\
    rx (wd s') = [] /\
    cl s' = set_otaSize 0 (set_timeouts 0 (cl s)) /\
    trace (wd s') = trace (wd s) ++ [EvPrint Stdout MsgOTAFinished] /\
    forall t, flashing_at (cl s') t = false.
Proof.
  repeat (split; [first [reflexivity | now left]|]).
  apply (OTA_end_frame_ends_transfer
           (mkState (set_otaSize 100 (connected 1%nat)) (world_receiving [cmdOTASuccess]))
           1%nat cmdOTASuccess []);
    first [reflexivity | now left].
Defined.

Lemma be_fold_nonneg bs : forall acc,
  0 <= acc -> 0 <= fold_left (fun acc b => acc * 256 + byte_to_Z b) bs acc.
Proof.
  induction bs as [|b bs IH]; intros acc Hacc; cbn [fold_left]; [exact Hacc|].
  apply IH. unfold byte_to_Z. lia.
Qed.

Lemma be_uint_nonneg bs : 0 <= be_uint bs.
Proof. apply be_fold_nonneg. lia. Qed.

(** X5: progress.  An OTA-progress frame that arrives whole while a
    transfer is active prints the offset, the size and the percentage
    [offset*100/otaSize], which is never negative and at most 100 when the
    offset does not exceed the size; and it restarts the watchdog: the
    transfer stays active for five seconds from the arrival of the frame. *)
Theorem OTA_progress_restarts_watchdog
    (s : State) (h : Handle) (off : list byte) (rest : list RxItem) :
  conn (cl s) = Some h ->
  flashing s = true ->
  rx (wd s) = map RxByte (cmdOTAProgress :: off) ++ rest ->
  len off = 4 ->
  let pct := Z.quot (be_uint off * 100) (otaSize (cl s)) in
  exists s',
    Run_iter s = (Val Continue, s') /\
    rx (wd s') = rest /\
    trace (wd s') =
      trace (wd s) ++ [EvPrint Stdout (MsgOTAProgress (be_uint off) (otaSize (cl s)) pct)] /\
    cl s' = set_otaLastMessage (now (wd s)) (set_timeouts 0 (cl s)) /\
    (forall t, now (wd s) <= t < now (wd s) + otaTimeout -> flashing_at (cl s') t = true) /\
    0 <= pct /\
    (be_uint off <= otaSize (cl s) -> pct <= 100).
Proof.
  intros Hc Hfl Hrx Hlen pct. cbn [map app] in Hrx.
  assert (Hpos : 0 < otaSize (cl s)) by (apply flashing_at_iff in Hfl; tauto).
  rewrite (Run_iter_dispatch s h cmdOTAProgress _ Hc Hrx).
  set (s0 := mkState (set_timeouts 0 (cl s)) (delivered (map RxByte off ++ rest) (wd s))).
  assert (Hf : flashing s0 = true).
  { subst s0. rewrite (flashing_delivered (cl s)) by reflexivity. now rewrite state_eta. }
  change (dispatch h cmdOTAProgress s0) with (case_OTAProgress h s0).
  unfold case_OTAProgress.
  rewrite (bind_Val _ _ _ _ _ (isFlashingOTA_eq s0)), Hf. cbn [negb].
  erewrite bind_Val by
    (apply (binary_Read_bytes h 4 _ off rest); [subst s0; cbn [wd]; apply delivered_rx | now symmetry]).
  cbv beta iota. rewrite (bind_Val _ _ _ _ _ (handleError_nil _)). cbn [negb].
  rewrite bind_get_cl. subst s0. fields. unfold int_div.
  destruct (otaSize (cl s) =? 0) eqn:E0; [apply Z.eqb_eq in E0; lia|].
  rewrite bind_ret. unfold Fprint. rewrite bind_emit, bind_Now, bind_modify_cl.
  eexists. split; [reflexivity|]. fields.
  rewrite !delivered_delivered, delivered_rx, delivered_trace, delivered_now.
  split; [reflexivity|]. split; [reflexivity|]. split; [reflexivity|].
  pose proof (be_uint_nonneg off) as Hoff.
  split; [|split].
  - intros t Ht. apply flashing_at_iff. fields. lia.
  - apply Z.quot_pos; lia.
  - intros Hle. subst pct. rewrite Z.quot_div_nonneg by lia.
    apply Z.div_le_upper_bound; nia.
Qed.

(** Half of a transfer of 100 bytes. *)
Lemma OTA_progress_restarts_watchdog_witness :
  let s := mkState (set_otaSize 100 (connected 1%nat))
                   (world_receiving [cmdOTAProgress; x00; x00; x00; x32]) in
  conn (cl s) = Some 1%nat /\
  flashing s = true /\
  rx (wd s) = map RxByte (cmdOTAProgress :: [x00; x00; x00; x32]) ++ [] /\
  len [x00; x00; x00; x32] = 4 /\
  exists s',
    Run_iter s = (Val Continue, s') /\
    rx (wd s') = [] /\
    trace (wd s') = trace (wd s) ++ [EvPrint Stdout (MsgOTAProgress 50 100 50)] /\
    cl s' = set_otaLastMessage (now (wd s)) (set_timeouts 0 (cl s)) /\
    (forall t, now (wd s) <= t < now (wd s) + otaTimeout -> flashing_at (cl s') t = true) /\
    0 <= 50 /\
    (50 <= 100 -> 50 <= 100).
Proof.
  repeat (split; [reflexivity|]).
  apply (OTA_progress_restarts_watchdog
           (mkState (set_otaSize 100 (connected 1%nat))
                    (world_receiving [cmdOTAProgress; x00; x00; x00; x32]))
           1%nat [x00; x00; x00; x32] []); reflexivity.
Defined.

(** X6: opcodes without a case.  A byte that is none of the ten opcodes
    with a case of their own is reported on the standard error and changes
    nothing else: nothing is sent, nothing more is read, and [Run] goes
    on. *)
Theorem unknown_opcode_reported (s : State) (h : Handle) (op : byte) (rest : list RxItem) :
  conn (cl s) = Some h ->
  rx (wd s) = RxByte op :: rest ->
  ~ In op handled_opcodes ->
  Run_iter s =
    (Val Continue,
     mkState (set_timeouts 0 (cl s))
       (set_trace (trace (wd s) ++ [EvPrint Stderr (MsgUnknownCommand op)])
          (delivered rest (wd s)))).
Proof.
  intros Hc Hrx Hno.
  rewrite (Run_iter_dispatch s h op _ Hc Hrx). unfold dispatch.
  repeat match goal with
         | |- context [Byte.eqb op ?c] =>
             let E := fresh "E" in
             destruct (Byte.eqb op c) eqn:E;
             [apply Byte.byte_dec_bl in E; subst op; exfalso; apply Hno; cbn; tauto|];
             cbv beta iota
         end.
  unfold Fprint. rewrite bind_emit. unfold ret. fields. now rewrite delivered_trace.
Qed.

(** The device sends the opcode of ping, which only the host sends. *)
Lemma unknown_opcode_reported_witness :
  let s := mkState (connected 1%nat) (world_receiving [cmdPing]) in
  conn (cl s) = Some 1%nat /\
  rx (wd s) = RxByte cmdPing :: [] /\
  ~ In cmdPing handled_opcodes /\
  Run_iter s =
    (Val Continue,
     mkState (set_timeouts 0 (cl s))
       (set_trace (trace (wd s) ++ [EvPrint Stderr (MsgUnknownCommand cmdPing)])
          (delivered [] (wd s)))).
Proof.
  assert (H : ~ In cmdPing handled_opcodes).
  { cbn. intros H. repeat (destruct H as [H|H]; [discriminate H|]). exact H. }
  split; [reflexivity|]. split; [reflexivity|]. split; [exact H|].
  apply (unknown_opcode_reported (mkState (connected 1%nat) (world_receiving [cmdPing]))
           1%nat cmdPing []); [reflexivity | reflexivity | exact H].
Defined.

(** ** GetConfig, SetConfig and Flash: what they send and what comes back *)

Lemma invoked_app tr tr' : invoked (tr ++ tr') = invoked tr ++ invoked tr'.
Proof. apply flat_map_app. Qed.

Lemma writeByte_world_invoked h b w :
  invoked (trace (writeByte_world h b w)) = invoked (trace w).
Proof.
  destruct (writeByte_world_trace h b w) as (evs & -> & _ & [-> | ->]);
    rewrite invoked_app; cbn; now rewrite app_nil_r.
Qed.

Lemma sent_EvOnConfig f cfg : sent [EvOnConfig f cfg] = [].
Proof. reflexivity. Qed.

Lemma GetConfig_held f s h :
  conn (cl s) = Some h ->
  GetConfig f s =
    (Val (writeByte_result (wd s)),
     mkState (set_onConfig (Some f) (cl s)) (writeByte_world h cmdGetConfig (wd s))).
Proof.
  intros Hc. unfold GetConfig. rewrite bind_modify_cl.
  erewrite writeByte_held by exact Hc. reflexivity.
Qed.

(** X7: one pending request.  [GetConfig] sends a get-config opcode each
    time it is called and keeps the callback of the last call only: after
    two requests, the config response that arrives calls the second
    callback, once, with the configuration read, the first callback is
    never called, and no callback is pending afterwards. *)
Theorem GetConfig_last_callback_wins
    (s : State) (h : Handle) (f g : Callback) (hi lo : byte) (payload : list byte)
    (rest : list RxItem) :
  conn (cl s) = Some h ->
  rx (wd s) = map RxByte (cmdConfig :: hi :: lo :: payload) ++ rest ->
  (if be_uint [hi; lo] >? 0 then len payload = 99 else payload = []) ->
  exists s',
    (_ <- GetConfig f ;; _ <- GetConfig g ;; Run_iter)%monad s = (Val Continue, s') /\
    sent (trace (wd s')) =
      sent (trace (wd s)) ++ [(h, [cmdGetConfig]); (h, [cmdGetConfig])] /\
    invoked (trace (wd s')) =
      invoked (trace (wd s)) ++
      [(g, if be_uint [hi; lo] >? 0 then config_of_payload payload else HostConfig_zero)] /\
    onConfig (cl s') = None.
Proof.
  intros Hc Hrx Hlen.
  erewrite bind_Val by (apply (GetConfig_held f s h Hc)).
  erewrite bind_Val by (apply (GetConfig_held g _ h); exact Hc).
  fields.
  set (w2 := writeByte_world h cmdGetConfig (writeByte_world h cmdGetConfig (wd s))).
  assert (Hrx2 : rx w2 = RxByte cmdConfig :: (map RxByte ([hi; lo] ++ payload) ++ rest)).
  { subst w2. rewrite !writeByte_world_rx. exact Hrx. }
  erewrite Run_iter_dispatch by (first [exact Hc | exact Hrx2]).
  change (dispatch h cmdConfig) with (case_Config h).
  rewrite (case_Config_whole h _ hi lo payload rest);
    [| cbn [wd]; apply delivered_rx | exact Hlen].
  fields. eexists. split; [reflexivity|]. fields.
  rewrite !delivered_trace.
  split.
  { rewrite sent_app, sent_EvOnConfig, app_nil_r. subst w2.
    rewrite !writeByte_world_sent, <- app_assoc. reflexivity. }
  split; [|reflexivity].
  rewrite invoked_app. subst w2. rewrite !writeByte_world_invoked. reflexivity.
Qed.

(** Two requests, then a config response of length zero. *)
Lemma GetConfig_last_callback_wins_witness :
  let s := mkState (connected 1%nat) (world_receiving [cmdConfig; x00; x00]) in
  conn (cl s) = Some 1%nat /\
  rx (wd s) = map RxByte (cmdConfig :: x00 :: x00 :: []) ++ [] /\
  (if be_uint [x00; x00] >? 0 then len (@nil byte) = 99 else @nil byte = []) /\
  exists s',
    (_ <- GetConfig 7%nat ;; _ <- GetConfig 8%nat ;; Run_iter)%monad s = (Val Continue, s') /\
    sent (trace (wd s')) =
      sent (trace (wd s)) ++ [(1%nat, [cmdGetConfig]); (1%nat, [cmdGetConfig])] /\
    invoked (trace (wd s')) = invoked (trace (wd s)) ++ [(8%nat, HostConfig_zero)] /\
    onConfig (cl s') = None.
Proof.
  repeat (split; [reflexivity|]).
  apply (GetConfig_last_callback_wins
           (mkState (connected 1%nat) (world_receiving [cmdConfig; x00; x00]))
           1%nat 7%nat 8%nat x00 x00 [] []); reflexivity.
Defined.

Lemma write_single_chunk data s h :
  conn (cl s) = Some h ->
  writes_succeed (wd s) ->
  0 < len data <= blocksize ->
  exists s',
    write data s = (Val None, s') /\
    cl s' = cl s /\
    trace (wd s') = trace (wd s) ++ [EvWrite h data; EvSleep interval].
Proof.
  intros Hc Hw Hlen.
  destruct (write_chunking data s h Hc Hw) as
    (chunks & s' & E & Hcl & Ht & _ & Hcat & _ & Hcnt).
  exists s'. split; [exact E|]. split; [exact Hcl|].
  pose proof blocksize_pos.
  replace (len data + blocksize - 1) with ((len data - 1) + 1 * blocksize) in Hcnt by lia.
  rewrite Z.div_add, Z.div_small in Hcnt by lia.
  destruct chunks as [|ch [|ch' chunks]];
    [discriminate Hcnt | | rewrite !len_cons in Hcnt; pose proof (len_nonneg chunks); lia].
  cbn in Hcat. rewrite app_nil_r in Hcat. subst ch. exact Ht.
Qed.

(** X8: one frame.  For an SSID of at most 33 bytes and a password of at
    most 64, [SetConfig] on a held connection whose writes succeed sends
    one message of 102 bytes: the opcode, the length 99 on two bytes
    big-endian, and the 99 bytes of the record. *)
Theorem SetConfig_sends_one_frame (cfg : HostConfig) (s : State) (h : Handle) :
  conn (cl s) = Some h ->
  writes_succeed (wd s) ->
  len (list_byte_of_string (WifiSSID cfg)) <= hostConfigSSIDLen ->
  len (list_byte_of_string (WifiPassword cfg)) <= hostConfigPasswordLen ->
  exists s',
    SetConfig cfg s = (Val None, s') /\
    cl s' = cl s /\
    sent (trace (wd s')) = sent (trace (wd s)) ++ [(h, SetConfig_bytes cfg)] /\
    len (SetConfig_bytes cfg) = 102 /\
    firstn 3 (SetConfig_bytes cfg) = [cmdSetConfig; x00; x63] /\
    be_uint [x00; x63] = len (SetConfig_payload cfg).
Proof.
  intros Hc Hw Hs Hp.
  assert (Hl : len (SetConfig_payload cfg) = 99).
  { rewrite len_SetConfig_payload.
    unfold hostConfigSSIDLen, hostConfigPasswordLen in *. lia. }
  assert (Hl' : len (SetConfig_bytes cfg) = 102).
  { rewrite SetConfig_bytes_eq, len_app. unfold SetConfig_payload in Hl.
    rewrite SetConfig_bytes_eq in Hl. cbn [skipn app] in Hl.
    change (len [cmdSetConfig; x00; x63]) with 3.
    change ([hostConfigVersion] ++ ?x) with (hostConfigVersion :: x). lia. }
  destruct (write_single_chunk (SetConfig_bytes cfg) s h Hc Hw) as (s' & E & Hcl & Ht).
  { rewrite Hl'. unfold blocksize. lia. }
  exists s'. split; [exact E|]. split; [exact Hcl|].
  split; [rewrite Ht, sent_app; cbn; reflexivity|].
  split; [exact Hl'|]. split; [reflexivity|]. rewrite Hl. reflexivity.
Qed.

(** The network [home] with the password [secret]. *)
Lemma SetConfig_sends_one_frame_witness :
  let cfg := mkHostConfig x01 "home" "secret" WifiModeSTA in
  let s := mkState (connected 1%nat) quiet_world in
  conn (cl s) = Some 1%nat /\
  writes_succeed (wd s) /\
  len (list_byte_of_string (WifiSSID cfg)) <= hostConfigSSIDLen /\
  len (list_byte_of_string (WifiPassword cfg)) <= hostConfigPasswordLen /\
  exists s',
    SetConfig cfg s = (Val None, s') /\
    cl s' = cl s /\
    sent (trace (wd s')) = sent (trace (wd s)) ++ [(1%nat, SetConfig_bytes cfg)] /\
    len (SetConfig_bytes cfg) = 102 /\
    firstn 3 (SetConfig_bytes cfg) = [cmdSetConfig; x00; x63] /\
    be_uint [x00; x63] = len (SetConfig_payload cfg).
Proof.
  split; [reflexivity|]. split; [constructor|].
  split; [vm_compute; discriminate|]. split; [vm_compute; discriminate|].
  apply (SetConfig_sends_one_frame (mkHostConfig x01 "home" "secret" WifiModeSTA)
           (mkState (connected 1%nat) quiet_world) 1%nat).
  - reflexivity.
  - constructor.
  - vm_compute; discriminate.
  - vm_compute; discriminate.
Defined.

Lemma trimLeftByte_absent s c : ~ In c s -> trimLeftByte s c = s.
Proof.
  destruct s as [|b s]; [reflexivity|]. intros H. cbn [trimLeftByte].
  destruct (Byte.eqb b c) eqn:E; [|reflexivity].
  apply Byte.byte_dec_bl in E. subst. exfalso. apply H. now left.
Qed.

Lemma bytes_Trim_absent s c : ~ In c s -> bytes_Trim s c = s.
Proof.
  intros H. unfold bytes_Trim, trimRightByte.
  rewrite (trimLeftByte_absent (rev s)) by (now rewrite <- in_rev).
  rewrite rev_involutive. now apply trimLeftByte_absent.
Qed.

Lemma trim_nul_absent s : ~ In x00 (list_byte_of_string s) -> trim_nul s = s.
Proof.
  intros H. unfold trim_nul. rewrite bytes_Trim_absent by exact H.
  apply string_of_list_byte_of_string.
Qed.

(** X9: the record comes back.  What [SetConfig] puts after its opcode,
    received as a config response, is read back as the configuration sent:
    the same mode, the SSID and the password with the NUL bytes at their
    ends trimmed (so unchanged when they hold no NUL byte), and as version
    the version of the layout, whatever the field [Version] held.  This
    for an SSID of at most 33 bytes and a password of at most 64. *)
Theorem SetConfig_read_back
    (cfg : HostConfig) (s : State) (h : Handle) (f : Callback) (rest : list RxItem) :
  len (list_byte_of_string (WifiSSID cfg)) <= hostConfigSSIDLen ->
  len (list_byte_of_string (WifiPassword cfg)) <= hostConfigPasswordLen ->
  conn (cl s) = Some h ->
  onConfig (cl s) = Some f ->
  rx (wd s) = map RxByte (cmdConfig :: skipn 1 (SetConfig_bytes cfg)) ++ rest ->
  exists s',
    Run_iter s = (Val Continue, s') /\
    rx (wd s') = rest /\
    trace (wd s') =
      trace (wd s) ++
      [EvOnConfig f (mkHostConfig hostConfigVersion (trim_nul (WifiSSID cfg))
                                  (trim_nul (WifiPassword cfg)) (WifiMode cfg))] /\
    (~ In x00 (list_byte_of_string (WifiSSID cfg)) -> trim_nul (WifiSSID cfg) = WifiSSID cfg) /\
    (~ In x00 (list_byte_of_string (WifiPassword cfg)) ->
     trim_nul (WifiPassword cfg) = WifiPassword cfg).
Proof.
  intros Hs Hp Hc Hf Hrx. cbn [map app] in Hrx.
  rewrite (Run_iter_dispatch s h cmdConfig _ Hc Hrx).
  change (dispatch h cmdConfig) with (case_Config h).
  destruct (SetConfig_round_trip cfg h f
              (mkState (set_timeouts 0 (cl s))
                 (delivered (map RxByte (skipn 1 (SetConfig_bytes cfg)) ++ rest) (wd s)))
              rest Hs Hp Hf) as [_ E].
  { cbn [wd]. apply delivered_rx. }
  rewrite E. eexists. split; [reflexivity|]. fields.
  rewrite delivered_delivered, delivered_rx, !delivered_trace.
  split; [reflexivity|]. split; [reflexivity|].
  split; apply trim_nul_absent.
Qed.

(** The network [home] with the password [secret], in station mode. *)
Lemma SetConfig_read_back_witness :
  let cfg := mkHostConfig x00 "home" "secret" WifiModeSTA in
  let s := mkState (set_onConfig (Some 7%nat) (connected 1%nat))
                   (world_receiving (cmdConfig :: skipn 1 (SetConfig_bytes cfg))) in
  len (list_byte_of_string (WifiSSID cfg)) <= hostConfigSSIDLen /\
  len (list_byte_of_string (WifiPassword cfg)) <= hostConfigPasswordLen /\
  conn (cl s) = Some 1%nat /\
  onConfig (cl s) = Some 7%nat /\
  rx (wd s) = map RxByte (cmdConfig :: skipn 1 (SetConfig_bytes cfg)) ++ [] /\
  exists s',
    Run_iter s = (Val Continue, s') /\
    rx (wd s') = [] /\
    trace (wd s') =
      trace (wd s) ++
      [EvOnConfig 7%nat (mkHostConfig hostConfigVersion (trim_nul (WifiSSID cfg))
                                      (trim_nul (WifiPassword cfg)) (WifiMode cfg))] /\
    (~ In x00 (list_byte_of_string (WifiSSID cfg)) -> trim_nul (WifiSSID cfg) = WifiSSID cfg) /\
    (~ In x00 (list_byte_of_string (WifiPassword cfg)) ->
     trim_nul (WifiPassword cfg) = WifiPassword cfg).
Proof.
  split; [vm_compute; discriminate|]. split; [vm_compute; discriminate|].
  split; [reflexivity|]. split; [reflexivity|].
  split; [cbn [wd world_receiving]; rewrite app_nil_r; reflexivity|].
  apply (SetConfig_read_back (mkHostConfig x00 "home" "secret" WifiModeSTA)
           (mkState (set_onConfig (Some 7%nat) (connected 1%nat))
              (world_receiving
                 (cmdConfig :: skipn 1 (SetConfig_bytes
                                          (mkHostConfig x00 "home" "secret" WifiModeSTA)))))
           1%nat 7%nat []).
  - vm_compute; discriminate.
  - vm_compute; discriminate.
  - reflexivity.
  - reflexivity.
  - cbn [wd world_receiving]. rewrite app_nil_r. reflexivity.
Defined.

(** ** The length fields *)

Lemma byte_to_of_Z v : byte_to_Z (byte_of_Z v) = v mod 256.
Proof.
  unfold byte_to_Z, byte_of_Z.
  pose proof (Z.mod_pos_bound v 256 eq_refl) as Hb.
  destruct (Byte.of_N (Z.to_N (v mod 256))) as [b|] eqn:E.
  - apply Byte.to_of_N in E. rewrite E. lia.
  - apply Byte.of_N_None_iff in E. lia.
Qed.

Lemma be_uint_put_uint32 v : 0 <= v -> be_uint (put_uint32 v) = v mod 2 ^ 32.
Proof.
  intros Hv. unfold be_uint, put_uint32. cbn [fold_left].
  rewrite !byte_to_of_Z, !Z.shiftr_div_pow2 by lia.
  change (2 ^ 24) with 16777216. change (2 ^ 16) with 65536.
  change (2 ^ 8) with 256. change (2 ^ 32) with 4294967296.
  Z.div_mod_to_equations. lia.
Qed.

Lemma be_uint_put_uint16 v : 0 <= v -> be_uint (put_uint16 v) = v mod 2 ^ 16.
Proof.
  intros Hv. unfold be_uint, put_uint16. cbn [fold_left].
  rewrite !byte_to_of_Z, !Z.shiftr_div_pow2 by lia.
  change (2 ^ 8) with 256. change (2 ^ 16) with 65536.
  Z.div_mod_to_equations. lia.
Qed.

(** X10: the frame of an image.  [Flash] of a readable image on a held
    connection whose writes succeed marks the transfer as started and sends,
    in pieces, exactly the opcode, four bytes, and the image; read
    big-endian the four bytes are the length of the image modulo [2^32],
    so the length itself for an image below 4 GiB. *)
Theorem Flash_sends_framed_image (bin : string) (data : list byte) (s : State) (h : Handle) :
  readfile (wd s) bin = inl data ->
  conn (cl s) = Some h ->
  writes_succeed (wd s) ->
  exists hdr chunks s',
    Flash bin s = (Val None, s') /\
    sent (trace (wd s')) = sent (trace (wd s)) ++ map (pair h) chunks /\
    concat chunks = cmdOTA :: hdr ++ data /\
    len hdr = 4 /\
    be_uint hdr = len data mod 2 ^ 32 /\
    (len data < 2 ^ 32 -> be_uint hdr = len data) /\
    otaSize (cl s') = len data /\
    otaLastMessage (cl s') = now (wd s).
Proof.
  intros Hf Hc Hw. unfold Flash. rewrite bind_get_wd, Hf.
  rewrite bind_modify_cl, bind_Now, bind_modify_cl. fields.
  set (s1 := mkState _ _).
  destruct (write_chunking (Flash_bytes data) s1 h) as
    (chunks & s' & E & Hcl & Ht & _ & Hcat & _ & _); [exact Hc | exact Hw |].
  exists (put_uint32 (len data mod 2 ^ 32)), chunks, s'.
  split; [exact E|].
  split; [rewrite Ht, sent_app, sent_paced; reflexivity|].
  split; [exact Hcat|]. split; [reflexivity|].
  pose proof (len_nonneg data) as Hl.
  assert (Hm : be_uint (put_uint32 (len data mod 2 ^ 32)) = len data mod 2 ^ 32).
  { rewrite be_uint_put_uint32 by (apply Z.mod_pos_bound; lia).
    apply Z.mod_mod. lia. }
  split; [exact Hm|].
  split; [intros Hlt; rewrite Hm; apply Z.mod_small; lia|].
  rewrite Hcl. split; reflexivity.
Qed.

(** An image of four bytes. *)
Lemma Flash_sends_framed_image_witness :
  let data := [x01; x02; x03; x04] in
  let s := mkState (connected 1%nat) (world_with_image data) in
  readfile (wd s) "app.bin" = inl data /\
  conn (cl s) = Some 1%nat /\
  writes_succeed (wd s) /\
  exists hdr chunks s',
    Flash "app.bin" s = (Val None, s') /\
    sent (trace (wd s')) = sent (trace (wd s)) ++ map (pair 1%nat) chunks /\
    concat chunks = cmdOTA :: hdr ++ data /\
    len hdr = 4 /\
    be_uint hdr = len data mod 2 ^ 32 /\
    (len data < 2 ^ 32 -> be_uint hdr = len data) /\
    otaSize (cl s') = len data /\
    otaLastMessage (cl s') = now (wd s).
Proof.
  split; [reflexivity|]. split; [reflexivity|]. split; [constructor|].
  apply (Flash_sends_framed_image "app.bin" [x01; x02; x03; x04]
           (mkState (connected 1%nat) (world_with_image [x01; x02; x03; x04])) 1%nat).
  - reflexivity.
  - reflexivity.
  - constructor.
Defined.

(** ** Run: timeouts, keepalive and the end of the loop *)

Lemma ReadFull_error h n e rest s :
  rx (wd s) = RxErr e :: rest ->
  0 < n ->
  ReadFull h n s = (Val ([], Some e), mkState (cl s) (delivered rest (wd s))).
Proof.
  intros Hrx Hn. unfold ReadFull. rewrite bind_get_wd, Hrx.
  destruct (Z.to_nat n) as [|n'] eqn:E; [lia|]. cbn [take_rx].
  rewrite bind_modify_wd. fields. rewrite world_now_0. reflexivity.
Qed.

Lemma Run_iter_read_error s h e rest :
  conn (cl s) = Some h ->
  rx (wd s) = RxErr e :: rest ->
  Run_iter s =
    bind (handleError (Some e))
         (fun ok => if ok then ret Continue else ret (Return (Some e)))
         (mkState (cl s) (delivered rest (wd s))).
Proof.
  intros Hc Hrx. unfold Run_iter. rewrite bind_get_cl, Hc. unfold conn_Read1.
  rewrite (bind_Val _ _ _ _ _ (ReadFull_error h 1 e rest s Hrx eq_refl)).
  cbv beta iota. rewrite bind_get_cl. fields. rewrite Hc. reflexivity.
Qed.

Lemma flashing_at_expired c t t' :
  flashing_at c t = false -> t <= t' -> flashing_at c t' = false.
Proof.
  unfold flashing_at. intros H Ht.
  apply andb_false_iff in H. apply andb_false_iff.
  destruct H as [H|H]; [now left|right].
  apply Z.ltb_ge in H. apply Z.ltb_ge. lia.
Qed.

(** X11: a hard error ends the session.  A read error on the opcode that is
    not a timeout makes [Run] return that error at once: nothing is sent,
    the client is left as it was, whether or not a transfer is active. *)
Theorem Run_returns_hard_error
    (s : State) (h : Handle) (e : error) (rest : list RxItem) (fuel : nat) :
  conn (cl s) = Some h ->
  rx (wd s) = RxErr e :: rest ->
  is_timeout e = false ->
  Run (S fuel) s = (Val (Some e), mkState (cl s) (delivered rest (wd s))).
Proof.
  intros Hc Hrx He. cbn [Run].
  assert (E : Run_iter s = (Val (Return (Some e)), mkState (cl s) (delivered rest (wd s)))).
  { rewrite (Run_iter_read_error s h e rest Hc Hrx).
    erewrite bind_Val by (apply handleError_surfaces; rewrite He; reflexivity).
    reflexivity. }
  rewrite (bind_Val _ _ _ _ _ E). reflexivity.
Qed.

(** The peer resets the connection. *)
Lemma Run_returns_hard_error_witness :
  let e := OpError false "connection reset by peer" in
  let s := mkState (connected 1%nat) (set_rx [RxErr e] quiet_world) in
  conn (cl s) = Some 1%nat /\
  rx (wd s) = RxErr e :: [] /\
  is_timeout e = false /\
  Run 1 s = (Val (Some e), mkState (cl s) (delivered [] (wd s))).
Proof.
  repeat (split; [reflexivity|]).
  apply (Run_returns_hard_error
           (mkState (connected 1%nat)
              (set_rx [RxErr (OpError false "connection reset by peer")] quiet_world))
           1%nat (OpError false "connection reset by peer") [] 0); reflexivity.
Defined.

(** One timeout is suppressed and answered with a ping; the state after
    it. *)
Lemma Run_iter_first_timeout s h e rest :
  conn (cl s) = Some h ->
  timeouts (cl s) = 0 ->
  flashing s = false ->
  rx (wd s) = RxErr e :: rest ->
  is_timeout e = true ->
  Run_iter s =
    (Val Continue,
     mkState (set_timeouts 1 (cl s))
             (writeByte_world h cmdPing (delivered rest (wd s)))).
Proof.
  intros Hc Ht Hf Hrx He.
  rewrite (Run_iter_read_error s h e rest Hc Hrx).
  erewrite bind_Val by
    (apply (handleError_keepalive e _ h He); [exact Ht | | exact Hc];
     rewrite <- Hf; unfold flashing; cbn [cl wd]; now rewrite delivered_now).
  reflexivity.
Qed.

(** X12: two timeouts in a row.  On an idle connection (counter at zero, no
    transfer active) [Run] answers a first timeout with one ping and goes
    on; a second timeout right after it makes [Run] return that timeout.
    Exactly one ping has been sent. *)
Theorem Run_gives_up_at_second_timeout
    (s : State) (h : Handle) (e1 e2 : error) (rest : list RxItem) (fuel : nat) :
  conn (cl s) = Some h ->
  timeouts (cl s) = 0 ->
  flashing s = false ->
  rx (wd s) = RxErr e1 :: RxErr e2 :: rest ->
  is_timeout e1 = true ->
  is_timeout e2 = true ->
  exists s',
    Run (S (S fuel)) s = (Val (Some e2), s') /\
    sent (trace (wd s')) = sent (trace (wd s)) ++ [(h, [cmdPing])] /\
    rx (wd s') = rest /\
    cl s' = set_timeouts 1 (cl s).
Proof.
  intros Hc Ht Hf Hrx He1 He2. cbn [Run].
  rewrite (bind_Val _ _ _ _ _ (Run_iter_first_timeout s h e1 _ Hc Ht Hf Hrx He1)).
  cbv beta iota.
  erewrite bind_Val.
  2:{ erewrite Run_iter_read_error;
        [| exact Hc | cbn [wd]; rewrite writeByte_world_rx; apply delivered_rx].
      erewrite bind_Val by (apply handleError_surfaces; rewrite He2; reflexivity).
      reflexivity. }
  cbv beta iota. eexists. split; [reflexivity|]. fields.
  rewrite delivered_rx, delivered_trace.
  rewrite writeByte_world_sent, delivered_trace. repeat split.
Qed.

(** A device that has gone silent. *)
Lemma Run_gives_up_at_second_timeout_witness :
  let s := mkState (connected 1%nat) (set_rx [RxErr io_timeout; RxErr io_timeout] quiet_world) in
  conn (cl s) = Some 1%nat /\
  timeouts (cl s) = 0 /\
  flashing s = false /\
  rx (wd s) = RxErr io_timeout :: RxErr io_timeout :: [] /\
  is_timeout io_timeout = true /\
  is_timeout io_timeout = true /\
  exists s',
    Run 2 s = (Val (Some io_timeout), s') /\
    sent (trace (wd s')) = sent (trace (wd s)) ++ [(1%nat, [cmdPing])] /\
    rx (wd s') = [] /\
    cl s' = set_timeouts 1 (cl s).
Proof.
  repeat (split; [reflexivity|]).
  apply (Run_gives_up_at_second_timeout
           (mkState (connected 1%nat)
              (set_rx [RxErr io_timeout; RxErr io_timeout] quiet_world))
           1%nat io_timeout io_timeout [] 0); reflexivity.
Defined.

(** X13: ping and pong.  On a connection with no transfer active, each
    timeout that is followed by a pong costs one ping and leaves the
    timeout counter at zero: after [n] such rounds [Run] is still running,
    in a state that differs only by the [n] pings sent, however large [n]
    is. *)
Theorem pong_keeps_Run_alive (e : error) (h : Handle) (n : nat) :
  is_timeout e = true ->
  forall (s : State) (rest : list RxItem),
    conn (cl s) = Some h ->
    timeouts (cl s) = 0 ->
    flashing s = false ->
    rx (wd s) = timeout_then_pong e n ++ rest ->
    exists s',
      (forall fuel, Run (2 * n + fuel) s = Run fuel s') /\
      cl s' = cl s /\
      sent (trace (wd s')) = sent (trace (wd s)) ++ repeat (h, [cmdPing]) n /\
      rx (wd s') = rest.
Proof.
  intros He. induction n as [|n IH]; intros s rest Hc Ht Hf Hrx.
  - exists s. cbn in Hrx. rewrite app_nil_r. auto.
  - unfold timeout_then_pong in Hrx. cbn [repeat concat app] in Hrx.
    pose proof (Run_iter_first_timeout s h e _ Hc Ht Hf Hrx He) as E1.
    set (s1 := mkState (set_timeouts 1 (cl s))
                       (writeByte_world h cmdPing
                          (delivered (RxByte cmdPong :: concat (repeat [RxErr e; RxByte cmdPong] n) ++ rest)
                             (wd s)))) in *.
    assert (E2 : Run_iter s1 =
              (Val Continue,
               mkState (set_timeouts 0 (cl s1))
                       (delivered (timeout_then_pong e n ++ rest) (wd s1)))).
    { rewrite (Run_iter_dispatch s1 h cmdPong (timeout_then_pong e n ++ rest));
        [reflexivity | exact Hc |].
      subst s1. cbn [wd]. rewrite writeByte_world_rx. apply delivered_rx. }
    set (s2 := mkState (set_timeouts 0 (cl s1)) (delivered (timeout_then_pong e n ++ rest) (wd s1))) in *.
    assert (Hcl : cl s2 = cl s).
    { subst s2 s1. cbn [cl]. destruct (cl s). cbn in *. now subst. }
    destruct (IH s2 rest) as (s' & Hrun & Hc' & Hs' & Hrx').
    + rewrite Hcl. exact Hc.
    + rewrite Hcl. exact Ht.
    + unfold flashing. rewrite Hcl. apply (flashing_at_expired _ (now (wd s))); [exact Hf|].
      subst s2 s1. cbn [wd]. rewrite delivered_now.
      etransitivity; [|apply writeByte_world_now]. rewrite delivered_now. lia.
    + subst s2. cbn [wd]. apply delivered_rx.
    + exists s'. split; [|split; [congruence|split; [|exact Hrx']]].
      * intros fuel. replace (2 * S n + fuel)%nat with (S (S (2 * n + fuel))) by lia.
        cbn [Run]. rewrite (bind_Val _ _ _ _ _ E1). cbv beta iota.
        rewrite (bind_Val _ _ _ _ _ E2). cbv beta iota. apply Hrun.
      * rewrite Hs'. subst s2 s1. cbn [wd]. rewrite delivered_trace.
        rewrite writeByte_world_sent, delivered_trace.
        cbn [repeat]. rewrite <- app_assoc. reflexivity.
Qed.

(** Three rounds of timeout and pong. *)
Lemma pong_keeps_Run_alive_witness :
  let s := mkState (connected 1%nat) (set_rx (timeout_then_pong io_timeout 3) quiet_world) in
  is_timeout io_timeout = true /\
  conn (cl s) = Some 1%nat /\
  timeouts (cl s) = 0 /\
  flashing s = false /\
  rx (wd s) = timeout_then_pong io_timeout 3 ++ [] /\
  exists s',
    (forall fuel, Run (2 * 3 + fuel) s = Run fuel s') /\
    cl s' = cl s /\
    sent (trace (wd s')) = sent (trace (wd s)) ++ repeat (1%nat, [cmdPing]) 3 /\
    rx (wd s') = [].
Proof.
  repeat (split; [reflexivity|]).
  apply (pong_keeps_Run_alive io_timeout 1%nat 3 eq_refl
           (mkState (connected 1%nat) (set_rx (timeout_then_pong io_timeout 3) quiet_world)) []);
    reflexivity.
Defined.

(** X14: after Close.  When [Close] succeeds, a [Run] that follows returns
    nil without reading from the socket and without sending anything: all
    that happened is that the field was set to nil and the socket
    closed. *)
Theorem Run_after_Close_returns_nil (s : State) (h : Handle) (fuel : nat) :
  conn (cl s) = Some h ->
  fst (next None (closes (wd s))) = None ->
  exists s',
    (_ <- Close ;; Run (S fuel))%monad s = (Val None, s') /\
    conn (cl s') = None /\
    trace (wd s') = trace (wd s) ++ [EvStoreConn None; EvSockClose h] /\
    rx (wd s') = rx (wd s).
Proof.
  intros Hc Hcl. pose proof (Close_held s h Hc) as E.
  destruct (next None (closes (wd s))) as [r rest]. cbn [fst] in Hcl. subst r.
  rewrite (bind_Val _ _ _ _ _ E). cbn [Run].
  erewrite bind_Val by (apply Run_iter_closed; reflexivity).
  eexists. split; [reflexivity|]. split; [reflexivity|].
  destruct s as [c w]. destruct w. split; reflexivity.
Qed.

(** The user quits. *)
Lemma Run_after_Close_returns_nil_witness :
  let s := mkState (connected 1%nat) (world_receiving [cmdPong]) in
  conn (cl s) = Some 1%nat /\
  fst (next None (closes (wd s))) = None /\
  exists s',
    (_ <- Close ;; Run 1)%monad s = (Val None, s') /\
    conn (cl s') = None /\
    trace (wd s') = trace (wd s) ++ [EvStoreConn None; EvSockClose 1%nat] /\
    rx (wd s') = rx (wd s).
Proof.
  split; [reflexivity|]. split; [reflexivity|].
  apply (Run_after_Close_returns_nil
           (mkState (connected 1%nat) (world_receiving [cmdPong])) 1%nat 0); reflexivity.
Defined.

Lemma take_rx_cut front : forall e rest n,
  (length front < n)%nat ->
  take_rx (map RxByte front ++ RxErr e :: rest) n = (front, Some e, rest, 0).
Proof.
  induction front as [|b front IH]; intros e rest n Hn; destruct n as [|n]; cbn in Hn; try lia.
  - reflexivity.
  - cbn [map app take_rx]. rewrite IH by lia. reflexivity.
Qed.

Lemma ReadFull_cut h n front e rest s :
  rx (wd s) = map RxByte front ++ RxErr e :: rest ->
  len front < n ->
  ReadFull h n s = (Val (front, Some e), mkState (cl s) (delivered rest (wd s))).
Proof.
  intros Hrx Hn. unfold ReadFull. rewrite bind_get_wd, Hrx.
  rewrite take_rx_cut by (unfold len in Hn; lia).
  rewrite bind_modify_wd. fields. rewrite world_now_0. reflexivity.
Qed.

(** X15: a blob cut short by a tolerated timeout.  The length field has
    arrived and announces more bytes than arrive before a read times out.
    With the timeout counter at zero and no transfer active,
    [handleError] accepts the timeout (and pings), so [readBlob] reports
    no error: it returns a blob of the announced length whose front is
    what arrived and whose rest is zero bytes. *)
Theorem readBlob_cut_short_is_zero_filled
    (s : State) (h : Handle) (width : Z) (size front : list byte)
    (e : error) (rest : list RxItem) :
  conn (cl s) = Some h ->
  timeouts (cl s) = 0 ->
  flashing s = false ->
  is_timeout e = true ->
  rx (wd s) = map RxByte (size ++ front) ++ RxErr e :: rest ->
  len size = width ->
  len front < be_uint size ->
  exists data,
    readBlob h width s =
      (Val (data, None),
       mkState (set_timeouts 1 (cl s))
               (writeByte_world h cmdPing (delivered rest (wd s)))) /\
    len data = be_uint size /\
    firstn (length front) data = front /\
    skipn (length front) data = repeat x00 (Z.to_nat (be_uint size - len front)).
Proof.
  intros Hc Ht Hf He Hrx Hw Hlt.
  rewrite map_RxByte_app in Hrx. unfold readBlob.
  erewrite bind_Val by (apply (binary_Read_bytes h width _ size); [exact Hrx | now symmetry]).
  cbv beta iota. rewrite (bind_Val _ _ _ _ _ (handleError_nil _)). cbn [negb].
  erewrite bind_Val by
    (apply (ReadFull_cut h _ front e rest); [cbn [wd]; apply delivered_rx | exact Hlt]).
  cbv beta iota.
  erewrite bind_Val by
    (apply (handleError_keepalive e _ h He); [exact Ht | | exact Hc];
     rewrite <- Hf; unfold flashing; cbn [cl wd]; now rewrite !delivered_now).
  cbn [negb]. eexists. split; [|split; [|split]].
  - unfold ret. cbn [cl wd]. rewrite delivered_delivered. reflexivity.
  - rewrite len_app, len_repeat. lia.
  - rewrite firstn_app, Nat.sub_diag, firstn_all. cbn [firstn]. apply app_nil_r.
  - rewrite skipn_app, Nat.sub_diag, skipn_all. reflexivity.
Qed.

(** Eight bytes announced, three arrive. *)
Lemma readBlob_cut_short_is_zero_filled_witness :
  let e := io_timeout in
  let s := mkState (connected 1%nat)
             (set_rx (map RxByte ([x00; x00; x00; x08] ++ [x41; x42; x43]) ++ [RxErr e])
                     quiet_world) in
  exists data,
    readBlob 1%nat 4 s =
      (Val (data, None),
       mkState (set_timeouts 1 (cl s))
               (writeByte_world 1%nat cmdPing (delivered [] (wd s)))) /\
    len data = be_uint [x00; x00; x00; x08] /\
    firstn 3 data = [x41; x42; x43] /\
    skipn 3 data = repeat x00 (Z.to_nat (be_uint [x00; x00; x00; x08] - 3)).
Proof.
  apply (readBlob_cut_short_is_zero_filled
           (mkState (connected 1%nat)
              (set_rx (map RxByte ([x00; x00; x00; x08] ++ [x41; x42; x43]) ++ [RxErr io_timeout])
                      quiet_world))
           1%nat 4 [x00; x00; x00; x08] [x41; x42; x43] io_timeout []);
    reflexivity.
Defined.

Lemma binary_Read_error h n old e rest s :
  rx (wd s) = RxErr e :: rest ->
  0 < n ->
  binary_Read h n old s = (Val (old, Some e), mkState (cl s) (delivered rest (wd s))).
Proof.
  intros Hrx Hn. unfold binary_Read.
  rewrite (bind_Val _ _ _ _ _ (ReadFull_error h n e rest s Hrx Hn)). reflexivity.
Qed.

(** X16: a configuration response whose length never arrives.  [Run] reads
    the opcode of a configuration response and the read of its length
    times out.  With no transfer active the timeout is accepted (the
    counter was reset by the opcode) and the length is taken to be zero:
    the host pings, the pending callback is handed the zero
    configuration, the callback is cleared and [Run] goes on. *)
Theorem config_length_timeout_gives_zero_config
    (s : State) (h : Handle) (f : Callback) (e : error) (rest : list RxItem) :
  conn (cl s) = Some h ->
  flashing s = false ->
  onConfig (cl s) = Some f ->
  is_timeout e = true ->
  rx (wd s) = RxByte cmdConfig :: RxErr e :: rest ->
  exists s',
    Run_iter s = (Val Continue, s') /\
    invoked (trace (wd s')) = invoked (trace (wd s)) ++ [(f, HostConfig_zero)] /\
    sent (trace (wd s')) = sent (trace (wd s)) ++ [(h, [cmdPing])] /\
    onConfig (cl s') = None /\
    timeouts (cl s') = 1 /\
    rx (wd s') = rest.
Proof.
  intros Hc Hf Hon He Hrx.
  rewrite (Run_iter_dispatch s h cmdConfig _ Hc Hrx).
  change (dispatch h cmdConfig) with (case_Config h). unfold case_Config.
  erewrite bind_Val by
    (apply (binary_Read_error h 2 0 e rest); [cbn [wd]; apply delivered_rx | reflexivity]).
  cbv beta iota.
  erewrite bind_Val by
    (apply (handleError_keepalive e _ h He); [reflexivity | | exact Hc];
     rewrite <- Hf; unfold flashing; cbn [cl wd]; now rewrite !delivered_now).
  cbn [negb Z.gtb Z.compare]. rewrite bind_ret, bind_get_cl.
  cbn [cl]. replace (onConfig (set_timeouts 1 (set_timeouts 0 (cl s)))) with (Some f)
    by (destruct (cl s); cbn in *; congruence).
  rewrite bind_assoc, bind_emit, bind_ret, bind_modify_cl. unfold ret.
  eexists. split; [reflexivity|]. cbn [cl wd].
  rewrite delivered_delivered.
  split; [|split; [|split; [|split]]].
  - destruct s as [c w]. destruct w. cbn. rewrite invoked_app.
    rewrite writeByte_world_invoked. cbn. reflexivity.
  - destruct s as [c w]. destruct w. cbn -[sent writeByte_world]. rewrite sent_app.
    rewrite writeByte_world_sent. cbn. now rewrite app_nil_r.
  - destruct (cl s); reflexivity.
  - destruct (cl s); reflexivity.
  - destruct s as [c w]. destruct w. cbn -[writeByte_world]. now rewrite writeByte_world_rx.
Qed.

(** A callback is pending and the device goes silent after the opcode. *)
Lemma config_length_timeout_gives_zero_config_witness :
  let s := mkState (set_onConfig (Some 7%nat) (connected 1%nat))
                   (set_rx [RxByte cmdConfig; RxErr io_timeout] quiet_world) in
  exists s',
    Run_iter s = (Val Continue, s') /\
    invoked (trace (wd s')) = invoked (trace (wd s)) ++ [(7%nat, HostConfig_zero)] /\
    sent (trace (wd s')) = sent (trace (wd s)) ++ [(1%nat, [cmdPing])] /\
    onConfig (cl s') = None /\
    timeouts (cl s') = 1 /\
    rx (wd s') = [].
Proof.
  apply (config_length_timeout_gives_zero_config
           (mkState (set_onConfig (Some 7%nat) (connected 1%nat))
                    (set_rx [RxByte cmdConfig; RxErr io_timeout] quiet_world))
           1%nat 7%nat io_timeout []); reflexivity.
Defined.

Lemma coredump_blob_step s h size data rest :
  conn (cl s) = Some h ->
  rx (wd s) = map RxByte (cmdCoredumpRead :: size ++ data) ++ rest ->
  len size = 4 ->
  be_uint size = len data ->
  4 <= len data ->
  (user_asked (wd s) = true ->
   runs_tool (accepted_choice (stdin (wd s))) = true -> stdin_km (cl s) = true) ->
  exists s',
    Run_iter s = (Val Continue, s') /\
    cl s' = set_timeouts 0 (cl s) /\
    sent (trace (wd s')) =
      sent (trace (wd s)) ++
      [(h, [if user_chose_delete (wd s) then cmdCoredumpErase else cmdContinue])] /\
    rx (wd s') = rest.
Proof.
  intros Hc Hrx Hw Hsz Hlen Hkm. cbn [map app] in Hrx.
  rewrite (Run_iter_dispatch s h cmdCoredumpRead _ Hc Hrx).
  change (dispatch h cmdCoredumpRead) with (case_CoredumpRead h).
  unfold case_CoredumpRead, readBlob32.
  erewrite bind_Val by
    (apply (readBlob_whole h 4 size data rest); [cbn [wd]; apply delivered_rx | exact Hw | exact Hsz]).
  cbv beta iota. fields. rewrite delivered_delivered.
  destruct (len data =? 0) eqn:E0; [apply Z.eqb_eq in E0; lia|].
  unfold Fprint. rewrite bind_emit. fields.
  match goal with |- context [bind (DisplayCoreDump data) _ ?st] => set (s1 := st) end.
  assert (Hu : user_chose_delete (wd s1) = user_chose_delete (wd s)).
  { subst s1. destruct s as [c w]. destruct w. reflexivity. }
  destruct (DisplayCoreDump_returns data s1 Hlen) as (err & s2 & E & Hc2 & Hs2 & Hrx2 & _).
  { subst s1. destruct s as [c w]. destruct w. exact Hkm. }
  rewrite (bind_Val _ _ _ _ _ E). cbv beta iota. rewrite Hu.
  assert (Hconn : forall ev, conn (cl (mkState (cl s2) (set_trace (trace (wd s2) ++ ev) (wd s2)))) = Some h).
  { intros ev. cbn [cl]. rewrite Hc2. subst s1. exact Hc. }
  assert (Hsent : sent (trace (wd s2)) = sent (trace (wd s))).
  { rewrite Hs2. subst s1. fields. rewrite sent_app, delivered_trace. cbn. now rewrite app_nil_r. }
  assert (Hrest : rx (wd s2) = rest).
  { rewrite Hrx2. subst s1. fields. apply delivered_rx. }
  assert (Hcl : cl s2 = set_timeouts 0 (cl s)).
  { rewrite Hc2. subst s1. reflexivity. }
  destruct err as [e|]; [unfold Fprint; rewrite bind_emit | rewrite bind_ret];
    destruct (user_chose_delete (wd s));
    (erewrite bind_Val by
       (apply (writeByte_held _ _ h); first [apply (Hconn [_]) | rewrite Hc2; subst s1; exact Hc]));
    (eexists; split; [reflexivity|]); fields; rewrite writeByte_world_sent, writeByte_world_rx; fields;
    rewrite ?sent_app, Hsent; cbn; rewrite ?app_nil_r;
    (split; [exact Hcl | split; [reflexivity | first [exact Hrest | destruct (wd s2); exact Hrest]]]).
Qed.

Lemma erase_ack_step s h rest :
  conn (cl s) = Some h ->
  rx (wd s) = RxByte cmdCoredumpErase :: rest ->
  Run_iter s =
    (Val Continue,
     mkState (set_timeouts 0 (cl s)) (writeByte_world h cmdContinue (delivered rest (wd s)))).
Proof.
  intros Hc Hrx. rewrite (Run_iter_dispatch s h cmdCoredumpErase _ Hc Hrx).
  change (dispatch h cmdCoredumpErase) with (_ <- writeByte cmdContinue ;; ret Continue)%monad.
  erewrite bind_Val by (apply (writeByte_held _ _ h); exact Hc).
  reflexivity.
Qed.

(** X17: the start of a session, end to end.  The dial succeeds; the device
    answers the probe with a stored core dump of at least four bytes, the
    user chooses delete, and the device acknowledges the erase.  Then the
    host has sent exactly three one-byte messages on the new socket, in
    this order: core-dump-read (by [Connect]), core-dump-erase, and
    continue; and [Run] goes on with what the device sends next. *)
Theorem session_start_with_delete
    (s : State) (h : Handle) (drest : list (Handle + error))
    (size data : list byte) (rest : list RxItem) :
  dials (wd s) = inl h :: drest ->
  rx (wd s) = map RxByte (cmdCoredumpRead :: size ++ data) ++ RxByte cmdCoredumpErase :: rest ->
  len size = 4 ->
  be_uint size = len data ->
  4 <= len data ->
  user_chose_delete (wd s) = true ->
  exists s',
    (_ <- Connect ;; _ <- Run_iter ;; Run_iter)%monad s = (Val Continue, s') /\
    sent (trace (wd s')) =
      sent (trace (wd s)) ++
      [(h, [cmdCoredumpRead]); (h, [cmdCoredumpErase]); (h, [cmdContinue])] /\
    conn (cl s') = Some h /\
    rx (wd s') = rest.
Proof.
  intros Hd Hrx Hw Hsz Hlen Hdel.
  rewrite (bind_Val _ _ _ _ _ (Connect_dialled s h drest Hd)).
  match goal with |- context [bind Run_iter _ ?st] => set (s1 := st) end.
  assert (Hu : user_chose_delete (wd s1) = true).
  { rewrite <- Hdel. subst s1. cbn [wd]. unfold dialled_world, writeByte_world.
    destruct s as [c w]. destruct w. cbn.
    destruct (next None writes0) as [[e|] ws]; reflexivity. }
  destruct (coredump_blob_step s1 h size data (RxByte cmdCoredumpErase :: rest))
    as (s2 & E & Hcl & Hs & Hrx2); [reflexivity | | exact Hw | exact Hsz | exact Hlen | |].
  { subst s1. cbn [wd]. unfold dialled_world. rewrite writeByte_world_rx.
    destruct s as [c w]. destruct w. exact Hrx. }
  { intros _ Hr. apply runs_tool_not_delete in Hr.
    unfold user_chose_delete in Hu. apply andb_prop in Hu. destruct Hu as [_ Hu].
    congruence. }
  rewrite (bind_Val _ _ _ _ _ E).
  assert (Hc2 : conn (cl s2) = Some h) by (rewrite Hcl; reflexivity).
  rewrite (erase_ack_step s2 h rest Hc2 Hrx2).
  eexists. split; [reflexivity|]. cbn [cl wd].
  rewrite writeByte_world_sent, writeByte_world_rx, delivered_trace, delivered_rx, Hs, Hu.
  split; [|split; [exact Hc2 | reflexivity]].
  subst s1. cbn [wd]. unfold dialled_world. rewrite writeByte_world_sent.
  destruct s as [c w]. destruct w. cbn -[sent]. rewrite sent_app. cbn.
  rewrite app_nil_r, <- !app_assoc. reflexivity.
Qed.

(** A dump of four bytes, the answer [d], and the acknowledgement. *)
Lemma session_start_with_delete_witness :
  let s := mkState (NewClient esp_host true)
             (set_dials [inl 1%nat]
                (set_stdin ["d"]
                   (world_receiving
                      (cmdCoredumpRead :: [x00; x00; x00; x04] ++ [x45; x4c; x46; x00]
                         ++ [cmdCoredumpErase])))) in
  user_chose_delete (wd s) = true /\
  exists s',
    (_ <- Connect ;; _ <- Run_iter ;; Run_iter)%monad s = (Val Continue, s') /\
    sent (trace (wd s')) =
      sent (trace (wd s)) ++
      [(1%nat, [cmdCoredumpRead]); (1%nat, [cmdCoredumpErase]); (1%nat, [cmdContinue])] /\
    conn (cl s') = Some 1%nat /\
    rx (wd s') = [].
Proof.
  split; [reflexivity|].
  apply (session_start_with_delete
           (mkState (NewClient esp_host true)
              (set_dials [inl 1%nat]
                 (set_stdin ["d"]
                    (world_receiving
                       (cmdCoredumpRead :: [x00; x00; x00; x04] ++ [x45; x4c; x46; x00]
                          ++ [cmdCoredumpErase])))))
           1%nat [] [x00; x00; x00; x04] [x45; x4c; x46; x00] []); reflexivity.
Defined.

(* ================================================================= *)
(** ** More of part_001 and coredump.go *)

(** X18: [PromptUser] returns the first acceptable answer.  With a
    validator that only looks at the answer, and an input whose first
    lines are rejected once trimmed and whose next line is accepted,
    [PromptUser] returns that line trimmed; it has printed the prompt once
    per line read and has read no further. *)
Theorem PromptUser_returns_first_valid_answer
    (valid : string -> bool) (p : string) (rejected : list string)
    (line : string) (rest : list string) :
  forallb (fun l => negb (valid (TrimSpace l))) rejected = true ->
  valid (TrimSpace line) = true ->
  forall (fuel : nat) (s : State),
    stdin (wd s) = rejected ++ line :: rest ->
    (length rejected < fuel)%nat ->
    PromptUser fuel p (answer_check valid) tt s =
      (Val (TrimSpace line, tt),
       mkState (cl s)
         (set_stdin rest
            (set_trace (trace (wd s)
                          ++ repeat (EvPrint Stdout (MsgPrompt p)) (S (length rejected)))
                       (wd s)))).
Proof.
  intros Hrej Hok. induction rejected as [|r rs IH]; intros fuel s Hin Hfuel;
    (destruct fuel as [|fuel]; [inversion Hfuel|]);
    rewrite PromptUser_step, Hin; cbn [app next fst snd]; cbv zeta;
    unfold answer_check; rewrite bind_ret; cbn [fst snd].
  - rewrite Hok. destruct s as [c w]. destruct w. reflexivity.
  - cbn [forallb] in Hrej. apply andb_prop in Hrej. destruct Hrej as [Hr Hrs].
    apply negb_true_iff in Hr. rewrite Hr.
    change (fun (st : string) (_ : unit) => ret (valid st, tt)) with (answer_check valid).
    rewrite (IH Hrs fuel); [| destruct s as [c w]; destruct w; reflexivity | cbn in Hfuel; lia].
    destruct s as [c w]. destruct w. cbn. rewrite <- app_assoc. reflexivity.
Qed.

(** Two answers that are not numbers, then one. *)
Lemma PromptUser_returns_first_valid_answer_witness :
  let valid := fun st => String.eqb st "2" in
  let s := mkState (connected 1%nat) (set_stdin ["x"; " "; " 2 "; "3"] quiet_world) in
  PromptUser 5 "choose: " (answer_check valid) tt s =
    (Val ("2", tt),
     mkState (cl s)
       (set_stdin ["3"]
          (set_trace (trace (wd s) ++ repeat (EvPrint Stdout (MsgPrompt "choose: ")) 3)
                     (wd s)))).
Proof.
  apply (PromptUser_returns_first_valid_answer
           (fun st => String.eqb st "2") "choose: " ["x"; " "] " 2 " ["3"]
           eq_refl eq_refl 5
           (mkState (connected 1%nat) (set_stdin ["x"; " "; " 2 "; "3"] quiet_world)));
    [reflexivity | cbn; lia].
Defined.

(** X19: [PromptUser] at the end of the input.  When the validator rejects
    every line that is left and also the empty answer, which is what a
    read at the end of the input yields, the loop of [PromptUser] has no
    exit: it does not return within any number of rounds, and prints the
    prompt in each. *)
Theorem PromptUser_never_returns_at_end_of_input
    (valid : string -> bool) (p : string) :
  valid EmptyString = false ->
  forall (fuel : nat) (s : State),
    forallb (fun l => negb (valid (TrimSpace l))) (stdin (wd s)) = true ->
    PromptUser fuel p (answer_check valid) tt s =
      (OutOfFuel,
       mkState (cl s)
         (set_stdin (skipn fuel (stdin (wd s)))
            (set_trace (trace (wd s) ++ repeat (EvPrint Stdout (MsgPrompt p)) fuel) (wd s)))).
Proof.
  intros Hempty. induction fuel as [|fuel IH]; intros s Hrej.
  - cbn. destruct s as [c w]. destruct w. cbn. now rewrite app_nil_r.
  - rewrite PromptUser_step. cbv zeta. unfold answer_check. rewrite bind_ret. cbn [fst snd].
    change (fun (st : string) (_ : unit) => ret (valid st, tt)) with (answer_check valid).
    destruct s as [c w]. destruct w as [n t r ws cs ds rf tf fw fc si tl].
    cbn [wd stdin cl trace] in *.
    destruct si as [|l ls]; cbn [next fst snd].
    + change (TrimSpace EmptyString) with EmptyString. rewrite Hempty.
      rewrite IH by reflexivity. cbn. destruct fuel; cbn; rewrite <- app_assoc; reflexivity.
    + cbn [forallb] in Hrej. apply andb_prop in Hrej. destruct Hrej as [Hr Hrs].
      apply negb_true_iff in Hr. rewrite Hr.
      rewrite IH by exact Hrs. cbn. rewrite <- app_assoc. reflexivity.
Qed.

Lemma PromptUser_never_returns_at_end_of_input_witness :
  let valid := fun st => String.eqb st "2" in
  let s := mkState (connected 1%nat) (set_stdin ["x"] quiet_world) in
  PromptUser 4 "choose: " (answer_check valid) tt s =
    (OutOfFuel,
     mkState (cl s)
       (set_stdin (skipn 4 (stdin (wd s)))
          (set_trace (trace (wd s) ++ repeat (EvPrint Stdout (MsgPrompt "choose: ")) 4) (wd s)))).
Proof.
  apply (PromptUser_never_returns_at_end_of_input
           (fun st => String.eqb st "2") "choose: " eq_refl 4
           (mkState (connected 1%nat) (set_stdin ["x"] quiet_world))); reflexivity.
Defined.

Lemma delete_is_valid st : member st ["d"; "D"] = true -> valid_choice st = true.
Proof.
  intros H. unfold valid_choice. rewrite H. now rewrite orb_true_r.
Qed.

Lemma coredump_choice_del name st s ok del err s' :
  coredump_choice name st (false, None) s = (Val (ok, (del, err)), s') ->
  del = true ->
  err = None /\ member st ["d"; "D"] = true.
Proof.
  unfold coredump_choice.
  destruct (member st ["v"; "V"; EmptyString]);
    [|destruct (member st ["g"; "G"]);
      [|destruct (member st ["d"; "D"]); [|destruct (member st ["i"; "I"])]]];
    try (unfold bind;
         match goal with |- context [runEspCoredump ?a ?b ?c] =>
           destruct (runEspCoredump a b c) as [[[e|]| |] s2] end);
    unfold ret; intros H Hd; inversion H; subst; try discriminate; auto.
Qed.

Lemma coredump_choice_not_ok name st vars s vars' s' :
  coredump_choice name st vars s = (Val (false, vars'), s') ->
  valid_choice st = false /\ vars' = vars /\ s' = s.
Proof.
  unfold coredump_choice, valid_choice, runs_tool. destruct vars as [del r].
  destruct (member st ["v"; "V"; EmptyString]);
    [|destruct (member st ["g"; "G"]);
      [|destruct (member st ["d"; "D"]); [|destruct (member st ["i"; "I"])]]];
    try (unfold bind;
         match goal with |- context [runEspCoredump ?a ?b ?c] =>
           destruct (runEspCoredump a b c) as [[[e|]| |] s2] end);
    unfold ret; intros H; inversion H; subst; auto.
Qed.

Lemma PromptUser_coredump_del name : forall fuel s st del err s',
  PromptUser fuel coredump_prompt (coredump_choice name) (false, None) s =
    (Val (st, (del, err)), s') ->
  del = true ->
  err = None /\ member (accepted_choice (stdin (wd s))) ["d"; "D"] = true.
Proof.
  induction fuel as [|fuel IH]; intros s st del err s' H Hd; [discriminate H|].
  rewrite PromptUser_step in H. cbv zeta in H. unfold bind in H.
  match type of H with context [coredump_choice name ?a ?b ?c] =>
    destruct (coredump_choice name a b c) as [[[ok [del0 err0]]| |] s2] eqn:E end;
    try discriminate H.
  cbn [fst snd] in H. destruct ok.
  - unfold ret in H. inversion H; subst. clear H.
    destruct (coredump_choice_del _ _ _ _ _ _ _ E eq_refl) as [-> Hm].
    split; [reflexivity|].
    destruct (stdin (wd s)) as [|l ls]; cbn [next fst accepted_choice] in *.
    + exact Hm.
    + now rewrite (delete_is_valid _ Hm).
  - destruct (coredump_choice_not_ok _ _ _ _ _ _ E) as (Hv & Hvars & ->).
    inversion Hvars; subst. clear Hvars.
    destruct (IH _ _ _ _ _ H eq_refl) as [-> Hm]. split; [reflexivity|].
    destruct s as [c w]. destruct w as [n t r ws cs ds rf tf fw fc si tl].
    cbn [wd stdin set_stdin set_trace] in *.
    destruct si as [|l ls]; cbn [next fst snd accepted_choice] in *.
    + exact Hm.
    + now rewrite Hv.
Qed.

(** X20: when [DisplayCoreDump] asks for deletion.  Whatever the blob and
    whatever the file system and the tool do: if [DisplayCoreDump] returns
    with [del] set, then the answer the user gave was [d] or [D], and the
    error returned with it is nil. *)
Theorem DisplayCoreDump_deletes_only_on_request
    (data : list byte) (s s' : State) (err : option error) :
  DisplayCoreDump data s = (Val (true, err), s') ->
  err = None /\ member (accepted_choice (stdin (wd s))) ["d"; "D"] = true.
Proof.
  unfold DisplayCoreDump. rewrite (bind_Val _ _ _ _ _ (TempFile_eq s)).
  destruct s as [c w]. destruct w as [n t r ws cs ds rf tf fw fc si tl].
  cbn [wd cl tempfiles stdin].
  destruct (next (inl "core.0") tf) as [[name|e] rest]; cbn [fst snd];
    [|unfold ret; intros H; inversion H].
  unfold defer, os_Remove, emit.
  match goal with |- context [bind (slice_from data 4) ?k ?st] =>
    destruct (bind (slice_from data 4) k st) as [[[d0 e0]| |] s2] eqn:E end;
    intros H; inversion H; subst; clear H.
  unfold slice_from in E. destruct (4 <=? len data); [|discriminate E].
  rewrite bind_ret in E.
  rewrite (bind_Val _ _ _ _ _ (File_Write_eq name _ _)) in E. fields.
  destruct (fst (next None fw)) as [e|]; cbv beta iota in E.
  { rewrite (bind_Val _ _ _ _ _ (File_Close_eq name _)) in E. inversion E. }
  rewrite (bind_Val _ _ _ _ _ (File_Close_eq name _)) in E. fields.
  destruct (fst (next None fc)) as [e|]; cbv beta iota in E; [inversion E|].
  rewrite bind_get_wd in E. fields. unfold bind in E.
  match type of E with context [PromptUser ?f ?p ?v ?l ?st] =>
    destruct (PromptUser f p v l st) as [[[st0 [d1 e1]]| |] s3] eqn:EP end;
    try discriminate E.
  unfold ret in E. inversion E; subst.
  apply (PromptUser_coredump_del _ _ _ _ _ _ _ EP eq_refl).
Qed.

(** The user answers [d]. *)
Lemma DisplayCoreDump_deletes_only_on_request_witness :
  let data := [x00; x00; x00; x00; x45] in
  let s := mkState (connected 1%nat) (set_stdin ["d"] quiet_world) in
  DisplayCoreDump data s = (Val (true, None), snd (DisplayCoreDump data s)) /\
  @None error = None /\
  member (accepted_choice (stdin (wd s))) ["d"; "D"] = true.
Proof.
  split; [reflexivity|].
  apply (DisplayCoreDump_deletes_only_on_request
           [x00; x00; x00; x00; x45]
           (mkState (connected 1%nat) (set_stdin ["d"] quiet_world))
           (snd (DisplayCoreDump [x00; x00; x00; x00; x45]
                   (mkState (connected 1%nat) (set_stdin ["d"] quiet_world))))
           None).
  reflexivity.
Defined.

Lemma runEspCoredump_trace name op s :
  exists evs,
    trace (wd (snd (runEspCoredump name op s))) = trace (wd s) ++ evs /\
    forallb (asks_or_runs name) evs = true.
Proof.
  unfold runEspCoredump. rewrite bind_get_cl.
  destruct s as [c w]. destruct w as [n t r ws cs ds rf tf fw fc si tl].
  cbn [cl]. destruct (stdin_km c).
  - exists [EvEspCoredump op name]. rewrite bind_emit, bind_get_wd. cbn [wd tools set_trace].
    destruct (next None tl) as [r0 rest]. rewrite bind_modify_wd. cbn.
    now rewrite String.eqb_refl.
  - exists []. cbn. now rewrite app_nil_r.
Qed.

Lemma coredump_choice_trace name st vars s :
  exists evs,
    trace (wd (snd (coredump_choice name st vars s))) = trace (wd s) ++ evs /\
    forallb (asks_or_runs name) evs = true.
Proof.
  assert (Hnil : exists evs, trace (wd s) = trace (wd s) ++ evs /\
                             forallb (asks_or_runs name) evs = true)
    by (exists []; now rewrite app_nil_r).
  unfold coredump_choice. destruct vars as [del r].
  destruct (member st ["v"; "V"; EmptyString]);
    [|destruct (member st ["g"; "G"]);
      [|destruct (member st ["d"; "D"]); [|destruct (member st ["i"; "I"])]]];
    try exact Hnil;
    unfold bind;
    match goal with |- context [runEspCoredump ?a ?b ?c] =>
      destruct (runEspCoredump_trace a b c) as (evs & Ht & Hp);
      destruct (runEspCoredump a b c) as [[[e|]| |] s2] end;
    exists evs; auto.
Qed.

Lemma PromptUser_coredump_trace name : forall fuel vars s,
  exists evs,
    trace (wd (snd (PromptUser fuel coredump_prompt (coredump_choice name) vars s))) =
      trace (wd s) ++ evs /\
    forallb (asks_or_runs name) evs = true.
Proof.
  induction fuel as [|fuel IH]; intros vars s.
  - exists []. cbn. now rewrite app_nil_r.
  - rewrite PromptUser_step. cbv zeta. unfold bind.
    match goal with |- context [coredump_choice name ?a ?b ?c] =>
      destruct (coredump_choice_trace name a b c) as (evs & Ht & Hp);
      destruct (coredump_choice name a b c) as [[[ok vars']| |] s2] end;
      cbn [fst snd] in *.
    + destruct ok.
      * exists (EvPrint Stdout (MsgPrompt coredump_prompt) :: evs).
        unfold ret. cbn [snd]. rewrite Ht.
        destruct s as [c w]. destruct w. cbn. rewrite <- app_assoc. auto.
      * destruct (IH vars' s2) as (evs' & Ht' & Hp').
        exists (EvPrint Stdout (MsgPrompt coredump_prompt) :: evs ++ evs').
        rewrite Ht', Ht. destruct s as [c w]. destruct w. cbn.
        rewrite forallb_app, Hp, Hp', <- !app_assoc. auto.
    + exists (EvPrint Stdout (MsgPrompt coredump_prompt) :: evs). rewrite Ht.
      destruct s as [c w]. destruct w. cbn. rewrite <- app_assoc. auto.
    + exists (EvPrint Stdout (MsgPrompt coredump_prompt) :: evs). rewrite Ht.
      destruct s as [c w]. destruct w. cbn. rewrite <- app_assoc. auto.
Qed.

(** X21: the life of the core file.  When the temporary file can be made and
    the blob has its four bytes of magic, then whatever the writes, the
    user and the tool do, and also when [runEspCoredump] panics: the file
    receives the blob without its first four bytes, in one write, and is
    closed; after that the user is asked and the tool is run on that file,
    and nothing else happens to it; and the last thing [DisplayCoreDump]
    does is remove it. *)
Theorem core_file_written_closed_removed (data : list byte) (s : State) (name : string) :
  fst (next (inl "core.0") (tempfiles (wd s))) = inl name ->
  4 <= len data ->
  exists evs,
    trace (wd (snd (DisplayCoreDump data s))) =
      trace (wd s)
        ++ [EvTempFile name; EvFileWrite name (skipn 4%nat data); EvFileClose name]
        ++ evs ++ [EvRemove name] /\
    forallb (asks_or_runs name) evs = true.
Proof.
  intros Hname Hlen. unfold DisplayCoreDump.
  rewrite (bind_Val _ _ _ _ _ (TempFile_eq s)). rewrite Hname.
  match goal with |- context [defer _ ?b ?st] => set (body := b); set (s1 := st) end.
  assert (Hbody : exists evs,
             trace (wd (snd (body s1))) =
               trace (wd s1) ++ [EvFileWrite name (skipn 4%nat data); EvFileClose name] ++ evs /\
             forallb (asks_or_runs name) evs = true).
  { subst body.
    rewrite (bind_Val _ _ _ _ _ (slice_from_in_bounds data 4 _ Hlen)).
    rewrite (bind_Val _ _ _ _ _ (File_Write_eq name _ _)).
    change (Z.to_nat 4) with 4%nat.
    destruct (fst (next None (fwrites (wd s1)))) as [e|]; cbv beta iota.
    { rewrite (bind_Val _ _ _ _ _ (File_Close_eq name _)).
      exists []. cbn -[skipn]. rewrite <- app_assoc. auto. }
    rewrite (bind_Val _ _ _ _ _ (File_Close_eq name _)).
    match goal with |- context [fst (next None (fcloses ?w))] =>
      destruct (fst (next None (fcloses w))) as [e|] end; cbv beta iota.
    { exists []. cbn -[skipn]. rewrite <- app_assoc. auto. }
    rewrite bind_get_wd. unfold bind.
    match goal with |- context [PromptUser ?f ?p ?v ?l ?st] =>
      destruct (PromptUser_coredump_trace name f l st) as (evs & Ht & Hp);
      destruct (PromptUser f p v l st) as [[[st0 vars]| |] s3] end;
      exists evs; cbn [snd] in *; cbv beta iota; unfold ret; cbn [snd];
      rewrite Ht; cbn -[skipn]; rewrite <- !app_assoc; auto. }
  destruct Hbody as (evs & Ht & Hp). exists evs. split; [|exact Hp].
  destruct (body s1) as [r s2] eqn:E. rewrite (defer_Remove name body s1 r s2 E).
  cbn [snd wd trace set_trace] in *. rewrite Ht. subst s1. cbn [wd].
  destruct s as [c w]. destruct w. cbn -[skipn]. rewrite <- !app_assoc. reflexivity.
Qed.

(** The user asks for the tool where [c.stdin] cannot run it: the panic
    does not keep the file from being removed. *)
Lemma core_file_written_closed_removed_witness :
  let data := [x00; x00; x00; x00; x45; x4c] in
  let s := mkState (NewClient esp_host false) (set_stdin ["v"] quiet_world) in
  fst (DisplayCoreDump data s) = Panic TypeAssertion /\
  exists evs,
    trace (wd (snd (DisplayCoreDump data s))) =
      trace (wd s)
        ++ [EvTempFile "core.0"; EvFileWrite "core.0" (skipn 4%nat data); EvFileClose "core.0"]
        ++ evs ++ [EvRemove "core.0"] /\
    forallb (asks_or_runs "core.0") evs = true.
Proof.
  split; [reflexivity|].
  apply (core_file_written_closed_removed
           [x00; x00; x00; x00; x45; x4c]
           (mkState (NewClient esp_host false) (set_stdin ["v"] quiet_world))
           "core.0"); [reflexivity | cbn; lia].
Defined.
